(** * PlexPy API v2 ([plexpy/api2.py]): a shallow embedding of class [API2]

    The request pipeline of [API2] is embedded function by function:
    [_api_validate], the handlers, the result normalisation and
    classification inside [_api_run], [_api_responds] and [_api_out_as].

    Python values are an inductive type [pyval]; the keyword-argument bag is
    a finite map from names to values; the object [self], the module
    [plexpy] and the CherryPy response header are explicit state.  Functions
    that can raise return an [outcome]; state written before a raise is
    kept, as in Python.

    The libraries the file calls ([json], [xmltodict], [traceback],
    [inspect], [random]/[hashlib], [profilehooks]) and the collaborators it
    delegates to ([config], [database], [pmsconnect], [plextv], the log file
    and the settings store) are not part of the file: they are the fields of
    the class [Libs], and every definition is parametric in them.

    Left out of the embedding: the calls of the logger (and so a failure
    while a log line is formatted), exits that are not instances of
    [Exception], and the order in which a Python 2 [dict] hands out its
    keys.  Properties that would depend on one of these say so. *)

From stdpp Require Import base strings gmap list pretty.
From Stdlib Require Import Ascii ZArith Lia Sorted.

Local Open Scope string_scope.
Set Warnings "-register-all".

(** ** Python values *)

(** An exception instance: its class name and [str(e)].  The instances
    modelled are those of subclasses of [Exception], which the clauses
    [except Exception] and the bare [except] of the file both catch; an
    exit that is no [Exception] ([KeyboardInterrupt], [SystemExit]) is
    outside the model. *)
Record exn := Exn { exn_type : string; exn_msg : string }.

(** The values the pipeline handles.  A [dict] has string keys and keeps
    its insertion order; [PObj] is any other object (a database buffer, a
    date), known by its [repr]. *)
Inductive pyval :=
| PNone
| PBool (b : bool)
| PInt (z : Z)
| PStr (s : string)
| PList (l : list pyval)
| PDict (d : list (string * pyval))
| PExn (e : exn)
| PObj (repr : string).

(** The result of evaluating Python code that may raise. *)
Inductive outcome (A : Type) :=
| Return (a : A)
| Raise (e : exn).
Arguments Return {A} a.
Arguments Raise {A} e.

Definition TypeError (m : string) : exn := Exn "TypeError" m.
Definition AttributeError (m : string) : exn := Exn "AttributeError" m.
Definition KeyError (m : string) : exn := Exn "KeyError" m.
Definition ImportError (m : string) : exn := Exn "ImportError" m.

(** Truth value testing ([if v], [not v], [v or w]). *)
Definition truthy (v : pyval) : bool :=
  match v with
  | PNone => false
  | PBool b => b
  | PInt z => negb (Z.eqb z 0)
  | PStr s => negb (String.eqb s "")
  | PList l => match l with [] => false | _ => true end
  | PDict d => match d with [] => false | _ => true end
  | PExn _ => true
  | PObj _ => true
  end.

(** [isinstance(v, (dict, list))]. *)
Definition is_dict_or_list (v : pyval) : bool :=
  match v with
  | PList _ | PDict _ => true
  | _ => false
  end.

(** [v == s] for a string [s]: only a string with the same text is equal. *)
Definition py_eq_str (v : pyval) (s : string) : bool :=
  match v with
  | PStr t => String.eqb t s
  | _ => false
  end.

(** [v in names] for a sequence of strings. *)
Definition py_in (v : pyval) (names : list string) : bool :=
  existsb (py_eq_str v) names.

(** A [dict] with string keys, in insertion order. *)
Fixpoint dict_get (d : list (string * pyval)) (k : string) : option pyval :=
  match d with
  | [] => None
  | (k', v) :: r => if String.eqb k' k then Some v else dict_get r k
  end.

Fixpoint dict_set (d : list (string * pyval)) (k : string) (v : pyval)
  : list (string * pyval) :=
  match d with
  | [] => [(k, v)]
  | (k', v') :: r =>
      if String.eqb k' k then (k', v) :: r else (k', v') :: dict_set r k v
  end.

(** [o[k]]. *)
Definition py_getitem (o : pyval) (k : string) : outcome pyval :=
  match o with
  | PDict d =>
      match dict_get d k with
      | Some v => Return v
      | None => Raise (KeyError k)
      end
  | _ => Raise (TypeError "object has no string-keyed items")
  end.

(** [o[k] = v]: only a [dict] takes a string key. *)
Definition py_setitem (o : pyval) (k : string) (v : pyval) : outcome pyval :=
  match o with
  | PDict d => Return (PDict (dict_set d k v))
  | _ => Raise (TypeError "object does not support item assignment")
  end.

(** [v + s] for a string [s]. *)
Definition py_add_str (v : pyval) (s : string) : outcome string :=
  match v with
  | PStr t => Return (t +:+ s)
  | _ => Raise (TypeError "cannot concatenate to str")
  end.

(** The keyword-argument bag [kwargs]. *)
Abbreviation kwargs_t := (gmap string pyval).

Definition has_key (k : string) (kw : kwargs_t) : bool :=
  match kw !! k with
  | Some _ => true
  | None => false
  end.

(** [kwargs.get(k, default)]. *)
Definition kw_get (k : string) (default : pyval) (kw : kwargs_t) : pyval :=
  match kw !! k with
  | Some v => v
  | None => default
  end.

(** [kwargs.pop(k, default)]: the value and the bag without [k]. *)
Definition kw_pop (k : string) (default : pyval) (kw : kwargs_t)
  : pyval * kwargs_t :=
  (kw_get k default kw, delete k kw).

(** The bag of a call written with keywords. *)
Definition bag (l : list (string * pyval)) : kwargs_t := list_to_map l.

(** Characters [str.split()] splits on. *)
Definition is_space (c : ascii) : bool :=
  let n := nat_of_ascii c in
  (n =? 32)%nat || ((9 <=? n)%nat && (n <=? 13)%nat).

Fixpoint split_ws (cur : string) (s : string) : list string :=
  match s with
  | EmptyString => match cur with EmptyString => [] | _ => [cur] end
  | String c r =>
      if is_space c
      then match cur with
           | EmptyString => split_ws EmptyString r
           | _ => cur :: split_ws EmptyString r
           end
      else split_ws (cur +:+ String c EmptyString) r
  end.

(** [' '.join(s.split())]. *)
Definition collapse_ws (s : string) : string :=
  String.concat " " (split_ws "" s).

(** ** Libraries and collaborators *)

Class Libs := {
  (** [json.dumps(out)] ([false]) and
      [json.dumps(out, indent=4, sort_keys=True)] ([true]). *)
  json_dumps : bool -> pyval -> outcome string;
  (** [json.loads] on a text; [None] is [ValueError], the failure the
      conversion in [_api_run] catches ([TypeError], its other clause, is
      for a value that is no text).  A parser that fails in another way
      (a [RuntimeError] on a text nested too deep) is outside the model. *)
  json_loads : string -> option pyval;
  (** [xmltodict.unparse(out, pretty=True)]. *)
  xmltodict_unparse : pyval -> outcome string;
  (** [xmltodict.parse(text, attr_prefix='')]; [None] is any exception. *)
  xmltodict_parse : string -> option pyval;
  (** [traceback.format_exc()] while the exception is handled. *)
  format_exc : exn -> string;
  (** [repr] of a value that is not a string. *)
  py_repr : pyval -> string;
  (** [inspect.getdoc] of a method of the class. *)
  getdoc : string -> option string;
  (** [hashlib.sha224(str(random.getrandbits(256))).hexdigest()[0:32]] at
      the n-th draw. *)
  random_key : nat -> string;
  (** Whether [from profilehooks import profile] succeeds. *)
  profilehooks_present : bool;
  (** The body of [get_logs] (log file reading, filtering, ordering). *)
  read_logs : kwargs_t -> outcome pyval;
  (** The body of [get_settings] (interface directory, settings store). *)
  read_settings : pyval -> outcome pyval;
  (** In [sql]: the backup check and [MonitorDatabase().select(query)]. *)
  db_select : pyval -> outcome pyval;
  (** [config.make_backup()], [database.make_backup()],
      [pmsconnect.refresh_libraries()], [plextv.refresh_users()]. *)
  config_make_backup : outcome pyval;
  database_make_backup : outcome pyval;
  pmsconnect_refresh_libraries : outcome pyval;
  plextv_refresh_users : outcome pyval
}.

(** ** Configuration, module state and the object *)

(** The entries of [plexpy.CONFIG] the file reads.  [API_KEY],
    [HTTP_USERNAME] and [HTTP_PASSWORD] are strings, empty when unset. *)
Record Config := {
  API_ENABLED : bool;
  API_KEY : string;
  API_SQL : bool;
  HTTP_USERNAME : string;
  HTTP_PASSWORD : string
}.

(** What is shared by all requests: the module [plexpy], the number of
    [CONFIG.write()] calls and of random draws so far, and the
    [Content-Type] header of the CherryPy response. *)
Record Globals := {
  CONFIG : Config;
  SIGNAL : option string;
  (** The module attribute [plexpy.HTTP_USERNAME] ([None]: no such
      attribute), which [get_apikey] reads instead of the configuration
      entry. *)
  MODULE_HTTP_USERNAME : option string;
  config_writes : nat;
  draws : nat;
  content_type : option string
}.

(** The attributes of an [API2] instance.  The last three are the
    attributes [msg], [result_type] and [data] that handlers create;
    [None] means the attribute does not exist. *)
Record API2 := {
  _api_valid_methods : list string;
  _api_authenticated : bool;
  _api_out_type : pyval;
  _api_msg : option string;
  _api_debug : pyval;
  _api_cmd : pyval;
  _api_apikey : pyval;
  _api_callback : pyval;
  _api_result_type : string;
  _api_profileme : pyval;
  _api_kwargs : option kwargs_t;
  msg : option pyval;
  result_type : option pyval;
  data : option pyval
}.

(** The bound methods of the class, as [inspect.getmembers] lists them
    (sorted by name). *)
Definition members : list string :=
  [ "__init__"; "_api_docs"; "_api_make_md"; "_api_out_as"; "_api_responds";
    "_api_run"; "_api_validate"; "backup_config"; "backup_db"; "docs";
    "docs_md"; "get_apikey"; "get_logs"; "get_settings";
    "refresh_libraries_list"; "refresh_users_list"; "restart"; "sql";
    "update" ].

Definition opt_str (o : option string) : pyval :=
  match o with
  | Some s => PStr s
  | None => PNone
  end.

Section Validation.
Context {L : Libs}.

(** [_api_docs(md)]: the doc map, one entry per public method.  The
    entries stand in the order in which the loop inserts them (the order
    of [members]).  The order in which a Python 2 [dict] hands out its
    keys (by hash) is not modelled: of the list [keys()] gives, and of
    the texts joined from it, only what holds in any order is stated. *)
Definition _api_docs (md : bool) : list (string * pyval) :=
  map (fun f =>
         (f, match getdoc f with
             | Some doc =>
                 if truthy (PStr doc)
                 then PStr (if md then doc else collapse_ws doc)
                 else PNone
             | None => PNone
             end))
      (filter (fun f => negb (String.prefix "_" f)
                        && negb (String.prefix "_api" f)) members).

(** [__init__]: the attributes of a new object. *)
Definition __init__ : API2 := {|
  _api_valid_methods := map fst (_api_docs false);
  _api_authenticated := false;
  _api_out_type := PStr "json";
  _api_msg := None;
  _api_debug := PNone;
  _api_cmd := PNone;
  _api_apikey := PNone;
  _api_callback := PNone;
  _api_result_type := "failed";
  _api_profileme := PNone;
  _api_kwargs := None;
  msg := None;
  result_type := None;
  data := None
|}.

(** [str(v)], as ['%s' % v] formats it. *)
Definition py_str (v : pyval) : string :=
  match v with
  | PStr s => s
  | PExn e => exn_msg e
  | _ => py_repr v
  end.

(** The message chosen by the [if]/[elif] chain of [_api_validate];
    [old] is the message before the call, kept when no branch fires. *)
Definition validation_msg (cfg : Config) (methods : list string)
    (old : option string) (kwargs : kwargs_t) : option string :=
  if negb (API_ENABLED cfg) then Some "API not enabled"
  else if negb (truthy (PStr (API_KEY cfg))) then Some "API key not generated"
  else if negb (String.length (API_KEY cfg) =? 32)%nat
       then Some "API key not generated correctly"
  else if negb (has_key "apikey" kwargs)
       then Some "Parameter apikey is required"
  else if negb (py_eq_str (kw_get "apikey" (PStr "") kwargs) (API_KEY cfg))
       then Some "Invalid apikey"
  else if negb (has_key "cmd" kwargs)
       then Some ("Parameter cmd is required. Possible commands are: "
                  +:+ String.concat ", " methods)
  else if has_key "cmd" kwargs
          && negb (py_in (kw_get "cmd" PNone kwargs) methods)
       then Some ("Unknown command: " +:+ py_str (kw_get "cmd" (PStr "") kwargs)
                  +:+ ". Possible commands are: "
                  +:+ String.concat ", " methods)
  else old.

(** [_api_validate] on the bag [kwargs]: the object after the call.  The
    value the method returns is its [_api_kwargs]. *)
Definition _api_validate (cfg : Config) (self : API2) (kwargs : kwargs_t)
  : API2 :=
  let m :=
    validation_msg cfg (_api_valid_methods self) (_api_msg self) kwargs in
  let '(callback, kwargs) := kw_pop "callback" PNone kwargs in
  let '(apikey, kwargs) := kw_pop "apikey" PNone kwargs in
  let '(cmd, kwargs) := kw_pop "cmd" PNone kwargs in
  let '(debug, kwargs) := kw_pop "debug" (PBool false) kwargs in
  let '(profileme, kwargs) := kw_pop "profileme" PNone kwargs in
  let '(out_type, kwargs) := kw_pop "out_type" (PStr "json") kwargs in
  let granted :=
    (py_eq_str apikey (API_KEY cfg) && API_ENABLED cfg
     && py_in cmd (_api_valid_methods self))
    || (py_in cmd ["get_apikey"; "docs"; "docs_md"] && API_ENABLED cfg) in
  {| _api_valid_methods := _api_valid_methods self;
     _api_authenticated := if granted then true else _api_authenticated self;
     _api_out_type := out_type;
     _api_msg := if granted then None else m;
     _api_debug := debug;
     _api_cmd := cmd;
     _api_apikey := apikey;
     _api_callback := callback;
     _api_result_type := _api_result_type self;
     _api_profileme := profileme;
     _api_kwargs := if granted then Some kwargs else _api_kwargs self;
     msg := msg self;
     result_type := result_type self;
     data := data self |}.

End Validation.

(** ** Text constants *)

Definition nl : string := String (ascii_of_nat 10) EmptyString.
Definition dq : string := String (ascii_of_nat 34) EmptyString.
Definition q (s : string) : string := dq +:+ s +:+ dq.
Fixpoint spaces (n : nat) : string :=
  match n with
  | O => EmptyString
  | S m => String (ascii_of_nat 32) (spaces m)
  end.

(** The hand-built document of [_api_out_as], with [m] for [%s]. *)
Definition minimal_xml (m : string) : string :=
  "<?xml version=" +:+ q "1.0" +:+ " encoding=" +:+ q "utf-8" +:+ "?>" +:+ nl
  +:+ spaces 32 +:+ "<response>" +:+ nl
  +:+ spaces 36 +:+ "<message>" +:+ m +:+ "</message>" +:+ nl
  +:+ spaces 36 +:+ "<data></data>" +:+ nl
  +:+ spaces 36 +:+ "<result>error</result>" +:+ nl
  +:+ spaces 32 +:+ "</response>" +:+ nl
  +:+ spaces 26.

(** The preamble [head] of [_api_make_md]. *)
Definition md_head : string :=
  String.concat nl
    [ "# API Reference"; "";
      "The API is still pretty new and needs some serious cleaning up on "
        +:+ "the backend but should be reasonably functional. "
        +:+ "There are no error codes yet.";
      "";
      "## General structure";
      "The API endpoint is `http://ip:port + HTTP_ROOT + "
        +:+ "/api/v2?apikey=$apikey&cmd=$command`";
      "";
      "Response example (default `json`)";
      "```";
      "{";
      "    " +:+ q "response" +:+ ": {";
      "        " +:+ q "data" +:+ ": [";
      "            {";
      "                " +:+ q "loglevel" +:+ ": " +:+ q "INFO" +:+ ",";
      "                " +:+ q "msg" +:+ ": "
        +:+ q "Signal 2 caught, saving and exiting..." +:+ ",";
      "                " +:+ q "thread" +:+ ": " +:+ q "MainThread" +:+ ",";
      "                " +:+ q "time" +:+ ": " +:+ q "22-sep-2015 01:42:56 ";
      "            }";
      "        ],";
      "        " +:+ q "message" +:+ ": null,";
      "        " +:+ q "result" +:+ ": " +:+ q "success";
      "    }";
      "}";
      "```";
      "```";
      "General optional parameters:";
      "";
      "    out_type:   " +:+ q "json" +:+ " or " +:+ q "xml";
      "    callback:   " +:+ q "pong";
      "    debug:      1";
      "```";
      "";
      "## API methods" ].

(** [sorted] on strings (byte order). *)
Fixpoint insert_sorted (x : string) (l : list string) : list string :=
  match l with
  | [] => [x]
  | y :: r => if String.leb x y then x :: l else y :: insert_sorted x r
  end.

Definition sorted (l : list string) : list string :=
  foldr insert_sorted [] l.

(** ** State and exceptions *)

Record Store := { self : API2; plexpy : Globals }.

(** A computation reads and writes the store and returns or raises;
    the store it leaves is kept in both cases. *)
Definition M (A : Type) : Type := Store -> outcome A * Store.

Definition ret {A} (a : A) : M A := fun s => (Return a, s).
Definition raise {A} (e : exn) : M A := fun s => (Raise e, s).
Definition lift {A} (o : outcome A) : M A := fun s => (o, s).

Definition bind {A B} (m : M A) (f : A -> M B) : M B :=
  fun s =>
    match m s with
    | (Return a, s') => f a s'
    | (Raise e, s') => (Raise e, s')
    end.

(** [try: m  except Exception as e: h e]: every [exn] of the model is an
    [Exception], so the clause catches it. *)
Definition try_except {A} (m : M A) (h : exn -> M A) : M A :=
  fun s =>
    match m s with
    | (Return a, s') => (Return a, s')
    | (Raise e, s') => h e s'
    end.

Notation "'let*' x := m 'in' k" := (bind m (fun x => k))
  (at level 10, x pattern, m at level 100, k at level 200).
Notation "'exec' m 'in' k" := (bind m (fun _ => k))
  (at level 10, m at level 100, k at level 200).

Definition get_self : M API2 := fun s => (Return (self s), s).
Definition get_plexpy : M Globals := fun s => (Return (plexpy s), s).
Definition put_self (a : API2) : M unit :=
  fun s => (Return tt, {| self := a; plexpy := plexpy s |}).
Definition put_plexpy (g : Globals) : M unit :=
  fun s => (Return tt, {| self := self s; plexpy := g |}).

(** Attribute writes on [self]: [self.msg = v], [self.result_type = v],
    [self.data = v], [self._api_result_type = t]. *)
Definition with_msg (v : pyval) (a : API2) : API2 :=
  {| _api_valid_methods := _api_valid_methods a;
     _api_authenticated := _api_authenticated a;
     _api_out_type := _api_out_type a; _api_msg := _api_msg a;
     _api_debug := _api_debug a; _api_cmd := _api_cmd a;
     _api_apikey := _api_apikey a; _api_callback := _api_callback a;
     _api_result_type := _api_result_type a;
     _api_profileme := _api_profileme a; _api_kwargs := _api_kwargs a;
     msg := Some v; result_type := result_type a; data := data a |}.

Definition with_result_type (v : pyval) (a : API2) : API2 :=
  {| _api_valid_methods := _api_valid_methods a;
     _api_authenticated := _api_authenticated a;
     _api_out_type := _api_out_type a; _api_msg := _api_msg a;
     _api_debug := _api_debug a; _api_cmd := _api_cmd a;
     _api_apikey := _api_apikey a; _api_callback := _api_callback a;
     _api_result_type := _api_result_type a;
     _api_profileme := _api_profileme a; _api_kwargs := _api_kwargs a;
     msg := msg a; result_type := Some v; data := data a |}.

Definition with_data (v : pyval) (a : API2) : API2 :=
  {| _api_valid_methods := _api_valid_methods a;
     _api_authenticated := _api_authenticated a;
     _api_out_type := _api_out_type a; _api_msg := _api_msg a;
     _api_debug := _api_debug a; _api_cmd := _api_cmd a;
     _api_apikey := _api_apikey a; _api_callback := _api_callback a;
     _api_result_type := _api_result_type a;
     _api_profileme := _api_profileme a; _api_kwargs := _api_kwargs a;
     msg := msg a; result_type := result_type a; data := Some v |}.

Definition with_api_result_type (t : string) (a : API2) : API2 :=
  {| _api_valid_methods := _api_valid_methods a;
     _api_authenticated := _api_authenticated a;
     _api_out_type := _api_out_type a; _api_msg := _api_msg a;
     _api_debug := _api_debug a; _api_cmd := _api_cmd a;
     _api_apikey := _api_apikey a; _api_callback := _api_callback a;
     _api_result_type := t;
     _api_profileme := _api_profileme a; _api_kwargs := _api_kwargs a;
     msg := msg a; result_type := result_type a; data := data a |}.

Definition set_msg (v : pyval) : M unit :=
  let* a := get_self in put_self (with_msg v a).
Definition set_result_type (v : pyval) : M unit :=
  let* a := get_self in put_self (with_result_type v a).
Definition set_data (v : pyval) : M unit :=
  let* a := get_self in put_self (with_data v a).

(** Writes on the module state: [plexpy.SIGNAL = s], the response header,
    one more random draw, and [CONFIG.API_KEY = k; CONFIG.write()]. *)
Definition with_signal (s : string) (g : Globals) : Globals :=
  {| CONFIG := CONFIG g; SIGNAL := Some s;
     MODULE_HTTP_USERNAME := MODULE_HTTP_USERNAME g;
     config_writes := config_writes g; draws := draws g;
     content_type := content_type g |}.

Definition with_content_type (t : string) (g : Globals) : Globals :=
  {| CONFIG := CONFIG g; SIGNAL := SIGNAL g;
     MODULE_HTTP_USERNAME := MODULE_HTTP_USERNAME g;
     config_writes := config_writes g; draws := draws g;
     content_type := Some t |}.

Definition set_signal (s : string) : M unit :=
  let* g := get_plexpy in put_plexpy (with_signal s g).

Definition set_content_type (t : string) : M unit :=
  let* g := get_plexpy in put_plexpy (with_content_type t g).

Definition with_api_key (k : string) (c : Config) : Config :=
  {| API_ENABLED := API_ENABLED c; API_KEY := k; API_SQL := API_SQL c;
     HTTP_USERNAME := HTTP_USERNAME c; HTTP_PASSWORD := HTTP_PASSWORD c |}.

Definition written (k : string) (g : Globals) : Globals :=
  {| CONFIG := with_api_key k (CONFIG g); SIGNAL := SIGNAL g;
     MODULE_HTTP_USERNAME := MODULE_HTTP_USERNAME g;
     config_writes := S (config_writes g); draws := draws g;
     content_type := content_type g |}.

Definition drawn (g : Globals) : Globals :=
  {| CONFIG := CONFIG g; SIGNAL := SIGNAL g;
     MODULE_HTTP_USERNAME := MODULE_HTTP_USERNAME g;
     config_writes := config_writes g; draws := S (draws g);
     content_type := content_type g |}.

Definition store_api_key (k : string) : M unit :=
  let* g := get_plexpy in put_plexpy (written k g).

(** ** Handlers, dispatch and rendering *)

Section Pipeline.
Context {L : Libs}.

(** Binding of the call with the bag to a signature without a keyword
    catch-all: a name outside [params] is a [TypeError]. *)
Definition accepts (params : list string) (kw : kwargs_t) : bool :=
  forallb (fun kv => existsb (String.eqb (fst kv)) params) (map_to_list kw).

Definition bind_args (params : list string) (kw : kwargs_t) : M unit :=
  if accepts params kw then ret tt
  else raise (TypeError "got an unexpected keyword argument").

(** [_api_make_md]. *)
Definition _api_make_md : string :=
  let doc := _api_docs true in
  let body :=
    foldl (fun body k =>
             body +:+ ("### " +:+ k +:+ nl)
                  +:+ match dict_get doc k with
                      | Some (PStr v) => if truthy (PStr v) then v +:+ nl else ""
                      | _ => ""
                      end
                  +:+ (nl +:+ nl))
          "" (sorted (map fst doc)) in
  "<pre>" +:+ (md_head +:+ (nl +:+ nl) +:+ body) +:+ "</pre>".

Definition docs_md (kw : kwargs_t) : M pyval :=
  exec bind_args [] kw in ret (PStr _api_make_md).

Definition docs (kw : kwargs_t) : M pyval :=
  exec bind_args [] kw in ret (PDict (_api_docs false)).

Definition get_logs (kw : kwargs_t) : M pyval :=
  let* templog := lift (read_logs kw) in
  exec set_data templog in
  ret templog.

Definition get_settings (kw : kwargs_t) : M pyval :=
  exec bind_args ["key"] kw in
  lift (read_settings (kw_get "key" (PStr "") kw)).

Definition sql (kw : kwargs_t) : M pyval :=
  exec bind_args ["query"] kw in
  let query := kw_get "query" (PStr "") kw in
  let* g := get_plexpy in
  if negb (API_SQL (CONFIG g)) || negb (truthy query) then ret PNone
  else
    let* rows := lift (db_select query) in
    exec set_data rows in
    ret rows.

(** The shape shared by [backup_config], [backup_db],
    [refresh_libraries_list] and [refresh_users_list]: the collaborator's
    value is returned and [self.result_type] records whether it is true. *)
Definition flagged (collaborator : outcome pyval) : M pyval :=
  let* d := lift collaborator in
  exec set_result_type (PStr (if truthy d then "success" else "failed")) in
  ret d.

Definition backup_config (kw : kwargs_t) : M pyval :=
  exec bind_args [] kw in flagged config_make_backup.

Definition backup_db (kw : kwargs_t) : M pyval :=
  exec bind_args [] kw in flagged database_make_backup.

Definition refresh_libraries_list (kw : kwargs_t) : M pyval :=
  flagged pmsconnect_refresh_libraries.

Definition refresh_users_list (kw : kwargs_t) : M pyval :=
  flagged plextv_refresh_users.

(** [restart]: the writes go to [self.msg] and [self.result_type]; the
    method returns nothing. *)
Definition restart (kw : kwargs_t) : M pyval :=
  exec set_signal "restart" in
  exec set_msg (PStr "Restarting plexpy") in
  exec set_result_type (PStr "success") in
  ret PNone.

Definition update (kw : kwargs_t) : M pyval :=
  exec set_signal "update" in
  exec set_msg (PStr "Updating plexpy") in
  exec set_result_type (PStr "success") in
  ret PNone.

(** The two places where [get_apikey] answers with the stored key or
    makes, stores and writes a new one. *)
Definition stored_or_new (apikey : string) : M unit :=
  let* g := get_plexpy in
  if truthy (PStr (API_KEY (CONFIG g)))
  then set_data (PStr (API_KEY (CONFIG g)))
  else
    exec set_data (PStr apikey) in
    store_api_key apikey.

(** [get_apikey(username, password)]. *)
Definition get_apikey_with (username password : pyval) : M pyval :=
  let* g := get_plexpy in
  let apikey := random_key (draws g) in
  exec put_plexpy (drawn g) in
  exec
    (if truthy (PStr (HTTP_USERNAME (CONFIG g)))
        && truthy (PStr (HTTP_PASSWORD (CONFIG g)))
     then
       match MODULE_HTTP_USERNAME g with
       | None => raise (AttributeError "HTTP_USERNAME")
       | Some u =>
           if py_eq_str username u
              && py_eq_str password (HTTP_PASSWORD (CONFIG g))
           then stored_or_new apikey
           else set_msg (PStr ("Authentication is enabled, please add the "
                               +:+ "correct username and password to the "
                               +:+ "parameters"))
       end
     else stored_or_new apikey) in
  let* a := get_self in
  match data a with
  | Some d => ret d
  | None => raise (AttributeError "data")
  end.

Definition get_apikey (kw : kwargs_t) : M pyval :=
  exec bind_args ["username"; "password"] kw in
  get_apikey_with (kw_get "username" (PStr "") kw)
                  (kw_get "password" (PStr "") kw).

(** [getattr(self, cmd)] for the name of a public method. *)
Definition getattr (cmd : pyval) : M (kwargs_t -> M pyval) :=
  match cmd with
  | PStr name =>
      if String.eqb name "backup_config" then ret backup_config
      else if String.eqb name "backup_db" then ret backup_db
      else if String.eqb name "docs" then ret docs
      else if String.eqb name "docs_md" then ret docs_md
      else if String.eqb name "get_apikey" then ret get_apikey
      else if String.eqb name "get_logs" then ret get_logs
      else if String.eqb name "get_settings" then ret get_settings
      else if String.eqb name "refresh_libraries_list"
           then ret refresh_libraries_list
      else if String.eqb name "refresh_users_list" then ret refresh_users_list
      else if String.eqb name "restart" then ret restart
      else if String.eqb name "sql" then ret sql
      else if String.eqb name "update" then ret update
      else raise (AttributeError name)
  | _ => raise (TypeError "getattr(): attribute name must be string")
  end.

(** [_api_responds(result_type, data, msg)]. *)
Definition _api_responds (result_type : string) (data : pyval)
    (msg : option string) : pyval :=
  let data := match data with PNone => PDict [] | _ => data end in
  PDict [("response",
          PDict [("result", PStr result_type);
                 ("message", opt_str msg);
                 ("data", data)])].

(** The [except] clause of the JSON branch, entered with the current
    value of the variable [out]. *)
Definition fake_error (out : pyval) (e : exn) : M pyval :=
  let* out := lift (py_setitem out "message" (PStr (format_exc e))) in
  lift (py_setitem out "result" (PStr "error")).

Definition out_as_json (a : API2) (out : pyval) : M pyval :=
  exec set_content_type "application/json;charset=UTF-8" in
  match json_dumps (truthy (_api_debug a)) out with
  | Raise e => fake_error out e
  | Return s =>
      match _api_callback a with
      | PNone => ret (PStr s)
      | callback =>
          exec set_content_type "application/javascript" in
          match py_add_str callback "(" with
          | Raise e => fake_error (PStr s) e
          | Return t => ret (PStr (t +:+ s +:+ ");"))
          end
      end
  end.

Definition out_as_xml (out : pyval) : M pyval :=
  exec set_content_type "application/xml" in
  match xmltodict_unparse out with
  | Return s => ret (PStr s)
  | Raise e =>
      try_except
        (let* out := lift (py_setitem out "message" (PExn e)) in
         let* out := lift (py_setitem out "result" (PStr "error")) in
         let* s := lift (xmltodict_unparse out) in
         ret (PStr s))
        (fun e => ret (PStr (minimal_xml (exn_msg e))))
  end.

(** [_api_out_as(out)]. *)
Definition _api_out_as (out : pyval) : M pyval :=
  let* a := get_self in
  if py_eq_str (_api_cmd a) "docs_md" then
    let* r := lift (py_getitem out "response") in
    lift (py_getitem r "data")
  else if py_eq_str (_api_cmd a) "download_log" then ret PNone
  else if py_eq_str (_api_cmd a) "pms_image_proxy" then
    exec set_content_type "image/jpeg" in
    let* r := lift (py_getitem out "response") in
    lift (py_getitem r "data")
  else if py_eq_str (_api_out_type a) "json" then out_as_json a out
  else if py_eq_str (_api_out_type a) "xml" then out_as_xml out
  else ret out.

(** The conversion of the handler's value in [_api_run]: the variable
    [ret] after the nested [try] blocks and the fallback. *)
Definition normalize (result : pyval) : pyval :=
  let ret :=
    if is_dict_or_list result then result
    else
      match result with
      | PStr text =>
          match json_loads text with
          | Some v => v
          | None =>
              match xmltodict_parse text with
              | Some v => v
              | None => PNone
              end
          end
      | _ => PNone
      end in
  match ret with
  | PNone => result
  | _ => ret
  end.

(** The call of the handler in [_api_run]; [result] starts as [{}].  The
    [except] clause only logs; the call of [logger.error] is left out, as
    every call of the logger is, and with it the case in which formatting
    the log line fails (a fault whose text is not ASCII, under Python 2);
    the properties of the clause are about faults it logs. *)
Definition dispatch (a : API2) : M pyval :=
  if truthy (_api_cmd a) && _api_authenticated a then
    let* call := getattr (_api_cmd a) in
    exec (if truthy (_api_profileme a) && negb profilehooks_present
          then raise (ImportError "No module named profilehooks")
          else ret tt) in
    let invoke :=
      match _api_kwargs a with
      | Some kw => call kw
      | None => raise (TypeError "argument after ** must be a mapping")
      end in
    if truthy (_api_debug a) then invoke
    else try_except invoke (fun _ => ret (PDict []))
  else ret (PDict []).

(** [_api_run] up to the envelope handed to [_api_out_as]. *)
Definition _api_run_envelope (kwargs : kwargs_t) : M pyval :=
  let* a := get_self in
  let* g := get_plexpy in
  exec put_self (_api_validate (CONFIG g) a kwargs) in
  let* a := get_self in
  let* result := dispatch a in
  let ret_ := normalize result in
  let* a := get_self in
  let t := if truthy ret_ || String.eqb (_api_result_type a) "success"
           then "success" else "error" in
  exec put_self (with_api_result_type t a) in
  ret (_api_responds t ret_ (_api_msg a)).

(** [_api_run] on the bag [kwargs]. *)
Definition _api_run (kwargs : kwargs_t) : M pyval :=
  let* out := _api_run_envelope kwargs in
  _api_out_as out.

(** The store of a request: a new [API2] object in a process whose
    module state is [g]. *)
Definition fresh (g : Globals) : Store := {| self := __init__; plexpy := g |}.

End Pipeline.

(** ** An executable instance of the libraries

    [Demo.libs] is a small stand-in used to run the pipeline on concrete
    requests.  [json.dumps] and [xmltodict.unparse] are written out for
    values built from [None], booleans, integers, printable ASCII strings,
    lists and mappings with plain element names; the two parsers know the
    texts listed in their tables and report every other text as
    unparseable.  The theorems below hold for every instance of [Libs]. *)

Module Demo.

Definition json_escape_char (c : ascii) : string :=
  let n := nat_of_ascii c in
  if (n =? 34)%nat then "\" +:+ dq
  else if (n =? 92)%nat then "\\"
  else if (n =? 10)%nat then "\n"
  else if (n =? 13)%nat then "\r"
  else if (n =? 9)%nat then "\t"
  else String c EmptyString.

Fixpoint json_escape (s : string) : string :=
  match s with
  | EmptyString => EmptyString
  | String c r => json_escape_char c +:+ json_escape r
  end.

Fixpoint insert_item (x : string * string) (l : list (string * string))
  : list (string * string) :=
  match l with
  | [] => [x]
  | y :: r => if String.leb (fst x) (fst y) then x :: l
              else y :: insert_item x r
  end.

(** The brackets around the items [ss] of a list or mapping at nesting
    depth [level]; with [indent=4] every item starts a line and the item
    separator keeps its blank. *)
Definition bracket (pretty : bool) (level : nat) (l r : string)
    (ss : list string) : string :=
  match ss with
  | [] => l +:+ r
  | _ =>
      if pretty
      then l +:+ nl +:+ spaces (4 * S level)
             +:+ String.concat (", " +:+ nl +:+ spaces (4 * S level)) ss
             +:+ nl +:+ spaces (4 * level) +:+ r
      else l +:+ String.concat ", " ss +:+ r
  end.

Fixpoint dumps (pretty : bool) (level : nat) (v : pyval) {struct v}
  : outcome string :=
  match v with
  | PNone => Return "null"
  | PBool b => Return (if b then "true" else "false")
  | PInt z => Return (stdpp.pretty.pretty z)
  | PStr s => Return (q (json_escape s))
  | PList l =>
      let fix items (l : list pyval) : outcome (list string) :=
        match l with
        | [] => Return []
        | x :: r =>
            match dumps pretty (S level) x, items r with
            | Return s, Return ss => Return (s :: ss)
            | Raise e, _ => Raise e
            | _, Raise e => Raise e
            end
        end in
      match items l with
      | Return ss => Return (bracket pretty level "[" "]" ss)
      | Raise e => Raise e
      end
  | PDict d =>
      let fix items (d : list (string * pyval))
        : outcome (list (string * string)) :=
        match d with
        | [] => Return []
        | (k, x) :: r =>
            match dumps pretty (S level) x, items r with
            | Return s, Return ss => Return ((k, s) :: ss)
            | Raise e, _ => Raise e
            | _, Raise e => Raise e
            end
        end in
      match items d with
      | Return ss =>
          let ss := if pretty then foldr insert_item [] ss else ss in
          Return (bracket pretty level "{" "}"
                    (map (fun ks => q (json_escape (fst ks)) +:+ ": " +:+ snd ks)
                         ss))
      | Raise e => Raise e
      end
  | PExn e => Raise (TypeError (exn_type e +:+ " is not JSON serializable"))
  | PObj r => Raise (TypeError (r +:+ " is not JSON serializable"))
  end.

Definition xml_escape_char (c : ascii) : string :=
  let n := nat_of_ascii c in
  if (n =? 38)%nat then "&amp;"
  else if (n =? 60)%nat then "&lt;"
  else if (n =? 62)%nat then "&gt;"
  else String c EmptyString.

Fixpoint xml_escape (s : string) : string :=
  match s with
  | EmptyString => EmptyString
  | String c r => xml_escape_char c +:+ xml_escape r
  end.

Fixpoint tabs (n : nat) : string :=
  match n with
  | O => EmptyString
  | S m => String (ascii_of_nat 9) (tabs m)
  end.

Definition leaf (depth : nat) (key text : string) : string :=
  tabs depth +:+ "<" +:+ key +:+ ">" +:+ xml_escape text
  +:+ "</" +:+ key +:+ ">" +:+ match depth with O => "" | _ => nl end.

(** One element [key] per value, a list giving one element per item. *)
Fixpoint emit (depth : nat) (key : string) (v : pyval) {struct v} : string :=
  match v with
  | PNone => leaf depth key ""
  | PBool b => leaf depth key (if b then "True" else "False")
  | PInt z => leaf depth key (stdpp.pretty.pretty z)
  | PStr s => leaf depth key s
  | PExn e => leaf depth key (exn_msg e)
  | PObj r => leaf depth key r
  | PList l =>
      (fix each (l : list pyval) : string :=
         match l with
         | [] => ""
         | x :: r => emit depth key x +:+ each r
         end) l
  | PDict [] => leaf depth key ""
  | PDict d =>
      tabs depth +:+ "<" +:+ key +:+ ">" +:+ nl
      +:+ (fix children (d : list (string * pyval)) : string :=
             match d with
             | [] => ""
             | (k, x) :: r => emit (S depth) k x +:+ children r
             end) d
      +:+ tabs depth +:+ "</" +:+ key +:+ ">"
      +:+ match depth with O => "" | _ => nl end
  end.

Definition unparse (v : pyval) : outcome string :=
  match v with
  | PDict [(root, x)] =>
      Return ("<?xml version=" +:+ q "1.0" +:+ " encoding=" +:+ q "utf-8"
              +:+ "?>" +:+ nl +:+ emit 0 root x)
  | PDict _ => Raise (Exn "ValueError" "Document must have exactly one root.")
  | _ => Raise (AttributeError "object has no attribute 'items'")
  end.

Definition loads (text : string) : option pyval :=
  if String.eqb text "null" then Some PNone
  else if String.eqb text "true" then Some (PBool true)
  else if String.eqb text "[1, 2]" then Some (PList [PInt 1; PInt 2])
  else if String.eqb text ("{" +:+ q "a" +:+ ": 1}")
       then Some (PDict [("a", PInt 1)])
  else None.

Definition parse (text : string) : option pyval :=
  if String.eqb text "<a>1</a>" then Some (PDict [("a", PStr "1")])
  else None.

Definition key_of (n : nat) : string :=
  "0123456789abcdef0123456789abcde" +:+ stdpp.pretty.pretty (n mod 10)%nat.

#[export] Instance libs : Libs := {|
  json_dumps pretty v := dumps pretty 0 v;
  json_loads := loads;
  xmltodict_unparse := unparse;
  xmltodict_parse := parse;
  format_exc e :=
    "Traceback (most recent call last):" +:+ nl
    +:+ exn_type e +:+ ": " +:+ exn_msg e +:+ nl;
  py_repr v :=
    match dumps false 0 v with Return s => s | Raise _ => "<object>" end;
  getdoc _ := None;
  random_key := key_of;
  profilehooks_present := false;
  read_logs _ := Return (PList []);
  read_settings _ :=
    Return (PDict [("General", PDict [("api_enabled", PBool true)])]);
  db_select _ :=
    Raise (AttributeError "API2 instance has no attribute 'backupdb'");
  config_make_backup := Return (PBool true);
  database_make_backup := Return (PBool false);
  pmsconnect_refresh_libraries := Return (PBool true);
  plextv_refresh_users := Return (PBool true)
|}.

(** A second instance, whose XML serialiser cannot represent an object:
    it exercises the fallback tiers of the XML branch. *)
Fixpoint has_object (v : pyval) : bool :=
  match v with
  | PObj _ => true
  | PList l =>
      (fix any (l : list pyval) : bool :=
         match l with
         | [] => false
         | x :: r => has_object x || any r
         end) l
  | PDict d =>
      (fix any (d : list (string * pyval)) : bool :=
         match d with
         | [] => false
         | (_, x) :: r => has_object x || any r
         end) d
  | _ => false
  end.

Definition strict_unparse (v : pyval) : outcome string :=
  match v with
  | PDict [(root, x)] =>
      if has_object x
      then Raise (Exn "UnicodeDecodeError" "invalid start byte")
      else unparse v
  | _ => unparse v
  end.

Definition strict_libs : Libs := {|
  json_dumps := @json_dumps libs;
  json_loads := @json_loads libs;
  xmltodict_unparse := strict_unparse;
  xmltodict_parse := @xmltodict_parse libs;
  format_exc := @format_exc libs;
  py_repr := @py_repr libs;
  getdoc := @getdoc libs;
  random_key := @random_key libs;
  profilehooks_present := @profilehooks_present libs;
  read_logs := @read_logs libs;
  read_settings := @read_settings libs;
  db_select := @db_select libs;
  config_make_backup := @config_make_backup libs;
  database_make_backup := @database_make_backup libs;
  pmsconnect_refresh_libraries := @pmsconnect_refresh_libraries libs;
  plextv_refresh_users := @plextv_refresh_users libs
|}.

(** A configuration with the API enabled and a 32-character key, and the
    module state of a fresh process. *)
Definition key : string := "0123456789abcdef0123456789abcdef".

Definition config : Config := {|
  API_ENABLED := true; API_KEY := key; API_SQL := false;
  HTTP_USERNAME := ""; HTTP_PASSWORD := ""
|}.

Definition globals (c : Config) : Globals := {|
  CONFIG := c; SIGNAL := None; MODULE_HTTP_USERNAME := None;
  config_writes := 0; draws := 0; content_type := None
|}.

End Demo.

(** * The bodies behind the collaborators

    [get_settings], the backup check of [sql] and [get_logs] are written
    out here as functions of what they read from outside the file (the
    settings store, the directory listings, the lines of the log file, the
    compiled regular expression).  [with_bodies] puts them in the place of
    the fields [read_settings], [db_select] and [read_logs] of an instance
    of [Libs]. *)

(** ** [get_settings] *)

(** The inner loop of [get_settings]: the copy [d] of one section, where
    the texts ['0'] and ['1'] are replaced by [bool(vv)]. *)
Definition truthify (section : list (string * pyval))
  : list (string * pyval) :=
  foldl (fun d kv =>
           dict_set d (fst kv)
             (if py_eq_str (snd kv) "0" || py_eq_str (snd kv) "1"
              then PBool (truthy (snd kv))
              else snd kv))
        [] section.

(** The outer loop over [conf.iteritems()], with [config] built so far.
    [interface_dir] and [interface_list] are the directory and the listing
    computed at the start of the method. *)
Fixpoint settings_loop (interface_dir : string) (interface_list : list string)
    (conf config : list (string * pyval)) : outcome (list (string * pyval)) :=
  match conf with
  | [] => Return config
  | (k, v) :: rest =>
      let config :=
        match v with
        | PDict section => dict_set config k (PDict (truthify section))
        | _ => config
        end in
      if String.eqb k "General" then
        match dict_get config k with
        | Some (PDict d) =>
            settings_loop interface_dir interface_list rest
              (dict_set config k
                 (PDict (dict_set (dict_set d "interface" (PStr interface_dir))
                                  "interface_list"
                                  (PList (map PStr interface_list)))))
        | Some _ => Raise (TypeError "object does not support item assignment")
        | None => Raise (KeyError "General")
        end
      else settings_loop interface_dir interface_list rest config
  end.

(** [config.get(key, None)] for a true [key]. *)
Definition config_get (config : list (string * pyval)) (key : pyval)
  : outcome pyval :=
  match key with
  | PStr k =>
      Return (match dict_get config k with Some v => v | None => PNone end)
  | PList _ | PDict _ => Raise (TypeError "unhashable type")
  | _ => Return PNone
  end.

(** The body of [get_settings(key)] on the settings store [conf]
    ([plexpy.CONFIG._config]). *)
Definition get_settings_body (interface_dir : string)
    (interface_list : list string) (conf : list (string * pyval))
    (key : pyval) : outcome pyval :=
  match settings_loop interface_dir interface_list conf [] with
  | Raise e => Raise e
  | Return config =>
      if truthy key then config_get config key else Return (PDict config)
  end.

(** ** The backup check of [sql] *)

(** What [sql] does once [api_sql] is on and the query is not empty.
    [stale] says, for each file of the backup directory, whether it is
    older than 24 hours; [select] is [MonitorDatabase().select].  The
    method [backupdb] the code calls does not exist in the class. *)
Definition sql_backend (stale : list bool) (select : pyval -> outcome pyval)
    (query : pyval) : outcome pyval :=
  let backupdb : outcome unit :=
    Raise (AttributeError "API2 instance has no attribute 'backupdb'") in
  let checked :=
    if negb (truthy (PInt (Z.of_nat (length stale)))) then backupdb
    else if existsb (fun old => old) stale then backupdb
         else Return tt in
  match checked with
  | Raise e => Raise e
  | Return _ => select query
  end.

(** ** [get_logs]

    Texts are byte strings, and the entries of the log are the dicts the
    loop builds, whose four values are texts.  The calls of [logger.debug]
    are left out. *)

Definition IndexError (m : string) : exn := Exn "IndexError" m.
Definition ValueError (m : string) : exn := Exn "ValueError" m.

(** Sequencing of two steps that may raise. *)
Definition and_then {A B : Type} (r : outcome A) (k : A -> outcome B)
  : outcome B :=
  match r with
  | Return a => k a
  | Raise e => Raise e
  end.

(** [s.split(sep)] for a separator that is not empty: [cur] is the piece
    being read, [skip] the characters of a separator still to pass. *)
Fixpoint py_split_from (sep : string) (skip : nat) (cur s : string)
  : list string :=
  match s with
  | EmptyString => [cur]
  | String c r =>
      match skip with
      | S k => py_split_from sep k cur r
      | O =>
          if String.prefix sep s
          then cur :: py_split_from sep (String.length sep - 1) "" r
          else py_split_from sep 0 (cur +:+ String c "") r
      end
  end.

Definition py_split (sep s : string) : list string :=
  py_split_from sep 0 "" s.

Fixpoint lstrip (s : string) : string :=
  match s with
  | EmptyString => EmptyString
  | String c r => if is_space c then lstrip r else s
  end.

Fixpoint rstrip (s : string) : string :=
  match s with
  | EmptyString => EmptyString
  | String c r =>
      match rstrip r with
      | EmptyString => if is_space c then EmptyString else String c EmptyString
      | r' => String c r'
      end
  end.

(** [s.strip()]. *)
Definition strip (s : string) : string := rstrip (lstrip s).

(** [s.replace('\n', '')]. *)
Fixpoint without_newlines (s : string) : string :=
  match s with
  | EmptyString => EmptyString
  | String c r =>
      if (nat_of_ascii c =? 10)%nat then without_newlines r
      else String c (without_newlines r)
  end.

(** [sub in s] on strings. *)
Fixpoint contains (sub s : string) : bool :=
  String.prefix sub s
  || match s with
     | EmptyString => false
     | String _ r => contains sub r
     end.

(** [s.lower()] on a byte string. *)
Fixpoint lower (s : string) : string :=
  match s with
  | EmptyString => EmptyString
  | String c r =>
      let n := nat_of_ascii c in
      String (if (65 <=? n)%nat && (n <=? 90)%nat
              then ascii_of_nat (n + 32) else c)
             (lower r)
  end.

(** The digits of [int(s)]. *)
Fixpoint digits_value (acc : Z) (s : string) : option Z :=
  match s with
  | EmptyString => Some acc
  | String c r =>
      let n := nat_of_ascii c in
      if (48 <=? n)%nat && (n <=? 57)%nat
      then digits_value (10 * acc + Z.of_nat (n - 48)) r
      else None
  end.

(** [int(v)]: a number as it is, a text in base 10 with blanks around it
    and a sign before it allowed. *)
Definition py_int (v : pyval) : outcome Z :=
  match v with
  | PInt z => Return z
  | PBool b => Return (if b then 1 else 0)%Z
  | PStr s =>
      let digits (t : string) : option Z :=
        match t with
        | EmptyString => None
        | _ => digits_value 0 t
        end in
      let value :=
        match strip s with
        | String "-" r => Z.opp <$> digits r
        | String "+" r => digits r
        | t => digits t
        end in
      match value with
      | Some z => Return z
      | None => Raise (ValueError "invalid literal for int() with base 10")
      end
  | _ => Raise (TypeError "int() argument must be a string or a number")
  end.

(** [l[start:stop]]. *)
Definition py_slice {A : Type} (l : list A) (start stop : Z) : list A :=
  let n := Z.of_nat (length l) in
  let clamp (i : Z) := (if i <? 0 then Z.max (i + n) 0 else Z.min i n)%Z in
  take (Z.to_nat (clamp stop - clamp start)) (drop (Z.to_nat (clamp start)) l).

(** The [try] block of the loop on one line: the time, the level, the
    message and the thread, or [None] where an index is out of range. *)
Definition parse_line (line : string)
  : option (string * string * string * string) :=
  let temp_loglevel_and_time := py_split "- " line in
  match temp_loglevel_and_time !! 1%nat with
  | None => None
  | Some level_part =>
      let loglvl := strip (default "" (py_split " :" level_part !! 0%nat)) in
      let tl_tread := py_split " :: " line in
      match py_split " : " line !! 1%nat with
      | None => None
      | Some message_part =>
          let msg := without_newlines message_part in
          match tl_tread !! 1%nat with
          | None => None
          | Some thread_part =>
              let thread := default "" (py_split " : " thread_part !! 0%nat) in
              Some (default "" (temp_loglevel_and_time !! 0%nat),
                    loglvl, msg, thread)
          end
      end
  end.

(** The dict [d] appended for one line. *)
Definition log_entry (time loglevel msg thread : string) : pyval :=
  PDict [("time", PStr time); ("loglevel", PStr loglevel);
         ("msg", PStr msg); ("thread", PStr thread)].

(** The handler of [IndexError]:
    [templog[len(templog) - 1]['msg'] += text]. *)
Definition extend_last (templog : list pyval) (text : string)
  : outcome (list pyval) :=
  match rev templog with
  | [] => Raise (IndexError "list index out of range")
  | last :: before =>
      and_then (py_getitem last "msg") (fun m =>
      and_then (py_add_str m text) (fun m' =>
      and_then (py_setitem last "msg" (PStr m')) (fun last' =>
      Return (rev before ++ [last'])%list)))
  end.

(** The loop over the lines of the log file. *)
Fixpoint read_lines (lines : list string) (templog : list pyval)
  : outcome (list pyval) :=
  match lines with
  | [] => Return templog
  | line :: rest =>
      match parse_line line with
      | None =>
          and_then (extend_last templog (without_newlines line))
                   (read_lines rest)
      | Some (time, loglvl, msg, thread) =>
          if (1 <? String.length line)%nat && contains loglvl line
          then read_lines rest
                 (templog
                  ++ [log_entry time loglvl (without_newlines msg) thread])%list
          else read_lines rest templog
      end
  end.

(** [sorted(templog, key=lambda k: k[sort])]: the keys are read first, then
    the entries are put in the order of their keys, equal keys in the order
    they had. *)
Fixpoint insert_by_key (x : string * pyval) (l : list (string * pyval))
  : list (string * pyval) :=
  match l with
  | [] => [x]
  | y :: r =>
      if String.leb (fst x) (fst y) then x :: l else y :: insert_by_key x r
  end.

Fixpoint keyed (field : string) (templog : list pyval)
  : outcome (list (string * pyval)) :=
  match templog with
  | [] => Return []
  | d :: r =>
      and_then (py_getitem d field) (fun v =>
      match v with
      | PStr key => and_then (keyed field r) (fun l => Return ((key, d) :: l))
      | _ => Raise (TypeError "the key of an entry is a text")
      end)
  end.

Definition sorted_by (sort : pyval) (templog : list pyval)
  : outcome (list pyval) :=
  match sort with
  | PStr field =>
      and_then (keyed field templog) (fun l =>
      Return (map snd (foldr insert_by_key [] l)))
  | _ =>
      match templog with
      | [] => Return []
      | _ =>
          Raise (match sort with
                 | PList _ | PDict _ => TypeError "unhashable type"
                 | _ => KeyError "a key that is not a text"
                 end)
      end
  end.

(** The comprehension of the search: an entry once for each of its values
    that holds the text, letter case apart. *)
Definition matches (needle : string) (d : pyval) : list pyval :=
  match d with
  | PDict items =>
      flat_map (fun kv =>
                  match snd kv with
                  | PStr v => if contains (lower needle) (lower v) then [d] else []
                  | _ => []
                  end) items
  | _ => []
  end.

Definition searched (search : pyval) (templog : list pyval)
  : outcome (list pyval) :=
  match search with
  | PStr needle =>
      match flat_map (matches needle) templog with
      | [] => Return templog
      | found => Return found
      end
  | _ =>
      match templog with
      | [] => Return templog
      | _ => Raise (AttributeError "object has no attribute 'lower'")
      end
  end.

(** The filter of the regular expression; [reg] is [reg.search] on the
    rendering of an entry. *)
Definition filtered (reg : pyval -> bool) (templog : list pyval)
  : list pyval :=
  match filter (fun l => reg l = true) templog with
  | [] => templog
  | found => found
  end.

(** The start of the method after the two bounds: the pattern is
    compiled with the letter [u] before it.  [re_compile p] is
    [re.compile(p, flags=re.I)], as the test [reg.search] on the rendering
    of an entry. *)
Definition compiled (re_compile : string -> outcome (pyval -> bool))
    (regex : pyval) : outcome (option (pyval -> bool)) :=
  if truthy regex
  then match regex with
       | PStr r =>
           and_then (re_compile ("u" +:+ r)) (fun reg => Return (Some reg))
       | _ => Raise (TypeError "cannot concatenate 'str' and the value")
       end
  else Return None.

(** The end of the method, after the loop: the slice, the sort, the
    search, the filter and the order. *)
Definition arranged (sort search order : pyval)
    (reg : option (pyval -> bool)) (start end_ : Z) (templog : list pyval)
  : outcome pyval :=
  let templog :=
    if (0 <? end_)%Z || (0 <? start)%Z then py_slice templog start end_
    else templog in
  and_then (if truthy sort then sorted_by sort templog else Return templog)
           (fun templog =>
  and_then (if truthy search then searched search templog else Return templog)
           (fun templog =>
  let templog :=
    match reg with
    | Some reg => filtered reg templog
    | None => templog
    end in
  let templog := if py_eq_str order "desc" then rev templog else templog in
  Return (PList templog))).

(** The body of [get_logs].  [lines] is [open(logfile).readlines()].  The
    six named parameters take their entries out of the keywords, so
    [kwargs] holds none of them. *)
Definition get_logs_body (lines : list string)
    (re_compile : string -> outcome (pyval -> bool)) (kw : kwargs_t)
  : outcome pyval :=
  let sort := kw_get "sort" (PStr "") kw in
  let search := kw_get "search" (PStr "") kw in
  let order := kw_get "order" (PStr "desc") kw in
  let regex := kw_get "regex" (PStr "") kw in
  let kwargs :=
    foldr delete kw ["sort"; "search"; "order"; "regex"; "start"; "end"] in
  and_then (py_int (kw_get "start" (PInt 0) kwargs)) (fun start =>
  and_then (py_int (kw_get "end" (PInt 0) kwargs)) (fun end_ =>
  and_then (compiled re_compile regex) (fun reg =>
  and_then (read_lines lines [])
           (arranged sort search order reg start end_)))).

(** ** The bodies in the place of the collaborators *)

(** What the three bodies read from outside the file. *)
Record Outside := {
  interface_dir : string;
  interface_list : list string;
  conf : list (string * pyval);
  backups_stale : list bool;
  select : pyval -> outcome pyval;
  log_lines : list string;
  re_compile : string -> outcome (pyval -> bool)
}.

Definition with_bodies (L : Libs) (o : Outside) : Libs := {|
  json_dumps := @json_dumps L;
  json_loads := @json_loads L;
  xmltodict_unparse := @xmltodict_unparse L;
  xmltodict_parse := @xmltodict_parse L;
  format_exc := @format_exc L;
  py_repr := @py_repr L;
  getdoc := @getdoc L;
  random_key := @random_key L;
  profilehooks_present := @profilehooks_present L;
  read_logs := get_logs_body (log_lines o) (re_compile o);
  read_settings :=
    get_settings_body (interface_dir o) (interface_list o) (conf o);
  db_select := sql_backend (backups_stale o) (select o);
  config_make_backup := @config_make_backup L;
  database_make_backup := @database_make_backup L;
  pmsconnect_refresh_libraries := @pmsconnect_refresh_libraries L;
  plextv_refresh_users := @plextv_refresh_users L
|}.

(** A log of three entries, the second with two more lines of a
    traceback, the entries read from it, and a stand-in for the compiled
    pattern (the pattern as a text, looked for in the message). *)
Definition sample_log : list string :=
  [ "2016-05-08 09:36:51 - DEBUG   :: MainThread : Latest version is 2d10b07" +:+ nl;
    "2016-05-08 09:36:52 - ERROR   :: Thread-3 : Uncaught exception" +:+ nl;
    "Traceback (most recent call last):" +:+ nl;
    "ValueError" +:+ nl;
    "2016-05-08 09:36:50 - INFO    :: MainThread : Starting up" +:+ nl ].

Definition sample_pattern (p : string) (d : pyval) : bool :=
  match py_getitem d "msg" with
  | Return (PStr m) => contains (lower p) (lower m)
  | _ => false
  end.

Definition sample_entries : list pyval :=
  [ log_entry "2016-05-08 09:36:51 " "DEBUG" "Latest version is 2d10b07"
      "MainThread";
    log_entry "2016-05-08 09:36:52 " "ERROR"
      "Uncaught exceptionTraceback (most recent call last):ValueError"
      "Thread-3";
    log_entry "2016-05-08 09:36:50 " "INFO" "Starting up" "MainThread" ].

Definition sample_outside : Outside := {|
  interface_dir := "data/interfaces";
  interface_list := ["default"];
  conf := [("General", PDict [("api_enabled", PStr "1")]);
           ("Advanced", PDict [("cache_sizemb", PStr "32")])];
  backups_stale := [false; true];
  select := fun _ => Return (PList [PDict [("id", PInt 1)]]);
  log_lines := sample_log;
  re_compile := fun p => Return (sample_pattern p)
|}.

(** * Vocabulary of the properties

    Definitions used to state the properties: the registry and the reserved
    names, readings of the envelope, the rules and claims of the
    specification in its own words, and sample data. *)

(** The command names [__init__] stores in [_api_valid_methods]. *)
Definition registry : list string :=
  [ "backup_config"; "backup_db"; "docs"; "docs_md"; "get_apikey";
    "get_logs"; "get_settings"; "refresh_libraries_list";
    "refresh_users_list"; "restart"; "sql"; "update" ].

(** The commands the second authentication branch lets through. *)
Definition public_commands : list string := ["get_apikey"; "docs"; "docs_md"].

(** The reserved names [_api_validate] pops, in the order of the pops. *)
Definition reserved : list string :=
  ["callback"; "apikey"; "cmd"; "debug"; "profileme"; "out_type"].

(** The bag without the reserved names. *)
Definition cleaned (kw : kwargs_t) : kwargs_t :=
  foldl (fun m k => delete k m) kw reserved.

(** The decision of the two authentication branches, on the bag. *)
Definition granted (cfg : Config) (kw : kwargs_t) : bool :=
  (py_eq_str (kw_get "apikey" PNone kw) (API_KEY cfg) && API_ENABLED cfg
   && py_in (kw_get "cmd" PNone kw) registry)
  || (py_in (kw_get "cmd" PNone kw) public_commands && API_ENABLED cfg).

(** The attributes [_api_validate] sets and [_api_out_as] reads. *)
Definition request_of (a : API2) :=
  (_api_valid_methods a, _api_authenticated a, _api_out_type a, _api_msg a,
   _api_debug a, _api_cmd a, _api_apikey a, _api_callback a,
   _api_result_type a, _api_profileme a, _api_kwargs a).

(** A computation that leaves those attributes as they were. *)
Definition keeps_request {A} (m : M A) : Prop :=
  forall s, request_of (self (snd (m s))) = request_of (self s).

(** The classification [_api_run] writes, given the converted value and
    the value of [_api_result_type] before. *)
Definition classify (ret_ : pyval) (before : string) : string :=
  if truthy ret_ || String.eqb before "success" then "success" else "error".

(** The field [result] of an envelope. *)
Definition classification (env : pyval) : option pyval :=
  match py_getitem env "response" with
  | Return r =>
      match py_getitem r "result" with
      | Return v => Some v
      | Raise _ => None
      end
  | Raise _ => None
  end.

(** The last branch of the chain of [_api_validate] chose the message. *)
Definition unknown_command_rejection {L : Libs} (cfg : Config)
    (kw : kwargs_t) : bool :=
  match validation_msg cfg registry None kw with
  | Some m => String.prefix "Unknown command: " m
  | None => false
  end.

(** The commands [_api_out_as] answers without rendering the envelope. *)
Definition bypass (cmd : pyval) : bool :=
  py_eq_str cmd "docs_md" || py_eq_str cmd "download_log"
  || py_eq_str cmd "pms_image_proxy".

(** The envelope of [_api_responds] once [data] is filled in. *)
Definition response_of (t : string) (d : pyval) (m : option string) : pyval :=
  PDict [("result", PStr t); ("message", opt_str m);
         ("data", match d with PNone => PDict [] | _ => d end)].

(** The value the XML branch serialises at its second try. *)
Definition xml_retry_input (d : list (string * pyval)) (e : exn) : pyval :=
  PDict (dict_set (dict_set d "message" (PExn e)) "result" (PStr "error")).

(** The coercion order in the words of the specification: a structure is
    kept; else the value is read as JSON text and the parsed value used;
    else as XML text and the parsed value used; else it is kept. *)
Definition coerce_by_rules {L : Libs} (result : pyval) : pyval :=
  if is_dict_or_list result then result
  else
    match result with
    | PStr text =>
        match json_loads text with
        | Some v => v
        | None =>
            match xmltodict_parse text with
            | Some v => v
            | None => result
            end
        end
    | _ => result
    end.

(** The claim C9 as the specification states it: a bag without [apikey] is
    always rejected with the message about the missing parameter, and no
    cleaned parameters are produced. *)
Definition missing_apikey_always_reported : Prop :=
  forall (L : Libs) (cfg : Config) (kw : kwargs_t),
    kw !! "apikey" = None ->
    let a := _api_validate cfg __init__ kw in
    _api_msg a = Some "Parameter apikey is required" /\ _api_kwargs a = None.

(** The claim C3 as the specification states it: a rejected request is
    answered with [failed], except an unknown command, answered with
    [error]. *)
Definition rejections_failed_unless_unknown : Prop :=
  forall (L : Libs) (g : Globals) (kw : kwargs_t),
    _api_authenticated (_api_validate (CONFIG g) __init__ kw) = false ->
    exists env,
      fst (_api_run_envelope kw (fresh g)) = Return env
      /\ classification env
         = Some (PStr (if unknown_command_rejection (CONFIG g) kw
                       then "error" else "failed")).

(** The claim C4 as the specification states it: a request with
    [callback=pong] is answered with the serialised envelope wrapped in a
    call of [pong] and marked as script, whether it asks for [json] or
    for [xml]. *)
Definition jsonp_for_json_and_xml : Prop :=
  forall (L : Libs) (g : Globals) (kw : kwargs_t),
    kw !! "callback" = Some (PStr "pong") ->
    (kw_get "out_type" (PStr "json") kw = PStr "json"
     \/ kw_get "out_type" (PStr "json") kw = PStr "xml") ->
    let r := _api_run kw (fresh g) in
    (exists body, fst r = Return (PStr ("pong(" +:+ body +:+ ");")))
    /\ content_type (plexpy (snd r)) = Some "application/javascript".

(** The claim C7 as the specification states it. *)
Definition normalize_follows_rules : Prop :=
  forall (L : Libs) (result : pyval), normalize result = coerce_by_rules result.

(** The claim C8 as the specification states it: with a 32-character key
    stored, two calls of [get_apikey] with empty username and password
    return that key, and the second writes nothing. *)
Definition get_apikey_twice_returns_key : Prop :=
  forall (L : Libs) (s : Store),
    String.length (API_KEY (CONFIG (plexpy s))) = 32 ->
    let r1 := get_apikey_with (PStr "") (PStr "") s in
    let r2 := get_apikey_with (PStr "") (PStr "") (snd r1) in
    fst r1 = Return (PStr (API_KEY (CONFIG (plexpy s))))
    /\ fst r2 = Return (PStr (API_KEY (CONFIG (plexpy s))))
    /\ config_writes (plexpy (snd r2)) = config_writes (plexpy (snd r1)).

(** The claim C10 as the specification states it: for every request that
    validation rejects, whatever its command, [out_type] chooses the wire
    format of the error envelope, [debug] its indentation and [callback]
    the wrapper around it. *)
Definition rendering_controls_every_rejection : Prop :=
  forall (L : Libs) (g : Globals) (kw : kwargs_t),
    let a := _api_validate (CONFIG g) __init__ kw in
    _api_authenticated a = false ->
    let env := _api_responds "error" (PDict []) (_api_msg a) in
    let r := _api_run kw (fresh g) in
    (kw_get "out_type" (PStr "json") kw = PStr "xml" ->
     content_type (plexpy (snd r)) = Some "application/xml"
     /\ forall s, xmltodict_unparse env = Return s -> fst r = Return (PStr s))
    /\ (kw_get "out_type" (PStr "json") kw = PStr "json" ->
        forall s,
          json_dumps (truthy (kw_get "debug" (PBool false) kw)) env
          = Return s ->
          (kw !! "callback" = None ->
           fst r = Return (PStr s)
           /\ content_type (plexpy (snd r))
              = Some "application/json;charset=UTF-8")
          /\ (forall cb,
                kw !! "callback" = Some (PStr cb) ->
                fst r = Return (PStr ((cb +:+ "(") +:+ s +:+ ");"))
                /\ content_type (plexpy (snd r))
                   = Some "application/javascript")).

(** A process with HTTP authentication configured; the module attribute
    [plexpy.HTTP_USERNAME] is taken to hold the configured name. *)
Definition protected_globals : Globals := {|
  CONFIG := {| API_ENABLED := true; API_KEY := Demo.key; API_SQL := false;
               HTTP_USERNAME := "admin"; HTTP_PASSWORD := "secret" |};
  SIGNAL := None; MODULE_HTTP_USERNAME := Some "admin";
  config_writes := 0; draws := 0; content_type := None
|}.

(** The serialised envelope of the witness below. *)
Definition sample_body : string :=
  Eval vm_compute in
    match Demo.dumps false 0
            (_api_responds "success"
               (PDict [("General", PDict [("api_enabled", PBool true)])]) None)
    with
    | Return s => s
    | Raise _ => ""
    end.

(** The indented serialisation of the envelope of the witness below. *)
Definition sample_rejection : string :=
  Eval vm_compute in
    match Demo.dumps true 0
            (_api_responds "error" (PDict [])
               (Some "Parameter apikey is required"))
    with
    | Return s => s
    | Raise _ => ""
    end.

(** The XML serialisation of the envelope of the witness below. *)
Definition sample_xml_body : string :=
  Eval vm_compute in
    match Demo.unparse
            (_api_responds "success"
               (PDict [("General", PDict [("api_enabled", PBool true)])]) None)
    with
    | Return s => s
    | Raise _ => ""
    end.


(** The part of the module state that outlives a request: everything but
    the response header. *)
Definition process_of (g : Globals) :=
  (CONFIG g, SIGNAL g, MODULE_HTTP_USERNAME g, config_writes g, draws g).

(** A computation that leaves the view [f] of the store as it was. *)
Definition preserves {A T} (f : Store -> T) (m : M A) : Prop :=
  forall s, f (snd (m s)) = f s.

(** ** Readings used by the further properties *)

(** The call of [_api_run] once the method is resolved. *)
Definition invoke (a : API2) (h : kwargs_t -> M pyval) : M pyval :=
  match _api_kwargs a with
  | Some kw => h kw
  | None => raise (TypeError "argument after ** must be a mapping")
  end.

(** The store without the response header. *)
Definition beyond_header (s : Store) := (self s, process_of (plexpy s)).

(** What the inner loop of [get_settings] does to one value. *)
Definition truthified (v : pyval) : pyval :=
  if py_eq_str v "0" || py_eq_str v "1" then PBool true else v.

(** What [get_settings] adds to the section [General]. *)
Definition with_interfaces (interface_dir : string)
    (interface_list : list string) (name : string)
    (d : list (string * pyval)) : list (string * pyval) :=
  if String.eqb name "General"
  then dict_set (dict_set d "interface" (PStr interface_dir))
         "interface_list" (PList (map PStr interface_list))
  else d.

(** The section [General], when there is one, is a mapping. *)
Definition general_is_mapping (conf : list (string * pyval)) : Prop :=
  forall v, dict_get conf "General" = Some v -> exists d, v = PDict d.

(** The backup check of [sql] asks for a backup: the backup directory is
    empty, or one of its files is older than a day. *)
Definition backup_due (stale : list bool) : bool :=
  match stale with
  | [] => true
  | _ => existsb (fun old => old) stale
  end.

(** An entry of the log: the dict of one logged line. *)
Definition is_entry (d : pyval) : Prop :=
  exists time loglevel msg thread, d = log_entry time loglevel msg thread.

(** [a] occurs in [s]. *)
Definition infix (a s : string) : Prop := exists p q, s = p +:+ a +:+ q.

(** The fields of an entry, and the text of one of them. *)
Definition log_fields : list string := ["time"; "loglevel"; "msg"; "thread"].

Definition field_of (f : string) (d : pyval) : string :=
  match py_getitem d f with
  | Return (PStr v) => v
  | _ => ""
  end.

(** The order of the keys. *)
Definition by_key (a b : string * pyval) : Prop :=
  String.leb (fst a) (fst b) = true.

(** The order of the entries by one field. *)
Definition by_field (f : string) (a b : pyval) : Prop :=
  String.leb (field_of f a) (field_of f b) = true.

(** The answer with its list in the reverse order. *)
Definition reversed (r : outcome pyval) : outcome pyval :=
  match r with
  | Return (PList l) => Return (PList (rev l))
  | other => other
  end.

(** The lines added to the message [m] of an entry, one after the other,
    newlines removed. *)
Definition continued (m : string) (pending : list string) : string :=
  foldl (fun m line => m +:+ without_newlines line) m pending.

(** What a log holds, read from its last line to its first: a line that is
    not a logged line waits (first component) for the logged line before
    it; a logged line gives one entry, with its own time, level and
    thread, and with its message continued by the lines that wait, in the
    order of the file; the entries (second component) stand in the order
    of the file. *)
Definition logged_blocks (lines : list string) : list string * list pyval :=
  foldr (fun line blocks =>
           match parse_line line with
           | None => (line :: fst blocks, snd blocks)
           | Some (time, loglvl, msg, thread) =>
               ([],
                log_entry time loglvl
                  (continued (without_newlines msg) (fst blocks)) thread
                :: snd blocks)
           end)
        ([], []) lines.

(** The handler of [IndexError] run once for each of the lines [pending]. *)
Definition extended (templog : list pyval) (pending : list string)
  : outcome (list pyval) :=
  foldl (fun r line =>
           and_then r (fun t => extend_last t (without_newlines line)))
        (Return templog) pending.

(** * Properties *)

(** ** Values and bags *)

Lemma py_eq_str_true (v : pyval) (s : string) :
  py_eq_str v s = true <-> v = PStr s.
Proof.
  destruct v; simpl; try (split; [discriminate | intros E; discriminate E]).
  rewrite String.eqb_eq. split; [intros -> | intros [= ->]]; reflexivity.
Qed.

Lemma py_in_true (v : pyval) (names : list string) :
  py_in v names = true <-> exists n, v = PStr n /\ n ∈ names.
Proof.
  unfold py_in. rewrite existsb_exists. split.
  - intros (n & Hin & Heq). exists n. split.
    + apply py_eq_str_true, Heq.
    + apply list_elem_of_In, Hin.
  - intros (n & -> & Hin). exists n. split.
    + apply list_elem_of_In, Hin.
    + simpl. apply String.eqb_refl.
Qed.

Lemma kw_get_delete_ne (k k' : string) (d : pyval) (kw : kwargs_t) :
  k <> k' -> kw_get k d (delete k' kw) = kw_get k d kw.
Proof. intros Hne. unfold kw_get. rewrite lookup_delete_ne; auto. Qed.

Lemma kw_get_PStr (k : string) (d : pyval) (kw : kwargs_t) (s : string) :
  (forall t, d <> PStr t) ->
  kw_get k d kw = PStr s <-> kw !! k = Some (PStr s).
Proof.
  intros Hd. unfold kw_get. destruct (kw !! k) as [v|].
  - split; [intros -> | intros [= ->]]; reflexivity.
  - split; [intros E; destruct (Hd _ E) | discriminate].
Qed.

Lemma has_key_false (k : string) (kw : kwargs_t) :
  has_key k kw = false <-> kw !! k = None.
Proof.
  unfold has_key. destruct (kw !! k); split; congruence.
Qed.

(** ** The registry *)

Section ValidationFacts.
Context {L : Libs}.

Lemma init_valid_methods : _api_valid_methods __init__ = registry.
Proof. reflexivity. Qed.

Lemma validate_init (cfg : Config) (kw : kwargs_t) :
  _api_validate cfg __init__ kw =
  {| _api_valid_methods := registry;
     _api_authenticated := granted cfg kw;
     _api_out_type := kw_get "out_type" (PStr "json") kw;
     _api_msg := if granted cfg kw then None
                 else validation_msg cfg registry None kw;
     _api_debug := kw_get "debug" (PBool false) kw;
     _api_cmd := kw_get "cmd" PNone kw;
     _api_apikey := kw_get "apikey" PNone kw;
     _api_callback := kw_get "callback" PNone kw;
     _api_result_type := "failed";
     _api_profileme := kw_get "profileme" PNone kw;
     _api_kwargs := if granted cfg kw then Some (cleaned kw) else None;
     msg := None; result_type := None; data := None |}.
Proof.
  unfold _api_validate, kw_pop, granted, cleaned, reserved, public_commands.
  rewrite init_valid_methods. cbn [foldl].
  rewrite !kw_get_delete_ne by discriminate.
  cbn [_api_authenticated _api_msg _api_kwargs msg result_type data
       _api_result_type __init__].
  destruct (_ || _); reflexivity.
Qed.

(** A request is authenticated exactly when a branch grants it. *)
Lemma granted_iff (cfg : Config) (kw : kwargs_t) :
  granted cfg kw = true <->
  (kw !! "apikey" = Some (PStr (API_KEY cfg)) /\ API_ENABLED cfg = true
   /\ exists n, kw !! "cmd" = Some (PStr n) /\ n ∈ registry)
  \/ ((exists n, kw !! "cmd" = Some (PStr n) /\ n ∈ public_commands)
      /\ API_ENABLED cfg = true).
Proof.
  unfold granted.
  rewrite orb_true_iff, !andb_true_iff, py_eq_str_true, !py_in_true.
  rewrite kw_get_PStr by discriminate.
  assert (Hcmd : forall n, kw_get "cmd" PNone kw = PStr n
                           <-> kw !! "cmd" = Some (PStr n))
    by (intros n; apply kw_get_PStr; discriminate).
  split.
  - intros [[[Hk He] (n & Hn & Hin)] | [(n & Hn & Hin) He]].
    + left. repeat split; auto. exists n. split; [apply Hcmd, Hn | exact Hin].
    + right. split; auto. exists n. split; [apply Hcmd, Hn | exact Hin].
  - intros [(Hk & He & n & Hn & Hin) | [(n & Hn & Hin) He]].
    + left. repeat split; auto. exists n. split; [apply Hcmd, Hn | exact Hin].
    + right. split; auto. exists n. split; [apply Hcmd, Hn | exact Hin].
Qed.

End ValidationFacts.

(** ** Validation and authentication *)

(** C2.  For every bag and configuration, validation of a new request
    marks it authenticated if and only if the supplied [apikey] equals the
    configured key, the API is enabled and [cmd] names a registered
    command, or [cmd] is one of [get_apikey], [docs], [docs_md] and the API
    is enabled; and when it does, the message is cleared to [None] and the
    bag without the reserved names becomes the cleaned parameters. *)
Theorem authenticated_iff {L : Libs} (cfg : Config) (kw : kwargs_t) :
  let a := _api_validate cfg __init__ kw in
  (_api_authenticated a = true <->
     (kw !! "apikey" = Some (PStr (API_KEY cfg)) /\ API_ENABLED cfg = true
      /\ exists n, kw !! "cmd" = Some (PStr n) /\ n ∈ registry)
     \/ ((exists n, kw !! "cmd" = Some (PStr n) /\ n ∈ public_commands)
         /\ API_ENABLED cfg = true))
  /\ (_api_authenticated a = true ->
        _api_msg a = None /\ _api_kwargs a = Some (cleaned kw)).
Proof.
  cbv zeta. rewrite validate_init.
  cbn [_api_authenticated _api_msg _api_kwargs].
  split; [apply granted_iff |].
  intros ->. split; reflexivity.
Qed.

(** C9, counterexample: with the API disabled the empty bag is rejected
    with the message of the first branch of the chain. *)
Lemma missing_apikey_counterexample : ~ missing_apikey_always_reported.
Proof.
  intros Hclaim.
  pose (cfg := {| API_ENABLED := false; API_KEY := Demo.key; API_SQL := false;
                  HTTP_USERNAME := ""; HTTP_PASSWORD := "" |}).
  assert (Hk : bag [] !! "apikey" = None) by reflexivity.
  destruct (Hclaim Demo.libs cfg (bag []) Hk) as [Hmsg _].
  vm_compute in Hmsg. discriminate Hmsg.
Qed.

(** A public command needs no key: the bag [{cmd: docs}] is authenticated
    and its cleaned parameters are produced. *)
Example missing_apikey_public_command :
  let a := @_api_validate Demo.libs Demo.config (@__init__ Demo.libs)
             (bag [("cmd", PStr "docs")]) in
  _api_authenticated a = true /\ _api_msg a = None
  /\ _api_kwargs a = Some (bag []).
Proof. vm_compute. repeat split. Qed.

(** C9, amended.  For every bag without [apikey], when the API is enabled,
    the configured key has 32 characters and [cmd] is not one of the public
    commands, validation of a new request leaves it unauthenticated with
    exactly the message [Parameter apikey is required] and produces no
    cleaned parameters. *)
Theorem missing_apikey_rejected {L : Libs} (cfg : Config) (kw : kwargs_t) :
  kw !! "apikey" = None ->
  API_ENABLED cfg = true ->
  String.length (API_KEY cfg) = 32 ->
  py_in (kw_get "cmd" PNone kw) public_commands = false ->
  let a := _api_validate cfg __init__ kw in
  _api_authenticated a = false
  /\ _api_msg a = Some "Parameter apikey is required"
  /\ _api_kwargs a = None.
Proof.
  intros Hk He Hlen Hpub. cbv zeta. rewrite validate_init.
  cbn [_api_authenticated _api_msg _api_kwargs].
  assert (Hg : granted cfg kw = false).
  { unfold granted, kw_get at 1. rewrite Hk, Hpub. reflexivity. }
  rewrite Hg. repeat split.
  unfold validation_msg. rewrite He. cbn [negb].
  destruct (API_KEY cfg) as [|c k]; [discriminate Hlen |].
  cbn [truthy String.eqb negb]. rewrite Hlen. cbn [Nat.eqb negb].
  apply has_key_false in Hk. rewrite Hk. reflexivity.
Qed.

Lemma missing_apikey_rejected_witness :
  let a := @_api_validate Demo.libs Demo.config (@__init__ Demo.libs)
             (bag [("cmd", PStr "restart")]) in
  _api_authenticated a = false
  /\ _api_msg a = Some "Parameter apikey is required"
  /\ _api_kwargs a = None.
Proof.
  apply (missing_apikey_rejected (L := Demo.libs) Demo.config
           (bag [("cmd", PStr "restart")])); reflexivity.
Defined.

(** ** Handlers leave the request attributes alone *)

Lemma request_of_eq (a b : API2) :
  request_of a = request_of b ->
  _api_out_type a = _api_out_type b /\ _api_msg a = _api_msg b
  /\ _api_debug a = _api_debug b /\ _api_cmd a = _api_cmd b
  /\ _api_callback a = _api_callback b
  /\ _api_result_type a = _api_result_type b.
Proof.
  unfold request_of. intros [= _ _ Hot Hmsg Hd Hc _ Hcb Hrt _ _].
  repeat split; assumption.
Qed.

Section Handlers.
Context {L : Libs}.

Lemma keeps_ret {A} (a : A) : keeps_request (ret a).
Proof. intros s. reflexivity. Qed.

Lemma keeps_raise {A} (e : exn) : keeps_request (raise (A := A) e).
Proof. intros s. reflexivity. Qed.

Lemma keeps_lift {A} (o : outcome A) : keeps_request (lift o).
Proof. intros s. reflexivity. Qed.

Lemma keeps_get_self : keeps_request get_self.
Proof. intros s. reflexivity. Qed.

Lemma keeps_get_plexpy : keeps_request get_plexpy.
Proof. intros s. reflexivity. Qed.

Lemma keeps_put_plexpy (g : Globals) : keeps_request (put_plexpy g).
Proof. intros s. reflexivity. Qed.

Lemma keeps_bind {A B} (m : M A) (f : A -> M B) :
  keeps_request m -> (forall x, keeps_request (f x)) ->
  keeps_request (bind m f).
Proof.
  intros Hm Hf s. unfold bind. specialize (Hm s).
  destruct (m s) as [[a | e] s']; cbn [snd] in *.
  - rewrite Hf. exact Hm.
  - exact Hm.
Qed.

Lemma keeps_try_except {A} (m : M A) (h : exn -> M A) :
  keeps_request m -> (forall e, keeps_request (h e)) ->
  keeps_request (try_except m h).
Proof.
  intros Hm Hh s. unfold try_except. specialize (Hm s).
  destruct (m s) as [[a | e] s']; cbn [snd] in *.
  - exact Hm.
  - rewrite Hh. exact Hm.
Qed.

Lemma keeps_set_msg (v : pyval) : keeps_request (set_msg v).
Proof. intros s. reflexivity. Qed.

Lemma keeps_set_result_type (v : pyval) : keeps_request (set_result_type v).
Proof. intros s. reflexivity. Qed.

Lemma keeps_set_data (v : pyval) : keeps_request (set_data v).
Proof. intros s. reflexivity. Qed.

Lemma keeps_bind_args (params : list string) (kw : kwargs_t) :
  keeps_request (bind_args params kw).
Proof.
  unfold bind_args. destruct (accepts params kw); intros s; reflexivity.
Qed.

Ltac keeps :=
  repeat first
    [ apply keeps_ret | apply keeps_raise | apply keeps_lift
    | apply keeps_get_self | apply keeps_get_plexpy | apply keeps_put_plexpy
    | apply keeps_set_msg | apply keeps_set_result_type | apply keeps_set_data
    | apply keeps_bind_args
    | apply keeps_bind; [| intros ?]
    | apply keeps_try_except; [| intros ?]
    | match goal with
      | |- keeps_request (if ?b then _ else _) => destruct b
      | |- keeps_request (match ?x with _ => _ end) => destruct x
      end ].

Lemma keeps_flagged (c : outcome pyval) : keeps_request (flagged c).
Proof. unfold flagged. keeps. Qed.

Lemma keeps_stored_or_new (k : string) : keeps_request (stored_or_new k).
Proof. unfold stored_or_new, store_api_key. keeps. Qed.

(** Every method [getattr] can return keeps the request attributes. *)
Lemma keeps_handlers (kw : kwargs_t) :
  keeps_request (backup_config kw) /\ keeps_request (backup_db kw)
  /\ keeps_request (docs kw) /\ keeps_request (docs_md kw)
  /\ keeps_request (get_apikey kw) /\ keeps_request (get_logs kw)
  /\ keeps_request (get_settings kw)
  /\ keeps_request (refresh_libraries_list kw)
  /\ keeps_request (refresh_users_list kw)
  /\ keeps_request (restart kw) /\ keeps_request (sql kw)
  /\ keeps_request (update kw).
Proof.
  repeat split;
    unfold backup_config, backup_db, docs, docs_md, get_apikey,
      get_apikey_with, get_logs, get_settings, refresh_libraries_list,
      refresh_users_list, restart, sql, update, set_signal;
    keeps; solve [apply keeps_flagged | apply keeps_stored_or_new].
Qed.

Lemma keeps_dispatch (a : API2) : keeps_request (dispatch a).
Proof.
  unfold dispatch.
  destruct (truthy (_api_cmd a) && _api_authenticated a); [| apply keeps_ret].
  assert (Hcall : forall (h : kwargs_t -> M pyval) ,
             (forall kw, keeps_request (h kw)) ->
             keeps_request
               (exec (if truthy (_api_profileme a) && negb profilehooks_present
                      then raise (ImportError "No module named profilehooks")
                      else ret tt) in
                if truthy (_api_debug a)
                then match _api_kwargs a with
                     | Some kw => h kw
                     | None => raise (TypeError "argument after ** must be a mapping")
                     end
                else try_except
                       match _api_kwargs a with
                       | Some kw => h kw
                       | None => raise (TypeError "argument after ** must be a mapping")
                       end
                       (fun _ => ret (PDict [])))).
  { intros h Hh. keeps; apply Hh. }
  unfold getattr.
  destruct (_api_cmd a) as [| | |name| | | |];
    try (intros s; reflexivity).
  repeat match goal with
         | |- keeps_request (bind (if ?b then _ else _) _) => destruct b
         end;
    try (intros s; reflexivity);
    intros s; unfold bind at 1; unfold ret at 1;
    apply Hcall; intros kw; apply (keeps_handlers kw).
Qed.

End Handlers.

(** ** The envelope of a request *)

Section Envelope.
Context {L : Libs}.

Lemma run_envelope_eq (g : Globals) (kw : kwargs_t) :
  _api_run_envelope kw (fresh g) =
  let a := _api_validate (CONFIG g) __init__ kw in
  match dispatch a {| self := a; plexpy := g |} with
  | (Return result, s1) =>
      let t := classify (normalize result) (_api_result_type (self s1)) in
      (Return (_api_responds t (normalize result) (_api_msg (self s1))),
       {| self := with_api_result_type t (self s1); plexpy := plexpy s1 |})
  | (Raise e, s1) => (Raise e, s1)
  end.
Proof.
  unfold _api_run_envelope, fresh, bind, get_self, get_plexpy, put_self, ret.
  cbn [self plexpy].
  destruct (dispatch _ _) as [[result | e] s1]; reflexivity.
Qed.

(** The request attributes after the handler ran are those validation
    set. *)
Lemma dispatch_request (a : API2) (g : Globals) :
  request_of (self (snd (dispatch a {| self := a; plexpy := g |})))
  = request_of a.
Proof. apply (keeps_dispatch a {| self := a; plexpy := g |}). Qed.

(** A new request never enters the classification with [success]: the
    envelope says [success] exactly when the converted value is true. *)
Lemma run_envelope_classification (g : Globals) (kw : kwargs_t) :
  let a := _api_validate (CONFIG g) __init__ kw in
  match dispatch a {| self := a; plexpy := g |} with
  | (Return result, s1) =>
      fst (_api_run_envelope kw (fresh g)) =
      Return (_api_responds
                (if truthy (normalize result) then "success" else "error")
                (normalize result) (_api_msg a))
  | (Raise e, s1) => fst (_api_run_envelope kw (fresh g)) = Raise e
  end.
Proof.
  cbv zeta. rewrite run_envelope_eq. cbv zeta.
  pose proof (dispatch_request (_api_validate (CONFIG g) __init__ kw) g) as Hr.
  destruct (dispatch _ _) as [[result | e] s1]; [| reflexivity].
  cbn [snd fst] in *.
  apply request_of_eq in Hr as (_ & Hmsg & _ & _ & _ & Hrt).
  rewrite Hmsg, Hrt. unfold classify.
  rewrite validate_init. cbn [_api_result_type].
  rewrite orb_false_r. reflexivity.
Qed.

(** The request attributes seen by [_api_out_as] come from the bag,
    whatever validation decided and whatever the handler did. *)
Lemma run_envelope_attributes (g : Globals) (kw : kwargs_t) :
  let a := self (snd (_api_run_envelope kw (fresh g))) in
  _api_cmd a = kw_get "cmd" PNone kw
  /\ _api_out_type a = kw_get "out_type" (PStr "json") kw
  /\ _api_debug a = kw_get "debug" (PBool false) kw
  /\ _api_callback a = kw_get "callback" PNone kw.
Proof.
  cbv zeta. rewrite run_envelope_eq. cbv zeta.
  pose proof (dispatch_request (_api_validate (CONFIG g) __init__ kw) g) as Hr.
  assert (Ha : _api_out_type (_api_validate (CONFIG g) __init__ kw)
               = kw_get "out_type" (PStr "json") kw
               /\ _api_debug (_api_validate (CONFIG g) __init__ kw)
                  = kw_get "debug" (PBool false) kw
               /\ _api_cmd (_api_validate (CONFIG g) __init__ kw)
                  = kw_get "cmd" PNone kw
               /\ _api_callback (_api_validate (CONFIG g) __init__ kw)
                  = kw_get "callback" PNone kw)
    by (rewrite validate_init; repeat split).
  destruct Ha as (Hot' & Hd' & Hc' & Hcb').
  apply request_of_eq in Hr as (Hot & _ & Hd & Hc & Hcb & _).
  rewrite Hot' in Hot. rewrite Hd' in Hd. rewrite Hc' in Hc.
  rewrite Hcb' in Hcb.
  destruct (dispatch _ _) as [[result | e] s1];
    cbn [snd fst self] in *;
    cbn [with_api_result_type _api_cmd _api_out_type _api_debug _api_callback];
    rewrite Hot, Hd, Hc, Hcb; repeat split.
Qed.

End Envelope.

(** ** Classification of the envelope *)

(** C1.  For an authenticated, non-debug request [restart] with no other
    argument the handler writes [self.msg] and [self.result_type], which
    [_api_run] never reads: the envelope carries [error], no message and
    the data [{}]. *)
Theorem restart_envelope {L : Libs} (g : Globals) :
  API_ENABLED (CONFIG g) = true ->
  String.length (API_KEY (CONFIG g)) = 32 ->
  let kw := bag [("apikey", PStr (API_KEY (CONFIG g)));
                 ("cmd", PStr "restart")] in
  let r := _api_run_envelope kw (fresh g) in
  fst r = Return (PDict [("response",
                          PDict [("result", PStr "error");
                                 ("message", PNone);
                                 ("data", PDict [])])])
  /\ msg (self (snd r)) = Some (PStr "Restarting plexpy")
  /\ result_type (self (snd r)) = Some (PStr "success")
  /\ SIGNAL (plexpy (snd r)) = Some "restart".
Proof.
  intros He Hlen kw r. subst r.
  rewrite run_envelope_eq. cbv zeta. rewrite validate_init.
  assert (Hg : granted (CONFIG g) kw = true).
  { apply granted_iff. left. split; [reflexivity | split; [exact He |]].
    exists "restart". split; [reflexivity | set_solver]. }
  rewrite Hg.
  change (kw_get "cmd" PNone kw) with (PStr "restart").
  change (kw_get "debug" (PBool false) kw) with (PBool false).
  change (kw_get "profileme" PNone kw) with PNone.
  repeat split; reflexivity.
Qed.

Lemma restart_envelope_witness :
  let kw := bag [("apikey", PStr Demo.key); ("cmd", PStr "restart")] in
  let r := @_api_run_envelope Demo.libs kw
             (@fresh Demo.libs (Demo.globals Demo.config)) in
  fst r = Return (PDict [("response",
                          PDict [("result", PStr "error");
                                 ("message", PNone);
                                 ("data", PDict [])])])
  /\ msg (self (snd r)) = Some (PStr "Restarting plexpy")
  /\ result_type (self (snd r)) = Some (PStr "success")
  /\ SIGNAL (plexpy (snd r)) = Some "restart".
Proof.
  apply (@restart_envelope Demo.libs (Demo.globals Demo.config)); reflexivity.
Defined.


Section Rejection.
Context {L : Libs}.

(** Without authentication no handler is called. *)
Lemma dispatch_rejected (a : API2) (s : Store) :
  _api_authenticated a = false -> dispatch a s = (Return (PDict []), s).
Proof.
  intros Ha. unfold dispatch. rewrite Ha, andb_false_r. reflexivity.
Qed.

(** A request no branch grants has a message from the chain. *)
Lemma not_granted_msg (cfg : Config) (kw : kwargs_t) :
  granted cfg kw = false ->
  exists m, validation_msg cfg registry None kw = Some m.
Proof.
  intros Hg. unfold validation_msg.
  destruct (API_ENABLED cfg) eqn:He; cbn [negb]; [| eauto].
  destruct (truthy (PStr (API_KEY cfg))); cbn [negb]; [| eauto].
  destruct (String.length (API_KEY cfg) =? 32)%nat; cbn [negb]; [| eauto].
  destruct (has_key "apikey" kw) eqn:Hk; cbn [negb]; [| eauto].
  destruct (py_eq_str (kw_get "apikey" (PStr "") kw) (API_KEY cfg)) eqn:Heq;
    cbn [negb]; [| eauto].
  destruct (has_key "cmd" kw) eqn:Hc; cbn [negb andb]; [| eauto].
  destruct (py_in (kw_get "cmd" PNone kw) registry) eqn:Hin;
    cbn [negb]; [| eauto].
  exfalso. unfold granted in Hg. rewrite He, Hin in Hg.
  unfold has_key in Hk. unfold kw_get in Heq, Hg.
  destruct (kw !! "apikey"); [| discriminate Hk].
  rewrite Heq in Hg. discriminate Hg.
Qed.

(** The whole effect of [_api_run_envelope] on a rejected request. *)
Lemma rejected_run_envelope (g : Globals) (kw : kwargs_t) :
  let a := _api_validate (CONFIG g) __init__ kw in
  _api_authenticated a = false ->
  _api_run_envelope kw (fresh g) =
  (Return (_api_responds "error" (PDict []) (_api_msg a)),
   {| self := with_api_result_type "error" a; plexpy := g |}).
Proof.
  cbv zeta. intros Ha. rewrite run_envelope_eq. cbv zeta.
  rewrite (dispatch_rejected _ _ Ha). cbn [self plexpy].
  rewrite validate_init. reflexivity.
Qed.

End Rejection.

(** C3, counterexample: with the API disabled, the empty bag is rejected
    with [API not enabled] and the envelope carries [error]. *)
Lemma rejection_classification_counterexample :
  ~ rejections_failed_unless_unknown.
Proof.
  intros Hclaim.
  pose (cfg := {| API_ENABLED := false; API_KEY := Demo.key; API_SQL := false;
                  HTTP_USERNAME := ""; HTTP_PASSWORD := "" |}).
  destruct (Hclaim Demo.libs (Demo.globals cfg) (bag []) eq_refl)
    as (env & Henv & Hclass).
  vm_compute in Henv. injection Henv as <-.
  vm_compute in Hclass. discriminate Hclass.
Qed.

(** C3, amended.  Every request rejected by validation, whichever branch
    of the chain chose its message (API disabled, no key, malformed key,
    missing or wrong [apikey], missing or unknown [cmd]), gets the envelope
    with classification [error], that message and the data [{}]. *)
Theorem rejected_envelope {L : Libs} (g : Globals) (kw : kwargs_t) :
  _api_authenticated (_api_validate (CONFIG g) __init__ kw) = false ->
  exists m,
    validation_msg (CONFIG g) registry None kw = Some m
    /\ fst (_api_run_envelope kw (fresh g))
       = Return (PDict [("response",
                         PDict [("result", PStr "error");
                                ("message", PStr m);
                                ("data", PDict [])])])
    /\ classification (PDict [("response",
                               PDict [("result", PStr "error");
                                      ("message", PStr m);
                                      ("data", PDict [])])])
       = Some (PStr "error").
Proof.
  intros Ha. rewrite (rejected_run_envelope g kw Ha). cbn [fst].
  rewrite validate_init in *. cbn [_api_authenticated _api_msg] in *.
  rewrite Ha. destruct (not_granted_msg _ _ Ha) as [m Hm].
  exists m. rewrite Hm. repeat split.
Qed.

Lemma rejected_envelope_witness :
  exists m,
    @validation_msg Demo.libs Demo.config registry None
      (bag [("apikey", PStr "guess"); ("cmd", PStr "restart")]) = Some m
    /\ fst (@_api_run_envelope Demo.libs
              (bag [("apikey", PStr "guess"); ("cmd", PStr "restart")])
              (@fresh Demo.libs (Demo.globals Demo.config)))
       = Return (PDict [("response",
                         PDict [("result", PStr "error");
                                ("message", PStr m);
                                ("data", PDict [])])])
    /\ classification (PDict [("response",
                               PDict [("result", PStr "error");
                                      ("message", PStr m);
                                      ("data", PDict [])])])
       = Some (PStr "error").
Proof.
  apply (@rejected_envelope Demo.libs (Demo.globals Demo.config)
           (bag [("apikey", PStr "guess"); ("cmd", PStr "restart")])).
  reflexivity.
Defined.

(** ** The formatter *)

Section Formatter.
Context {L : Libs}.

Lemma out_as_rendered (a : API2) (g : Globals) (out : pyval) :
  bypass (_api_cmd a) = false ->
  _api_out_as out {| self := a; plexpy := g |} =
  if py_eq_str (_api_out_type a) "json"
  then out_as_json a out {| self := a; plexpy := g |}
  else if py_eq_str (_api_out_type a) "xml"
       then out_as_xml out {| self := a; plexpy := g |}
       else (Return out, {| self := a; plexpy := g |}).
Proof.
  unfold bypass. rewrite !orb_false_iff. intros [[H1 H2] H3].
  unfold _api_out_as, bind, get_self. cbn [self fst snd].
  rewrite H1, H2, H3.
  destruct (py_eq_str (_api_out_type a) "json"); [reflexivity |].
  destruct (py_eq_str (_api_out_type a) "xml"); reflexivity.
Qed.

(** JSON, no callback: the serialised text, marked as JSON. *)
Lemma out_as_json_plain (a : API2) (g : Globals) (out : pyval) (s : string) :
  json_dumps (truthy (_api_debug a)) out = Return s ->
  _api_callback a = PNone ->
  out_as_json a out {| self := a; plexpy := g |} =
  (Return (PStr s),
   {| self := a;
      plexpy := with_content_type "application/json;charset=UTF-8" g |}).
Proof.
  intros Hs Hcb. unfold out_as_json, bind, set_content_type, get_plexpy,
    put_plexpy, ret. cbn [self plexpy fst snd].
  rewrite Hs, Hcb. reflexivity.
Qed.

(** JSON with a callback name: the text wrapped as a call, marked as
    script. *)
Lemma out_as_json_callback (a : API2) (g : Globals) (out : pyval)
    (s cb : string) :
  json_dumps (truthy (_api_debug a)) out = Return s ->
  _api_callback a = PStr cb ->
  out_as_json a out {| self := a; plexpy := g |} =
  (Return (PStr ((cb +:+ "(") +:+ s +:+ ");")),
   {| self := a;
      plexpy := with_content_type "application/javascript"
                  (with_content_type "application/json;charset=UTF-8" g) |}).
Proof.
  intros Hs Hcb. unfold out_as_json, bind, set_content_type, get_plexpy,
    put_plexpy, ret. cbn [self plexpy fst snd].
  rewrite Hs, Hcb. reflexivity.
Qed.

(** JSON, serialisation raises: the keys [message] and [result] are set
    on the value handed in, which is returned as it is. *)
Lemma out_as_json_fault (a : API2) (g : Globals)
    (d : list (string * pyval)) (e : exn) :
  json_dumps (truthy (_api_debug a)) (PDict d) = Raise e ->
  out_as_json a (PDict d) {| self := a; plexpy := g |} =
  (Return (PDict (dict_set (dict_set d "message" (PStr (format_exc e)))
                           "result" (PStr "error"))),
   {| self := a;
      plexpy := with_content_type "application/json;charset=UTF-8" g |}).
Proof.
  intros Hs. unfold out_as_json, bind, set_content_type, get_plexpy,
    put_plexpy, ret. cbn [self plexpy fst snd].
  rewrite Hs. reflexivity.
Qed.

(** XML: the three tiers, for a mapping. *)
Lemma out_as_xml_tiers (s0 : Store) (d : list (string * pyval)) :
  out_as_xml (PDict d) s0 =
  (Return (PStr
     match xmltodict_unparse (PDict d) with
     | Return s => s
     | Raise e =>
         match xmltodict_unparse (xml_retry_input d e) with
         | Return s => s
         | Raise e' => minimal_xml (exn_msg e')
         end
     end),
   {| self := self s0;
      plexpy := with_content_type "application/xml" (plexpy s0) |}).
Proof.
  unfold out_as_xml, bind, try_except, set_content_type, get_plexpy,
    put_plexpy, ret, lift, xml_retry_input.
  cbn [self plexpy fst snd py_setitem].
  destruct (xmltodict_unparse (PDict d)) as [s | e]; [reflexivity |].
  destruct (xmltodict_unparse _) as [s | e']; reflexivity.
Qed.

(** XML never raises, whatever value is handed in. *)
Lemma out_as_xml_total (s0 : Store) (out : pyval) :
  exists text,
    out_as_xml out s0 =
    (Return (PStr text),
     {| self := self s0;
        plexpy := with_content_type "application/xml" (plexpy s0) |}).
Proof.
  destruct out as [| | | |l|d|x|x];
    try (unfold out_as_xml, bind, try_except, set_content_type, get_plexpy,
           put_plexpy, ret, lift;
         cbn [self plexpy fst snd py_setitem];
         destruct (xmltodict_unparse _) as [t | e]; eexists; reflexivity).
  rewrite out_as_xml_tiers. eexists; reflexivity.
Qed.

End Formatter.

(** C5.  Output format [json], and [json.dumps] raises on the envelope:
    the fault is caught, but the keys [message] and [result] are written
    beside the key [response], not inside it.  The formatter returns that
    mapping unserialised, and the envelope under [response] still carries
    the classification and message it had. *)
Theorem json_fault_written_beside_envelope {L : Libs} (a : API2)
    (g : Globals) (t : string) (d : pyval) (m : option string) (e : exn) :
  _api_out_type a = PStr "json" ->
  bypass (_api_cmd a) = false ->
  json_dumps (truthy (_api_debug a)) (_api_responds t d m) = Raise e ->
  let r := _api_out_as (_api_responds t d m) {| self := a; plexpy := g |} in
  fst r = Return (PDict [("response", response_of t d m);
                         ("message", PStr (format_exc e));
                         ("result", PStr "error")])
  /\ (forall v, fst r = Return v -> classification v = Some (PStr t))
  /\ content_type (plexpy (snd r)) = Some "application/json;charset=UTF-8".
Proof.
  intros Hot Hb He r. subst r.
  rewrite (out_as_rendered a g _ Hb), Hot.
  change (py_eq_str (PStr "json") "json") with true. cbv iota.
  unfold _api_responds in *.
  rewrite (out_as_json_fault a g _ e He). cbn [fst snd plexpy].
  split; [reflexivity |]. split; [| reflexivity].
  intros v [= <-]. reflexivity.
Qed.

Lemma json_fault_written_beside_envelope_witness :
  let env := _api_responds "success" (PList [PObj "<read-write buffer>"]) None in
  let r := @_api_out_as Demo.libs env
             {| self := @__init__ Demo.libs;
                plexpy := Demo.globals Demo.config |} in
  fst r = Return (PDict [("response",
                          response_of "success"
                            (PList [PObj "<read-write buffer>"]) None);
                         ("message",
                          PStr (@format_exc Demo.libs
                                  (TypeError "<read-write buffer> is not JSON serializable")));
                         ("result", PStr "error")])
  /\ (forall v, fst r = Return v -> classification v = Some (PStr "success"))
  /\ content_type (plexpy (snd r)) = Some "application/json;charset=UTF-8".
Proof.
  apply (@json_fault_written_beside_envelope Demo.libs (@__init__ Demo.libs)
           (Demo.globals Demo.config) "success"
           (PList [PObj "<read-write buffer>"]) None
           (TypeError "<read-write buffer> is not JSON serializable"));
    reflexivity.
Defined.

(** C6.  Output format [xml]: the formatter never raises on an envelope,
    and when the command is not answered without rendering the content
    type is [application/xml] and the body is the serialised envelope.
    When that serialisation raises, the value serialised at the second
    try is not the envelope with its message and result overwritten: the
    keys [message] and [result] are written beside the key [response], so
    the envelope under [response] keeps the classification and message it
    had, and the value has three top-level keys.  If the second try
    succeeds its text is the body; if it raises, the body is the
    hand-built document, whose message is the description of the fault of
    the second try. *)
Theorem xml_always_answers {L : Libs} (a : API2) (g : Globals)
    (t : string) (d : pyval) (m : option string) :
  _api_out_type a = PStr "xml" ->
  let env := _api_responds t d m in
  let r := _api_out_as env {| self := a; plexpy := g |} in
  (exists v, fst r = Return v)
  /\ (bypass (_api_cmd a) = false ->
      content_type (plexpy (snd r)) = Some "application/xml"
      /\ (forall s, xmltodict_unparse env = Return s -> fst r = Return (PStr s))
      /\ (forall e,
            xmltodict_unparse env = Raise e ->
            let again := PDict [("response", response_of t d m);
                                ("message", PExn e);
                                ("result", PStr "error")] in
            classification again = Some (PStr t)
            /\ py_getitem again "response" = py_getitem env "response"
            /\ (forall s, xmltodict_unparse again = Return s ->
                          fst r = Return (PStr s))
            /\ (forall e',
                  xmltodict_unparse again = Raise e' ->
                  fst r
                  = Return
                      (PStr
                         ("<?xml version=" +:+ dq +:+ "1.0" +:+ dq
                          +:+ " encoding=" +:+ dq +:+ "utf-8" +:+ dq +:+ "?>"
                          +:+ nl
                          +:+ spaces 32 +:+ "<response>" +:+ nl
                          +:+ spaces 36 +:+ "<message>" +:+ exn_msg e'
                          +:+ "</message>" +:+ nl
                          +:+ spaces 36 +:+ "<data></data>" +:+ nl
                          +:+ spaces 36 +:+ "<result>error</result>" +:+ nl
                          +:+ spaces 32 +:+ "</response>" +:+ nl
                          +:+ spaces 26))))).
Proof.
  intros Hot env r.
  assert (Hrendered : bypass (_api_cmd a) = false ->
            r = out_as_xml env {| self := a; plexpy := g |}).
  { intros Hb. subst r. rewrite (out_as_rendered a g _ Hb), Hot. reflexivity. }
  split.
  - destruct (bypass (_api_cmd a)) eqn:Hb.
    + subst r env. unfold _api_out_as, bind, get_self, bypass in *.
      cbn [self fst snd].
      destruct (py_eq_str (_api_cmd a) "docs_md"); [eexists; reflexivity |].
      destruct (py_eq_str (_api_cmd a) "download_log"); [eexists; reflexivity |].
      destruct (py_eq_str (_api_cmd a) "pms_image_proxy");
        [eexists; reflexivity | discriminate Hb].
    + rewrite (Hrendered eq_refl).
      destruct (out_as_xml_total {| self := a; plexpy := g |} env) as [x ->].
      eexists; reflexivity.
  - intros Hb. rewrite (Hrendered Hb). subst env. unfold _api_responds.
    rewrite out_as_xml_tiers. cbn [fst snd plexpy].
    split; [reflexivity |]. split.
    + intros s ->. reflexivity.
    + intros e ->. cbv zeta.
      change (xml_retry_input _ e)
        with (PDict [("response", response_of t d m); ("message", PExn e);
                     ("result", PStr "error")]).
      split; [reflexivity |]. split; [reflexivity |].
      split; [intros s -> | intros e' ->]; reflexivity.
Qed.

Lemma xml_always_answers_witness :
  let a := @_api_validate Demo.strict_libs Demo.config
             (@__init__ Demo.strict_libs)
             (bag [("apikey", PStr Demo.key); ("cmd", PStr "sql");
                   ("out_type", PStr "xml")]) in
  let rows := PList [PObj "<read-write buffer>"] in
  let r := @_api_out_as Demo.strict_libs (_api_responds "success" rows None)
             {| self := a; plexpy := Demo.globals Demo.config |} in
  let again := PDict [("response", response_of "success" rows None);
                      ("message",
                       PExn (Exn "UnicodeDecodeError" "invalid start byte"));
                      ("result", PStr "error")] in
  classification again = Some (PStr "success")
  /\ fst r
     = Return
         (PStr
            ("<?xml version=" +:+ dq +:+ "1.0" +:+ dq
             +:+ " encoding=" +:+ dq +:+ "utf-8" +:+ dq +:+ "?>" +:+ nl
             +:+ spaces 32 +:+ "<response>" +:+ nl
             +:+ spaces 36 +:+ "<message>"
             +:+ "Document must have exactly one root."
             +:+ "</message>" +:+ nl
             +:+ spaces 36 +:+ "<data></data>" +:+ nl
             +:+ spaces 36 +:+ "<result>error</result>" +:+ nl
             +:+ spaces 32 +:+ "</response>" +:+ nl
             +:+ spaces 26))
  /\ content_type (plexpy (snd r)) = Some "application/xml".
Proof.
  cbv zeta.
  pose proof (@xml_always_answers Demo.strict_libs
                (@_api_validate Demo.strict_libs Demo.config
                   (@__init__ Demo.strict_libs)
                   (bag [("apikey", PStr Demo.key); ("cmd", PStr "sql");
                         ("out_type", PStr "xml")]))
                (Demo.globals Demo.config) "success"
                (PList [PObj "<read-write buffer>"]) None eq_refl) as Hx.
  destruct Hx as [_ Hx]. destruct (Hx eq_refl) as (Hct & _ & Hfault).
  destruct (Hfault (Exn "UnicodeDecodeError" "invalid start byte") eq_refl)
    as (Hclass & _ & _ & Hlast).
  split; [exact Hclass |]. split; [| exact Hct].
  exact (Hlast (Exn "ValueError" "Document must have exactly one root.")
           eq_refl).
Defined.

(** ** JSONP *)

(** C4, counterexample: [restart] with the right key, [callback=pong] and
    [out_type=xml] is answered as [application/xml]. *)
Lemma jsonp_counterexample : ~ jsonp_for_json_and_xml.
Proof.
  intros Hclaim.
  destruct (Hclaim Demo.libs (Demo.globals Demo.config)
              (bag [("apikey", PStr Demo.key); ("cmd", PStr "restart");
                    ("callback", PStr "pong"); ("out_type", PStr "xml")])
              eq_refl (or_intror eq_refl)) as [_ Hct].
  vm_compute in Hct. discriminate Hct.
Qed.

(** C4, amended.  For every request that supplies [callback=pong], whose
    command is not answered without rendering and whose envelope [env] is
    produced: under [out_type] [json] (the default), when [env] serialises
    to [body], the response is [pong(body);] marked
    [application/javascript]; under [out_type] [xml] the callback is not
    used: the response is marked [application/xml] and is the XML text of
    [env] as the serialiser gives it, with nothing around it, or, when the
    serialiser raises, the text of the fallback, which does not depend on
    the callback either. *)
Theorem jsonp_wraps_json_only {L : Libs} (g : Globals) (kw : kwargs_t)
    (env : pyval) :
  kw !! "callback" = Some (PStr "pong") ->
  bypass (kw_get "cmd" PNone kw) = false ->
  fst (_api_run_envelope kw (fresh g)) = Return env ->
  let r := _api_run kw (fresh g) in
  (kw_get "out_type" (PStr "json") kw = PStr "json" ->
   forall body,
     json_dumps (truthy (kw_get "debug" (PBool false) kw)) env = Return body ->
     fst r = Return (PStr ("pong(" +:+ body +:+ ");"))
     /\ content_type (plexpy (snd r)) = Some "application/javascript")
  /\ (kw_get "out_type" (PStr "json") kw = PStr "xml" ->
      content_type (plexpy (snd r)) = Some "application/xml"
      /\ (forall body,
            xmltodict_unparse env = Return body -> fst r = Return (PStr body))
      /\ (forall e,
            xmltodict_unparse env = Raise e ->
            exists d,
              env = PDict d
              /\ fst r
                 = Return
                     (PStr match xmltodict_unparse (xml_retry_input d e) with
                           | Return s => s
                           | Raise e' => minimal_xml (exn_msg e')
                           end))).
Proof.
  intros Hcb Hb Henv r. subst r. unfold _api_run, bind.
  assert (Hform : exists d, env = PDict d).
  { rewrite run_envelope_eq in Henv. cbv zeta in Henv.
    destruct (dispatch _ _) as [[r0 | e0] s1]; cbn [fst] in Henv;
      [| discriminate Henv].
    injection Henv as <-. eexists. reflexivity. }
  pose proof (run_envelope_attributes g kw) as Hattr. cbv zeta in Hattr.
  destruct (_api_run_envelope kw (fresh g)) as [o [a g1]].
  cbn [fst snd self] in *. subst o.
  destruct Hattr as (Hc & Hot & Hd & Hcall).
  assert (Hcb' : _api_callback a = PStr "pong")
    by (rewrite Hcall; unfold kw_get; rewrite Hcb; reflexivity).
  rewrite <- Hc in Hb. rewrite <- Hot, <- Hd.
  rewrite (out_as_rendered a g1 env Hb).
  split.
  - intros -> body Hbody.
    change (py_eq_str (PStr "json") "json") with true. cbv iota.
    rewrite (out_as_json_callback a g1 env body "pong" Hbody Hcb').
    split; reflexivity.
  - intros ->.
    change (py_eq_str (PStr "xml") "json") with false.
    change (py_eq_str (PStr "xml") "xml") with true. cbv iota.
    destruct Hform as [d ->]. rewrite out_as_xml_tiers. cbn [fst snd plexpy].
    split; [reflexivity |]. split.
    + intros body ->. reflexivity.
    + intros e ->. exists d. split; reflexivity.
Qed.

Lemma jsonp_wraps_json_only_witness :
  let kw := bag [("apikey", PStr Demo.key); ("cmd", PStr "get_settings");
                 ("callback", PStr "pong")] in
  let r := @_api_run Demo.libs kw
             (@fresh Demo.libs (Demo.globals Demo.config)) in
  let kw' := bag [("apikey", PStr Demo.key); ("cmd", PStr "get_settings");
                  ("callback", PStr "pong"); ("out_type", PStr "xml")] in
  let r' := @_api_run Demo.libs kw'
              (@fresh Demo.libs (Demo.globals Demo.config)) in
  (fst r = Return (PStr ("pong(" +:+ sample_body +:+ ");"))
   /\ content_type (plexpy (snd r)) = Some "application/javascript")
  /\ (fst r' = Return (PStr sample_xml_body)
      /\ content_type (plexpy (snd r')) = Some "application/xml").
Proof.
  cbv zeta. split.
  - refine (proj1 (@jsonp_wraps_json_only Demo.libs (Demo.globals Demo.config)
                     (bag [("apikey", PStr Demo.key);
                           ("cmd", PStr "get_settings");
                           ("callback", PStr "pong")])
                     (_api_responds "success"
                        (PDict [("General",
                                 PDict [("api_enabled", PBool true)])])
                        None)
                     eq_refl eq_refl eq_refl) eq_refl sample_body eq_refl).
  - pose proof (proj2 (@jsonp_wraps_json_only Demo.libs
                         (Demo.globals Demo.config)
                         (bag [("apikey", PStr Demo.key);
                               ("cmd", PStr "get_settings");
                               ("callback", PStr "pong");
                               ("out_type", PStr "xml")])
                         (_api_responds "success"
                            (PDict [("General",
                                     PDict [("api_enabled", PBool true)])])
                            None)
                         eq_refl eq_refl eq_refl) eq_refl) as (Hct & Hbody & _).
    split; [exact (Hbody sample_xml_body eq_refl) | exact Hct].
Defined.

(** ** Rendering of a rejected request *)

(** C10, counterexample: a request for [download_log] is never
    authenticated, and the formatter answers it with [None] and sets no
    header, whatever [out_type], [debug] and [callback] say; with
    [out_type=xml] nothing is marked as XML. *)
Lemma rendering_counterexample : ~ rendering_controls_every_rejection.
Proof.
  intros Hclaim.
  destruct (Hclaim Demo.libs (Demo.globals Demo.config)
              (bag [("cmd", PStr "download_log"); ("out_type", PStr "xml")])
              eq_refl) as [Hxml _].
  destruct (Hxml eq_refl) as [Hct _].
  vm_compute in Hct. discriminate Hct.
Qed.

(** C10, amended.  The values of [callback], [debug] and [out_type] are
    taken from the bag of every request, authenticated or not, and are the
    ones in force when its envelope is handed to the formatter.  For a
    rejected request whose command is not one the formatter answers
    without rendering ([docs_md], [download_log], [pms_image_proxy]) they
    decide the rendering of the error envelope: [out_type=xml] gives XML;
    under [json], [debug] chooses the indented serialisation and a
    callback name wraps the text in a call marked as script. *)
Theorem rejected_rendering_from_bag {L : Libs} (g : Globals) (kw : kwargs_t) :
  let a := _api_validate (CONFIG g) __init__ kw in
  let after := self (snd (_api_run_envelope kw (fresh g))) in
  (_api_callback a = kw_get "callback" PNone kw
   /\ _api_debug a = kw_get "debug" (PBool false) kw
   /\ _api_out_type a = kw_get "out_type" (PStr "json") kw)
  /\ (_api_callback after = kw_get "callback" PNone kw
      /\ _api_debug after = kw_get "debug" (PBool false) kw
      /\ _api_out_type after = kw_get "out_type" (PStr "json") kw)
  /\ (_api_authenticated a = false ->
      bypass (kw_get "cmd" PNone kw) = false ->
      let env := _api_responds "error" (PDict []) (_api_msg a) in
      let r := _api_run kw (fresh g) in
      (kw_get "out_type" (PStr "json") kw = PStr "xml" ->
       content_type (plexpy (snd r)) = Some "application/xml"
       /\ forall s, xmltodict_unparse env = Return s -> fst r = Return (PStr s))
      /\ (kw_get "out_type" (PStr "json") kw = PStr "json" ->
          forall s,
            json_dumps (truthy (kw_get "debug" (PBool false) kw)) env
            = Return s ->
            (kw !! "callback" = None ->
             fst r = Return (PStr s)
             /\ content_type (plexpy (snd r))
                = Some "application/json;charset=UTF-8")
            /\ (forall cb,
                  kw !! "callback" = Some (PStr cb) ->
                  fst r = Return (PStr ((cb +:+ "(") +:+ s +:+ ");"))
                  /\ content_type (plexpy (snd r))
                     = Some "application/javascript"))).
Proof.
  cbv zeta. split; [rewrite validate_init; repeat split |].
  split.
  { destruct (run_envelope_attributes g kw) as (_ & Hot & Hd & Hcb).
    repeat split; assumption. }
  intros Ha Hb. unfold _api_run, bind.
  rewrite (rejected_run_envelope g kw Ha).
  set (a := _api_validate (CONFIG g) __init__ kw) in *.
  assert (Hfields : _api_cmd a = kw_get "cmd" PNone kw
                    /\ _api_out_type a = kw_get "out_type" (PStr "json") kw
                    /\ _api_debug a = kw_get "debug" (PBool false) kw
                    /\ _api_callback a = kw_get "callback" PNone kw)
    by (subst a; rewrite validate_init; repeat split).
  destruct Hfields as (Hc & Hot & Hd & Hcb).
  set (a' := with_api_result_type "error" a).
  assert (Hb' : bypass (_api_cmd a') = false)
    by (change (_api_cmd a') with (_api_cmd a); rewrite Hc; exact Hb).
  rewrite (out_as_rendered a' g _ Hb').
  change (_api_out_type a') with (_api_out_type a). rewrite Hot.
  split.
  - intros ->.
    change (py_eq_str (PStr "xml") "json") with false.
    change (py_eq_str (PStr "xml") "xml") with true. cbv iota.
    unfold _api_responds. rewrite out_as_xml_tiers.
    cbn [fst snd plexpy]. split; [reflexivity |].
    intros s ->. reflexivity.
  - intros -> s Hs.
    change (py_eq_str (PStr "json") "json") with true. cbv iota.
    rewrite <- Hd in Hs. change (_api_debug a) with (_api_debug a') in Hs.
    split.
    + intros Hnone.
      rewrite (out_as_json_plain a' g _ s Hs).
      * split; reflexivity.
      * change (_api_callback a') with (_api_callback a).
        rewrite Hcb. unfold kw_get. rewrite Hnone. reflexivity.
    + intros cb Hsome.
      rewrite (out_as_json_callback a' g _ s cb Hs).
      * split; reflexivity.
      * change (_api_callback a') with (_api_callback a).
        rewrite Hcb. unfold kw_get. rewrite Hsome. reflexivity.
Qed.

Lemma rejected_rendering_from_bag_witness :
  let kw := bag [("cmd", PStr "restart"); ("debug", PStr "1");
                 ("callback", PStr "hook")] in
  let r := @_api_run Demo.libs kw
             (@fresh Demo.libs (Demo.globals Demo.config)) in
  fst r = Return (PStr ("hook(" +:+ sample_rejection +:+ ");"))
  /\ content_type (plexpy (snd r)) = Some "application/javascript".
Proof.
  cbv zeta.
  pose proof (@rejected_rendering_from_bag Demo.libs (Demo.globals Demo.config)
                (bag [("cmd", PStr "restart"); ("debug", PStr "1");
                      ("callback", PStr "hook")])) as Hr.
  cbv zeta in Hr. destruct Hr as (_ & _ & Hr).
  destruct (Hr eq_refl eq_refl) as [_ Hjson].
  destruct (Hjson eq_refl sample_rejection eq_refl) as [_ Hcall].
  exact (Hcall "hook" eq_refl).
Defined.

(** ** Conversion of the handler's value *)

(** C7, counterexample: the text [null] is valid JSON and parses to
    [None]; the rules give [None], the code keeps the text. *)
Lemma normalize_counterexample : ~ normalize_follows_rules.
Proof.
  intros Hclaim. specialize (Hclaim Demo.libs (PStr "null")).
  vm_compute in Hclaim. discriminate Hclaim.
Qed.

(** C7, amended.  The conversion applies the rules in order, the first
    applicable one winning: a mapping or list is used as it is; otherwise
    a text that parses as JSON to a value other than [None] gives that
    value; otherwise a text that does not parse as JSON and parses as XML
    (to a value other than [None]) gives that value; otherwise, also for a
    text that parses to [None], the raw value is passed through. *)
Theorem normalize_rules {L : Libs} (result : pyval) :
  (is_dict_or_list result = true -> normalize result = result)
  /\ (forall text v,
        result = PStr text -> json_loads text = Some v -> v <> PNone ->
        normalize result = v)
  /\ (forall text v,
        result = PStr text -> json_loads text = None ->
        xmltodict_parse text = Some v -> v <> PNone ->
        normalize result = v)
  /\ (forall text,
        result = PStr text ->
        json_loads text = Some PNone
        \/ (json_loads text = None
            /\ (xmltodict_parse text = None
                \/ xmltodict_parse text = Some PNone)) ->
        normalize result = result)
  /\ (is_dict_or_list result = false -> (forall text, result <> PStr text) ->
      normalize result = result).
Proof.
  unfold normalize. repeat split.
  - intros ->. destruct result; try discriminate; reflexivity.
  - intros text v -> Hj Hv. cbn [is_dict_or_list]. rewrite Hj.
    destruct v; congruence.
  - intros text v -> Hj Hx Hv. cbn [is_dict_or_list]. rewrite Hj, Hx.
    destruct v; congruence.
  - intros text -> [Hj | [Hj [Hx | Hx]]]; cbn [is_dict_or_list];
      rewrite Hj; try rewrite Hx; reflexivity.
  - intros Hs Hn. rewrite Hs.
    destruct result; try reflexivity. destruct (Hn s eq_refl).
Qed.

(** Where no parser answers [None] the code and the rules agree. *)
Corollary normalize_follows_rules_without_null {L : Libs} (result : pyval) :
  (forall text, json_loads text <> Some PNone) ->
  (forall text, xmltodict_parse text <> Some PNone) ->
  normalize result = coerce_by_rules result.
Proof.
  intros Hj Hx. unfold normalize, coerce_by_rules.
  destruct (is_dict_or_list result) eqn:Hs.
  - destruct result; try discriminate; reflexivity.
  - destruct result; try reflexivity.
    destruct (json_loads s) as [v |] eqn:Ej.
    + destruct v; try reflexivity. destruct (Hj _ Ej).
    + destruct (xmltodict_parse s) as [v |] eqn:Ex; [| reflexivity].
      destruct v; try reflexivity. destruct (Hx _ Ex).
Qed.

Lemma normalize_rules_witness :
  @normalize Demo.libs (PStr ("{" +:+ q "a" +:+ ": 1}")) = PDict [("a", PInt 1)]
  /\ @normalize Demo.libs (PStr "<a>1</a>") = PDict [("a", PStr "1")]
  /\ @normalize Demo.libs (PStr "null") = PStr "null".
Proof.
  destruct (@normalize_rules Demo.libs (PStr ("{" +:+ q "a" +:+ ": 1}")))
    as (_ & Hjson & _).
  destruct (@normalize_rules Demo.libs (PStr "<a>1</a>")) as (_ & _ & Hxml & _).
  destruct (@normalize_rules Demo.libs (PStr "null"))
    as (_ & _ & _ & Hnull & _).
  split; [| split].
  - apply (Hjson _ _ eq_refl eq_refl). discriminate.
  - apply (Hxml _ _ eq_refl eq_refl eq_refl). discriminate.
  - apply (Hnull _ eq_refl). left. reflexivity.
Defined.

(** ** The API key *)

(** C8, counterexample: with HTTP authentication configured, the call
    with empty credentials sets [self.msg] and raises at [return
    self.data]; no key is returned. *)
Lemma get_apikey_counterexample : ~ get_apikey_twice_returns_key.
Proof.
  intros Hclaim.
  destruct (Hclaim Demo.libs (@fresh Demo.libs protected_globals) eq_refl)
    as [H1 _].
  vm_compute in H1. discriminate H1.
Qed.

Section ApiKey.
Context {L : Libs}.

(** One call with a key stored and HTTP authentication not configured:
    the key is returned and kept in [self.data]; only the random draw
    changes the module state. *)
Lemma get_apikey_stored (s : Store) :
  API_KEY (CONFIG (plexpy s)) <> "" ->
  HTTP_USERNAME (CONFIG (plexpy s)) = ""
  \/ HTTP_PASSWORD (CONFIG (plexpy s)) = "" ->
  get_apikey_with (PStr "") (PStr "") s =
  (Return (PStr (API_KEY (CONFIG (plexpy s)))),
   {| self := with_data (PStr (API_KEY (CONFIG (plexpy s)))) (self s);
      plexpy := drawn (plexpy s) |}).
Proof.
  intros Hkey Hauth. destruct s as [a g]. cbn [plexpy self] in *.
  unfold get_apikey_with, bind, get_plexpy, put_plexpy.
  cbn [plexpy self fst snd].
  assert (Hoff : truthy (PStr (HTTP_USERNAME (CONFIG g)))
                 && truthy (PStr (HTTP_PASSWORD (CONFIG g))) = false).
  { destruct Hauth as [-> | ->]; [reflexivity | apply andb_false_r]. }
  rewrite Hoff.
  unfold stored_or_new, bind, get_plexpy.
  cbn [plexpy self fst snd drawn CONFIG].
  assert (Hon : truthy (PStr (API_KEY (CONFIG g))) = true).
  { cbn [truthy]. destruct (String.eqb_spec (API_KEY (CONFIG g)) "");
      [contradiction | reflexivity]. }
  rewrite Hon. reflexivity.
Qed.

End ApiKey.

(** C8, amended.  With a 32-character key stored and HTTP authentication
    not configured (user name or password empty), two calls of
    [get_apikey] with empty username and password both return the stored
    key, and neither call writes the configuration. *)
Theorem get_apikey_twice {L : Libs} (s : Store) :
  String.length (API_KEY (CONFIG (plexpy s))) = 32 ->
  HTTP_USERNAME (CONFIG (plexpy s)) = ""
  \/ HTTP_PASSWORD (CONFIG (plexpy s)) = "" ->
  let r1 := get_apikey_with (PStr "") (PStr "") s in
  let r2 := get_apikey_with (PStr "") (PStr "") (snd r1) in
  fst r1 = Return (PStr (API_KEY (CONFIG (plexpy s))))
  /\ fst r2 = Return (PStr (API_KEY (CONFIG (plexpy s))))
  /\ config_writes (plexpy (snd r2)) = config_writes (plexpy s)
  /\ config_writes (plexpy (snd r1)) = config_writes (plexpy s)
  /\ CONFIG (plexpy (snd r2)) = CONFIG (plexpy s).
Proof.
  intros Hlen Hauth r1 r2.
  assert (Hkey : API_KEY (CONFIG (plexpy s)) <> "")
    by (intros E; rewrite E in Hlen; discriminate Hlen).
  subst r2 r1. rewrite (get_apikey_stored s Hkey Hauth). cbn [fst snd].
  rewrite get_apikey_stored; cbn [plexpy drawn CONFIG]; auto.
Qed.

Lemma get_apikey_twice_witness :
  let s := @fresh Demo.libs (Demo.globals Demo.config) in
  let r1 := @get_apikey_with Demo.libs (PStr "") (PStr "") s in
  let r2 := @get_apikey_with Demo.libs (PStr "") (PStr "") (snd r1) in
  fst r1 = Return (PStr Demo.key)
  /\ fst r2 = Return (PStr Demo.key)
  /\ config_writes (plexpy (snd r2)) = 0
  /\ config_writes (plexpy (snd r1)) = 0
  /\ CONFIG (plexpy (snd r2)) = Demo.config.
Proof.
  apply (@get_apikey_twice Demo.libs
           (@fresh Demo.libs (Demo.globals Demo.config)));
    [reflexivity | left; reflexivity].
Defined.

(** ** Worked requests *)

(** The [restart] request as it goes over the wire with the sample
    libraries. *)
Example restart_on_the_wire :
  fst (@_api_run Demo.libs
         (bag [("apikey", PStr Demo.key); ("cmd", PStr "restart")])
         (@fresh Demo.libs (Demo.globals Demo.config)))
  = Return (PStr ("{" +:+ q "response" +:+ ": {"
                  +:+ q "result" +:+ ": " +:+ q "error" +:+ ", "
                  +:+ q "message" +:+ ": null, "
                  +:+ q "data" +:+ ": {}}}")).
Proof. vm_compute. reflexivity. Qed.

(** A handler that returns data is classified [success] whatever it wrote
    to [self.result_type]: [backup_db] with a failed backup returns
    [False], and the envelope says [error] because the value is false, not
    because the handler said [failed]. *)
Example backup_db_failed :
  let r := @_api_run_envelope Demo.libs
             (bag [("apikey", PStr Demo.key); ("cmd", PStr "backup_db")])
             (@fresh Demo.libs (Demo.globals Demo.config)) in
  fst r = Return (PDict [("response", response_of "error" (PBool false) None)])
  /\ result_type (self (snd r)) = Some (PStr "failed").
Proof. vm_compute. split; reflexivity. Qed.

(** With HTTP authentication configured and no module attribute
    [plexpy.HTTP_USERNAME], [get_apikey] raises before it compares. *)
Example get_apikey_without_module_attribute :
  fst (@get_apikey_with Demo.libs (PStr "admin") (PStr "secret")
         {| self := @__init__ Demo.libs;
            plexpy := {| CONFIG := CONFIG protected_globals; SIGNAL := None;
                         MODULE_HTTP_USERNAME := None; config_writes := 0;
                         draws := 0; content_type := None |} |})
  = Raise (AttributeError "HTTP_USERNAME").
Proof. reflexivity. Qed.

(** The first call of a public [get_apikey] request on a process without
    a key makes one, stores it and writes the configuration once. *)
Example get_apikey_first_use :
  let c := {| API_ENABLED := true; API_KEY := ""; API_SQL := false;
              HTTP_USERNAME := ""; HTTP_PASSWORD := "" |} in
  let r := @_api_run_envelope Demo.libs (bag [("cmd", PStr "get_apikey")])
             (@fresh Demo.libs (Demo.globals c)) in
  fst r = Return (PDict [("response",
                          response_of "success" (PStr (Demo.key_of 0)) None)])
  /\ API_KEY (CONFIG (plexpy (snd r))) = Demo.key_of 0
  /\ config_writes (plexpy (snd r)) = 1.
Proof. vm_compute. repeat split. Qed.

(** XML with a serialiser that cannot represent the data: the second try
    is made on a mapping with three keys, fails for that reason, and the
    hand-built document carries the description of the second fault. *)
Example xml_falls_back_to_minimal_document :
  let a := @_api_validate Demo.strict_libs Demo.config
             (@__init__ Demo.strict_libs) (bag [("out_type", PStr "xml")]) in
  fst (@_api_out_as Demo.strict_libs
         (_api_responds "success" (PList [PObj "<read-write buffer>"]) None)
         {| self := a; plexpy := Demo.globals Demo.config |})
  = Return (PStr (minimal_xml "Document must have exactly one root.")).
Proof. vm_compute. reflexivity. Qed.

(** A callback that is not a string (a parameter given twice arrives as a
    list) makes the JSON branch raise out of its own handler. *)
Example callback_list_escapes :
  exists e,
    fst (@_api_run Demo.libs
           (bag [("callback", PList [PStr "a"; PStr "b"])])
           (@fresh Demo.libs (Demo.globals Demo.config)))
    = Raise e.
Proof. eexists. vm_compute. reflexivity. Qed.

(** * Further properties of the pipeline *)

(** ** What validation passes on and what it says *)

Lemma cleaned_reserved (kw : kwargs_t) (k : string) :
  k ∈ reserved -> cleaned kw !! k = None.
Proof.
  intros Hk. unfold cleaned, reserved in *. cbn [foldl].
  rewrite !lookup_delete.
  repeat (apply elem_of_cons in Hk as [-> | Hk]);
    [| | | | | | apply elem_of_nil in Hk; destruct Hk];
    repeat case_decide; congruence.
Qed.

Lemma cleaned_other (kw : kwargs_t) (k : string) :
  k ∉ reserved -> cleaned kw !! k = kw !! k.
Proof.
  intros Hk. unfold cleaned, reserved in *. cbn [foldl].
  rewrite !lookup_delete.
  repeat case_decide; try reflexivity; subst k; exfalso; apply Hk;
    repeat first [apply list_elem_of_here | apply list_elem_of_further].
Qed.

(** X1.  The parameters of an authenticated request, as the handler gets
    them, hold none of the reserved names and every other entry of the bag
    unchanged. *)
Theorem handler_parameters {L : Libs} (cfg : Config) (kw : kwargs_t) :
  _api_authenticated (_api_validate cfg __init__ kw) = true ->
  exists params,
    _api_kwargs (_api_validate cfg __init__ kw) = Some params
    /\ (forall k, k ∈ reserved -> params !! k = None)
    /\ (forall k, k ∉ reserved -> params !! k = kw !! k).
Proof.
  rewrite validate_init. cbn [_api_authenticated _api_kwargs]. intros ->.
  exists (cleaned kw). split; [reflexivity |].
  split; intros k Hk; [apply cleaned_reserved | apply cleaned_other]; exact Hk.
Qed.

Lemma handler_parameters_witness :
  exists params,
    _api_kwargs (@_api_validate Demo.libs Demo.config (@__init__ Demo.libs)
                   (bag [("apikey", PStr Demo.key); ("cmd", PStr "get_logs");
                         ("debug", PStr "1"); ("search", PStr "error")]))
    = Some params
    /\ (forall k, k ∈ reserved -> params !! k = None)
    /\ (forall k, k ∉ reserved ->
          params !! k
          = bag [("apikey", PStr Demo.key); ("cmd", PStr "get_logs");
                 ("debug", PStr "1"); ("search", PStr "error")] !! k).
Proof.
  apply (@handler_parameters Demo.libs Demo.config
           (bag [("apikey", PStr Demo.key); ("cmd", PStr "get_logs");
                 ("debug", PStr "1"); ("search", PStr "error")])).
  reflexivity.
Defined.

(** X2.  With the API disabled every request is rejected, whatever key
    and command it carries, with the message [API not enabled], and no
    cleaned parameters are produced. *)
Theorem disabled_api_rejects {L : Libs} (cfg : Config) (kw : kwargs_t) :
  API_ENABLED cfg = false ->
  _api_authenticated (_api_validate cfg __init__ kw) = false
  /\ _api_msg (_api_validate cfg __init__ kw) = Some "API not enabled"
  /\ _api_kwargs (_api_validate cfg __init__ kw) = None.
Proof.
  intros He. rewrite validate_init.
  cbn [_api_authenticated _api_msg _api_kwargs].
  assert (Hg : granted cfg kw = false)
    by (unfold granted; rewrite He, !andb_false_r; reflexivity).
  rewrite Hg. unfold validation_msg. rewrite He. repeat split.
Qed.

Lemma disabled_api_rejects_witness :
  let cfg := {| API_ENABLED := false; API_KEY := Demo.key; API_SQL := false;
                HTTP_USERNAME := ""; HTTP_PASSWORD := "" |} in
  let kw := bag [("apikey", PStr Demo.key); ("cmd", PStr "docs")] in
  _api_authenticated (@_api_validate Demo.libs cfg (@__init__ Demo.libs) kw)
  = false
  /\ _api_msg (@_api_validate Demo.libs cfg (@__init__ Demo.libs) kw)
     = Some "API not enabled"
  /\ _api_kwargs (@_api_validate Demo.libs cfg (@__init__ Demo.libs) kw) = None.
Proof.
  cbv zeta.
  apply (@disabled_api_rejects Demo.libs
           {| API_ENABLED := false; API_KEY := Demo.key; API_SQL := false;
              HTTP_USERNAME := ""; HTTP_PASSWORD := "" |}
           (bag [("apikey", PStr Demo.key); ("cmd", PStr "docs")])).
  reflexivity.
Defined.

Lemma py_eq_str_false (v : pyval) (s : string) :
  py_eq_str v s = false <-> v <> PStr s.
Proof.
  rewrite <- py_eq_str_true. destruct (py_eq_str v s); split; congruence.
Qed.

Lemma py_in_false (v : pyval) (names : list string) :
  py_in v names = false <-> forall n, v = PStr n -> n ∉ names.
Proof.
  destruct (py_in v names) eqn:E.
  - apply py_in_true in E as (n & -> & Hin). split; [discriminate |].
    intros Hn. destruct (Hn n eq_refl Hin).
  - split; [| reflexivity]. intros _ n -> Hin.
    assert (py_in (PStr n) names = true) by (apply py_in_true; eauto).
    congruence.
Qed.

Lemma public_in_registry (n : string) : n ∈ public_commands -> n ∈ registry.
Proof.
  unfold public_commands, registry. intros Hn.
  repeat (apply elem_of_cons in Hn as [-> | Hn]);
    [| | | apply elem_of_nil in Hn; destruct Hn];
    repeat first [apply list_elem_of_here | apply list_elem_of_further].
Qed.

Lemma key_of_length_32_truthy (k : string) :
  String.length k = 32 -> truthy (PStr k) = true.
Proof. destruct k; [discriminate | reflexivity]. Qed.

(** X3.  A request whose [apikey] is not the configured key, for a
    command that is not public, is rejected with [Invalid apikey] (the API
    being enabled and the key well formed), whether or not its command
    exists. *)
Theorem wrong_apikey_rejected {L : Libs} (cfg : Config) (kw : kwargs_t)
    (v : pyval) :
  API_ENABLED cfg = true ->
  String.length (API_KEY cfg) = 32 ->
  kw !! "apikey" = Some v ->
  v <> PStr (API_KEY cfg) ->
  py_in (kw_get "cmd" PNone kw) public_commands = false ->
  _api_authenticated (_api_validate cfg __init__ kw) = false
  /\ _api_msg (_api_validate cfg __init__ kw) = Some "Invalid apikey"
  /\ _api_kwargs (_api_validate cfg __init__ kw) = None.
Proof.
  intros He Hlen Hk Hv Hpub. rewrite validate_init.
  cbn [_api_authenticated _api_msg _api_kwargs].
  apply py_eq_str_false in Hv.
  assert (Hg : granted cfg kw = false).
  { unfold granted, kw_get at 1. rewrite Hk, Hv, Hpub. reflexivity. }
  rewrite Hg. repeat split.
  unfold validation_msg. rewrite He, (key_of_length_32_truthy _ Hlen), Hlen.
  cbn [negb Nat.eqb]. unfold has_key, kw_get at 1. rewrite Hk, Hv.
  reflexivity.
Qed.

Lemma wrong_apikey_rejected_witness :
  let kw := bag [("apikey", PStr "letmein"); ("cmd", PStr "nonsense")] in
  _api_authenticated (@_api_validate Demo.libs Demo.config (@__init__ Demo.libs) kw)
  = false
  /\ _api_msg (@_api_validate Demo.libs Demo.config (@__init__ Demo.libs) kw)
     = Some "Invalid apikey"
  /\ _api_kwargs (@_api_validate Demo.libs Demo.config (@__init__ Demo.libs) kw)
     = None.
Proof.
  cbv zeta.
  apply (@wrong_apikey_rejected Demo.libs Demo.config
           (bag [("apikey", PStr "letmein"); ("cmd", PStr "nonsense")])
           (PStr "letmein")); try reflexivity.
  discriminate.
Defined.

(** X4.  A request with the configured key is rejected when it names no
    command or a command that is not registered.  The message lists the
    names the object holds in [_api_valid_methods], which are the twelve
    registered commands in some order (the order of the keys of a mapping,
    which is left open), and for an unknown command it repeats the name
    given. *)
Theorem command_errors_list_registry {L : Libs} (cfg : Config)
    (kw : kwargs_t) :
  API_ENABLED cfg = true ->
  String.length (API_KEY cfg) = 32 ->
  kw !! "apikey" = Some (PStr (API_KEY cfg)) ->
  let listed := _api_valid_methods __init__ in
  listed ≡ₚ registry
  /\ (kw !! "cmd" = None ->
      _api_authenticated (_api_validate cfg __init__ kw) = false
      /\ _api_msg (_api_validate cfg __init__ kw)
         = Some ("Parameter cmd is required. Possible commands are: "
                 +:+ String.concat ", " listed))
  /\ (forall c,
        kw !! "cmd" = Some (PStr c) -> c ∉ registry ->
        _api_authenticated (_api_validate cfg __init__ kw) = false
        /\ _api_msg (_api_validate cfg __init__ kw)
           = Some ("Unknown command: " +:+ c
                   +:+ ". Possible commands are: "
                   +:+ String.concat ", " listed)).
Proof.
  intros He Hlen Hk listed. subst listed.
  change (_api_valid_methods __init__) with registry.
  split; [reflexivity |].
  rewrite validate_init.
  cbn [_api_authenticated _api_msg].
  assert (Hchain :
    validation_msg cfg registry None kw
    = if negb (has_key "cmd" kw)
      then Some ("Parameter cmd is required. Possible commands are: "
                 +:+ String.concat ", " registry)
      else if has_key "cmd" kw
              && negb (py_in (kw_get "cmd" PNone kw) registry)
           then Some ("Unknown command: "
                      +:+ py_str (kw_get "cmd" (PStr "") kw)
                      +:+ ". Possible commands are: "
                      +:+ String.concat ", " registry)
           else None).
  { assert (Hhas : has_key "apikey" kw = true)
      by (unfold has_key; rewrite Hk; reflexivity).
    assert (Heq : py_eq_str (kw_get "apikey" (PStr "") kw) (API_KEY cfg) = true)
      by (unfold kw_get; rewrite Hk; apply String.eqb_refl).
    unfold validation_msg.
    rewrite He, (key_of_length_32_truthy _ Hlen), Hlen, Hhas, Heq.
    reflexivity. }
  rewrite Hchain. split.
  - intros Hc.
    assert (Hg : granted cfg kw = false)
      by (unfold granted, kw_get; rewrite Hc; cbn [py_in existsb py_eq_str];
          rewrite andb_false_r; reflexivity).
    rewrite Hg. split; [reflexivity |].
    apply has_key_false in Hc. rewrite Hc. reflexivity.
  - intros c Hc Hnot.
    assert (Hreg : py_in (kw_get "cmd" PNone kw) registry = false).
    { apply py_in_false. unfold kw_get. rewrite Hc. intros n [= <-]. exact Hnot. }
    assert (Hpub : py_in (kw_get "cmd" PNone kw) public_commands = false).
    { apply py_in_false. unfold kw_get. rewrite Hc. intros n [= <-] Hin.
      apply Hnot, public_in_registry, Hin. }
    assert (Hg : granted cfg kw = false)
      by (unfold granted; rewrite Hreg, Hpub, andb_false_r; reflexivity).
    rewrite Hg, Hreg. split; [reflexivity |].
    unfold has_key, kw_get. rewrite Hc. reflexivity.
Qed.

Lemma command_errors_list_registry_witness :
  let kw := bag [("apikey", PStr Demo.key); ("cmd", PStr "foobar")] in
  let listed := _api_valid_methods (@__init__ Demo.libs) in
  listed ≡ₚ registry
  /\ _api_authenticated
       (@_api_validate Demo.libs Demo.config (@__init__ Demo.libs) kw)
     = false
  /\ _api_msg (@_api_validate Demo.libs Demo.config (@__init__ Demo.libs) kw)
     = Some ("Unknown command: foobar. Possible commands are: "
             +:+ String.concat ", " listed).
Proof.
  cbv zeta.
  destruct (@command_errors_list_registry Demo.libs Demo.config
              (bag [("apikey", PStr Demo.key); ("cmd", PStr "foobar")])
              eq_refl eq_refl eq_refl) as (Hperm & _ & Hunknown).
  split; [exact Hperm |].
  apply (Hunknown "foobar" eq_refl).
  unfold registry. intros Hin.
  repeat (apply elem_of_cons in Hin as [Hin | Hin]; [discriminate Hin |]).
  apply elem_of_nil in Hin. exact Hin.
Defined.

(** ** Calling the handler *)

Section Dispatch.
Context {L : Libs}.

Lemma granted_cmd (cfg : Config) (kw : kwargs_t) :
  granted cfg kw = true ->
  exists n, kw_get "cmd" PNone kw = PStr n /\ n ∈ registry.
Proof.
  unfold granted. rewrite orb_true_iff, !andb_true_iff, !py_in_true.
  intros [[_ (n & Hn & Hin)] | [(n & Hn & Hin) _]]; exists n; split; auto.
  apply public_in_registry, Hin.
Qed.

Lemma registry_cases (P : string -> Prop) :
  P "backup_config" -> P "backup_db" -> P "docs" -> P "docs_md" ->
  P "get_apikey" -> P "get_logs" -> P "get_settings" ->
  P "refresh_libraries_list" -> P "refresh_users_list" -> P "restart" ->
  P "sql" -> P "update" ->
  forall n, n ∈ registry -> P n.
Proof.
  intros ? ? ? ? ? ? ? ? ? ? ? ? n Hn. unfold registry in Hn.
  repeat (apply elem_of_cons in Hn as [-> | Hn]); try assumption.
  apply elem_of_nil in Hn. destruct Hn.
Qed.

(** Every registered name resolves to a method and is a true value. *)
Lemma getattr_registry (n : string) :
  n ∈ registry ->
  truthy (PStr n) = true /\ exists h, getattr (PStr n) = ret h.
Proof.
  revert n. apply registry_cases; (split; [reflexivity | eexists; reflexivity]).
Qed.

Lemma dispatch_resolved (a : API2) (s : Store) (n : string)
    (h : kwargs_t -> M pyval) :
  _api_cmd a = PStr n -> truthy (PStr n) = true ->
  _api_authenticated a = true -> getattr (PStr n) = ret h ->
  dispatch a s =
  if truthy (_api_profileme a) && negb profilehooks_present
  then (Raise (ImportError "No module named profilehooks"), s)
  else if truthy (_api_debug a) then invoke a h s
       else try_except (invoke a h) (fun _ => ret (PDict [])) s.
Proof.
  intros Hc Ht Ha Hh. unfold dispatch, invoke. rewrite Hc, Ht, Ha, Hh.
  cbn [andb]. unfold bind at 1, ret at 1.
  destruct (truthy (_api_profileme a) && negb profilehooks_present);
    [reflexivity |].
  cbn. destruct (truthy (_api_debug a)); reflexivity.
Qed.

(** Out of debug mode, and unless the profiler is asked for and missing,
    the handler stage always ends with a value. *)
Lemma dispatch_contained (cfg : Config) (kw : kwargs_t) (s : Store) :
  truthy (kw_get "debug" (PBool false) kw) = false ->
  truthy (kw_get "profileme" PNone kw) && negb profilehooks_present = false ->
  exists r s', dispatch (_api_validate cfg __init__ kw) s = (Return r, s').
Proof.
  intros Hd Hp. rewrite validate_init.
  destruct (granted cfg kw) eqn:Hg.
  - destruct (granted_cmd _ _ Hg) as (n & Hn & Hin).
    destruct (getattr_registry n Hin) as (Ht & h & Hh).
    erewrite (dispatch_resolved _ s n h); cbn [_api_cmd _api_authenticated];
      try eassumption; try reflexivity.
    cbn [_api_profileme _api_debug]. rewrite Hp, Hd.
    unfold try_except. destruct (invoke _ h s) as [[r | e] s'];
      do 2 eexists; reflexivity.
  - rewrite dispatch_rejected by reflexivity. do 2 eexists; reflexivity.
Qed.

(** Every envelope [_api_run] builds comes from [_api_responds]. *)
Lemma run_envelope_form (g : Globals) (kw : kwargs_t) (env : pyval) :
  fst (_api_run_envelope kw (fresh g)) = Return env ->
  exists t d m, env = _api_responds t d m.
Proof.
  rewrite run_envelope_eq. cbv zeta.
  destruct (dispatch _ _) as [[r | e] s1]; cbn [fst]; [| discriminate].
  intros [= <-]. do 3 eexists; reflexivity.
Qed.

(** On an envelope the formatter raises only through the callback. *)
Lemma out_as_total (a : API2) (g : Globals) (t : string) (d : pyval)
    (m : option string) :
  _api_callback a = PNone \/ (exists cb, _api_callback a = PStr cb) ->
  exists v s',
    _api_out_as (_api_responds t d m) {| self := a; plexpy := g |}
    = (Return v, s').
Proof.
  intros Hcb.
  destruct (bypass (_api_cmd a)) eqn:Hb.
  - unfold _api_out_as, bind, get_self, bypass in *. cbn [self fst snd].
    destruct (py_eq_str (_api_cmd a) "docs_md"); [do 2 eexists; reflexivity |].
    destruct (py_eq_str (_api_cmd a) "download_log");
      [do 2 eexists; reflexivity |].
    destruct (py_eq_str (_api_cmd a) "pms_image_proxy");
      [do 2 eexists; reflexivity | discriminate Hb].
  - rewrite (out_as_rendered a g _ Hb).
    destruct (py_eq_str (_api_out_type a) "json").
    + unfold _api_responds.
      destruct (json_dumps (truthy (_api_debug a))
                  (PDict [("response",
                           PDict [("result", PStr t); ("message", opt_str m);
                                  ("data", match d with
                                           | PNone => PDict []
                                           | _ => d
                                           end)])])) as [s | e] eqn:Hs.
      * destruct Hcb as [Hcb | [cb Hcb]].
        -- rewrite (out_as_json_plain a g _ s Hs Hcb). do 2 eexists; reflexivity.
        -- rewrite (out_as_json_callback a g _ s cb Hs Hcb).
           do 2 eexists; reflexivity.
      * rewrite (out_as_json_fault a g _ e Hs). do 2 eexists; reflexivity.
    + destruct (py_eq_str (_api_out_type a) "xml").
      * destruct (out_as_xml_total {| self := a; plexpy := g |}
                    (_api_responds t d m)) as [x ->].
        do 2 eexists; reflexivity.
      * do 2 eexists; reflexivity.
Qed.

End Dispatch.

(** X5.  Within what the model shows of a fault (an instance of
    [Exception], logged without failure, and parsers that fail only in
    the ways the conversion catches): out of debug mode, without a missing
    profiler and with a callback that is absent or a string, [_api_run]
    ends with a value.  A fault of the handler is caught by the clause
    around the call, a fault of a serialiser by the clauses of the
    formatter, and a text neither parser reads is kept as it is. *)
Theorem run_never_raises {L : Libs} (g : Globals) (kw : kwargs_t) :
  truthy (kw_get "debug" (PBool false) kw) = false ->
  truthy (kw_get "profileme" PNone kw) && negb profilehooks_present = false ->
  kw !! "callback" = None \/ (exists cb, kw !! "callback" = Some (PStr cb)) ->
  exists v, fst (_api_run kw (fresh g)) = Return v.
Proof.
  intros Hd Hp Hcb. unfold _api_run, bind.
  pose proof (run_envelope_attributes g kw) as Hattr. cbv zeta in Hattr.
  pose proof (run_envelope_form g kw) as Hform.
  assert (Hret : exists env s1, _api_run_envelope kw (fresh g) = (Return env, s1)).
  { rewrite run_envelope_eq. cbv zeta.
    destruct (dispatch_contained (CONFIG g) kw
                {| self := _api_validate (CONFIG g) __init__ kw; plexpy := g |}
                Hd Hp) as (r & s' & ->).
    do 2 eexists; reflexivity. }
  destruct Hret as (env & [a g1] & Hrun). rewrite Hrun in *.
  cbn [fst snd self] in *.
  destruct (Hform env eq_refl) as (t & d & m & ->).
  destruct Hattr as (_ & _ & _ & Hcall).
  destruct (out_as_total a g1 t d m) as (v & s' & ->).
  - rewrite Hcall. unfold kw_get.
    destruct Hcb as [-> | [cb ->]]; [left | right; exists cb]; reflexivity.
  - exists v. reflexivity.
Qed.

Lemma run_never_raises_witness :
  exists v,
    fst (@_api_run Demo.libs
           (bag [("apikey", PStr Demo.key); ("cmd", PStr "sql");
                 ("query", PStr "select 1"); ("callback", PStr "cb")])
           (@fresh Demo.libs
              (Demo.globals
                 {| API_ENABLED := true; API_KEY := Demo.key; API_SQL := true;
                    HTTP_USERNAME := ""; HTTP_PASSWORD := "" |})))
    = Return v.
Proof.
  apply (@run_never_raises Demo.libs); [reflexivity | reflexivity |].
  right. exists "cb". reflexivity.
Defined.

Section Faults.
Context {L : Libs}.

(** An authenticated request whose handler is [h]: what the handler stage
    and the envelope are, in and out of debug mode. *)
Lemma dispatch_authenticated (g : Globals) (kw : kwargs_t) (n : string)
    (h : kwargs_t -> M pyval) :
  let a := _api_validate (CONFIG g) __init__ kw in
  _api_authenticated a = true ->
  kw !! "cmd" = Some (PStr n) ->
  getattr (PStr n) = ret h ->
  dispatch a {| self := a; plexpy := g |} =
  if truthy (kw_get "profileme" PNone kw) && negb profilehooks_present
  then (Raise (ImportError "No module named profilehooks"),
        {| self := a; plexpy := g |})
  else if truthy (kw_get "debug" (PBool false) kw)
       then h (cleaned kw) {| self := a; plexpy := g |}
       else try_except (h (cleaned kw)) (fun _ => ret (PDict []))
              {| self := a; plexpy := g |}.
Proof.
  cbv zeta. intros Ha Hc Hh.
  assert (Hg : granted (CONFIG g) kw = true)
    by (rewrite validate_init in Ha; exact Ha).
  destruct (granted_cmd _ _ Hg) as (n' & Hn' & Hin).
  assert (n' = n) as -> by (unfold kw_get in Hn'; rewrite Hc in Hn'; congruence).
  destruct (getattr_registry n Hin) as (Ht & _).
  rewrite (dispatch_resolved _ _ n h); try assumption.
  - rewrite validate_init, Hg. reflexivity.
  - rewrite validate_init. exact Hn'.
Qed.



End Faults.





(** X8.  When profiling is asked for and [profilehooks] cannot be
    imported, an authenticated request raises [ImportError] out of
    [_api_run], in debug mode or not, before the handler is called. *)
Theorem missing_profiler_raises {L : Libs} (g : Globals) (kw : kwargs_t) :
  _api_authenticated (_api_validate (CONFIG g) __init__ kw) = true ->
  truthy (kw_get "profileme" PNone kw) = true ->
  profilehooks_present = false ->
  _api_run kw (fresh g)
  = (Raise (ImportError "No module named profilehooks"),
     {| self := _api_validate (CONFIG g) __init__ kw; plexpy := g |}).
Proof.
  intros Ha Hp Hmiss.
  assert (Hg : granted (CONFIG g) kw = true)
    by (rewrite validate_init in Ha; exact Ha).
  destruct (granted_cmd _ _ Hg) as (n & Hn & Hin).
  destruct (getattr_registry n Hin) as (_ & h & Hh).
  assert (Hc : kw !! "cmd" = Some (PStr n))
    by (apply (kw_get_PStr "cmd" PNone); [discriminate | exact Hn]).
  unfold _api_run, bind. rewrite run_envelope_eq. cbv zeta.
  rewrite (dispatch_authenticated g kw n h Ha Hc Hh), Hp, Hmiss.
  reflexivity.
Qed.

Lemma missing_profiler_raises_witness :
  fst (@_api_run Demo.libs
         (bag [("apikey", PStr Demo.key); ("cmd", PStr "restart");
               ("profileme", PStr "1")])
         (@fresh Demo.libs (Demo.globals Demo.config)))
  = Raise (ImportError "No module named profilehooks").
Proof.
  exact (f_equal fst
           (@missing_profiler_raises Demo.libs (Demo.globals Demo.config)
              (bag [("apikey", PStr Demo.key); ("cmd", PStr "restart");
                    ("profileme", PStr "1")])
              eq_refl eq_refl eq_refl)).
Defined.

(** X9.  Every envelope built for a new request is classified by its data
    alone: [success] when the data is a true value, [error] otherwise.
    No envelope carries [failed], and what a handler wrote to
    [self.result_type] or [self.msg] is never used. *)
Theorem envelope_classified_by_data {L : Libs} (g : Globals) (kw : kwargs_t)
    (env : pyval) :
  fst (_api_run_envelope kw (fresh g)) = Return env ->
  exists d,
    env = PDict [("response",
                  PDict [("result",
                          PStr (if truthy d then "success" else "error"));
                         ("message",
                          opt_str (_api_msg
                                     (_api_validate (CONFIG g) __init__ kw)));
                         ("data", d)])].
Proof.
  intros Henv.
  pose proof (run_envelope_classification g kw) as Hcl. cbv zeta in Hcl.
  destruct (dispatch _ _) as [[r | e] s1]; rewrite Henv in Hcl;
    [| discriminate Hcl].
  injection Hcl as ->.
  exists (match normalize r with PNone => PDict [] | v => v end).
  destruct (normalize r); reflexivity.
Qed.

Lemma envelope_classified_by_data_witness :
  exists d,
    PDict [("response", response_of "error" (PBool false) None)]
    = PDict [("response",
              PDict [("result", PStr (if truthy d then "success" else "error"));
                     ("message",
                      opt_str (_api_msg
                                 (@_api_validate Demo.libs Demo.config
                                    (@__init__ Demo.libs)
                                    (bag [("apikey", PStr Demo.key);
                                          ("cmd", PStr "backup_db")]))));
                     ("data", d)])].
Proof.
  apply (@envelope_classified_by_data Demo.libs (Demo.globals Demo.config)
           (bag [("apikey", PStr Demo.key); ("cmd", PStr "backup_db")])).
  reflexivity.
Defined.

(** ** What the formatter and a rejected request leave alone *)

Section Preservation.
Context {L : Libs} {T : Type} (f : Store -> T).

Lemma preserves_ret {A} (a : A) : preserves f (ret a).
Proof. intros s. reflexivity. Qed.

Lemma preserves_raise {A} (e : exn) : preserves f (raise (A := A) e).
Proof. intros s. reflexivity. Qed.

Lemma preserves_lift {A} (o : outcome A) : preserves f (lift o).
Proof. intros s. reflexivity. Qed.

Lemma preserves_get_self : preserves f get_self.
Proof. intros s. reflexivity. Qed.

Lemma preserves_bind {A B} (m : M A) (k : A -> M B) :
  preserves f m -> (forall x, preserves f (k x)) -> preserves f (bind m k).
Proof.
  intros Hm Hk s. unfold bind. specialize (Hm s).
  destruct (m s) as [[a | e] s']; cbn [snd] in *.
  - rewrite Hk. exact Hm.
  - exact Hm.
Qed.

Lemma preserves_try_except {A} (m : M A) (h : exn -> M A) :
  preserves f m -> (forall e, preserves f (h e)) ->
  preserves f (try_except m h).
Proof.
  intros Hm Hh s. unfold try_except. specialize (Hm s).
  destruct (m s) as [[a | e] s']; cbn [snd] in *.
  - exact Hm.
  - rewrite Hh. exact Hm.
Qed.

End Preservation.

Section FormatterEffects.
Context {L : Libs}.

Lemma preserves_set_content_type (t : string) :
  preserves beyond_header (set_content_type t).
Proof. intros s. reflexivity. Qed.

Ltac formatter_keeps :=
  repeat first
    [ apply preserves_ret | apply preserves_raise | apply preserves_lift
    | apply preserves_get_self | apply preserves_set_content_type
    | apply preserves_bind; [| intros ?]
    | apply preserves_try_except; [| intros ?]
    | match goal with
      | |- preserves _ (if ?b then _ else _) => destruct b
      | |- preserves _ (match ?x with _ => _ end) => destruct x
      end ].

(** [_api_out_as] writes nothing but the [Content-Type] header. *)
Lemma out_as_effects (out : pyval) : preserves beyond_header (_api_out_as out).
Proof.
  unfold _api_out_as. apply preserves_bind; [apply preserves_get_self |].
  intros a. unfold out_as_json, out_as_xml, fake_error. formatter_keeps.
Qed.

End FormatterEffects.

(** X10.  A rejected request changes nothing that outlives it: after
    [_api_run] the configuration, the signal, the count of configuration
    writes and of random draws are as before, and the object has none of
    the attributes handlers create. *)
Theorem rejected_request_changes_nothing {L : Libs} (g : Globals)
    (kw : kwargs_t) :
  _api_authenticated (_api_validate (CONFIG g) __init__ kw) = false ->
  let s := snd (_api_run kw (fresh g)) in
  process_of (plexpy s) = process_of g
  /\ msg (self s) = None /\ result_type (self s) = None
  /\ data (self s) = None.
Proof.
  intros Ha s. subst s. unfold _api_run, bind.
  rewrite (rejected_run_envelope g kw Ha).
  assert (Hnew : msg (_api_validate (CONFIG g) __init__ kw) = None
                 /\ result_type (_api_validate (CONFIG g) __init__ kw) = None
                 /\ data (_api_validate (CONFIG g) __init__ kw) = None)
    by (rewrite validate_init; repeat split).
  generalize dependent (_api_validate (CONFIG g) __init__ kw). intros a _ Hnew.
  pose proof (out_as_effects (_api_responds "error" (PDict []) (_api_msg a))
                {| self := with_api_result_type "error" a; plexpy := g |})
    as Hkeep.
  unfold beyond_header in Hkeep. cbn [self plexpy] in Hkeep.
  apply pair_equal_spec in Hkeep as [Hself Hproc]. rewrite Hself, Hproc.
  split; [reflexivity | exact Hnew].
Qed.

Lemma rejected_request_changes_nothing_witness :
  let g := Demo.globals Demo.config in
  let s := snd (@_api_run Demo.libs
                  (bag [("apikey", PStr "guess"); ("cmd", PStr "restart")])
                  (@fresh Demo.libs g)) in
  process_of (plexpy s) = process_of g
  /\ msg (self s) = None /\ result_type (self s) = None
  /\ data (self s) = None.
Proof.
  apply (@rejected_request_changes_nothing Demo.libs
           (Demo.globals Demo.config)
           (bag [("apikey", PStr "guess"); ("cmd", PStr "restart")])).
  reflexivity.
Defined.

(** ** Formatter edges *)

(** X11.  With an [out_type] that is neither [json] nor [xml] (and a
    command that is rendered) [_api_run] returns the envelope mapping
    itself, unserialised, and the formatter writes no header. *)
Theorem unknown_out_type_returns_envelope {L : Libs} (g : Globals)
    (kw : kwargs_t) (env : pyval) :
  py_eq_str (kw_get "out_type" (PStr "json") kw) "json" = false ->
  py_eq_str (kw_get "out_type" (PStr "json") kw) "xml" = false ->
  bypass (kw_get "cmd" PNone kw) = false ->
  fst (_api_run_envelope kw (fresh g)) = Return env ->
  _api_run kw (fresh g) = (Return env, snd (_api_run_envelope kw (fresh g))).
Proof.
  intros Hj Hx Hb Henv. unfold _api_run, bind.
  pose proof (run_envelope_attributes g kw) as Hattr. cbv zeta in Hattr.
  destruct (_api_run_envelope kw (fresh g)) as [o [a g1]].
  cbn [fst snd self] in *. subst o.
  destruct Hattr as (Hc & Hot & _ & _).
  rewrite <- Hc in Hb. rewrite <- Hot in Hj, Hx.
  rewrite (out_as_rendered a g1 env Hb), Hj, Hx. reflexivity.
Qed.

Lemma unknown_out_type_returns_envelope_witness :
  fst (@_api_run Demo.libs
         (bag [("cmd", PStr "restart"); ("out_type", PStr "yaml")])
         (@fresh Demo.libs (Demo.globals Demo.config)))
  = Return (_api_responds "error" PNone (Some "Parameter apikey is required")).
Proof.
  exact (f_equal fst
           (@unknown_out_type_returns_envelope Demo.libs
              (Demo.globals Demo.config)
              (bag [("cmd", PStr "restart"); ("out_type", PStr "yaml")])
              (_api_responds "error" PNone (Some "Parameter apikey is required"))
              eq_refl eq_refl eq_refl eq_refl)).
Defined.

(** X12.  A callback that is neither absent nor a string makes the JSON
    branch raise out of [_api_run]: the concatenation fails after the
    envelope was serialised, and the handler of that fault then assigns an
    item on the serialised text.  The header already says script. *)
Theorem callback_not_a_string_raises {L : Libs} (g : Globals)
    (kw : kwargs_t) (v env : pyval) (body : string) :
  kw !! "callback" = Some v ->
  v <> PNone -> (forall s, v <> PStr s) ->
  kw_get "out_type" (PStr "json") kw = PStr "json" ->
  bypass (kw_get "cmd" PNone kw) = false ->
  fst (_api_run_envelope kw (fresh g)) = Return env ->
  json_dumps (truthy (kw_get "debug" (PBool false) kw)) env = Return body ->
  fst (_api_run kw (fresh g))
  = Raise (TypeError "object does not support item assignment")
  /\ content_type (plexpy (snd (_api_run kw (fresh g))))
     = Some "application/javascript".
Proof.
  intros Hcb Hnone Hstr Hot Hb Henv Hbody. unfold _api_run, bind.
  pose proof (run_envelope_attributes g kw) as Hattr. cbv zeta in Hattr.
  destruct (_api_run_envelope kw (fresh g)) as [o [a g1]].
  cbn [fst snd self] in *. subst o.
  destruct Hattr as (Hc & Hot' & Hd & Hcall).
  rewrite <- Hc in Hb. rewrite <- Hot' in Hot. rewrite <- Hd in Hbody.
  assert (Hcb' : _api_callback a = v)
    by (rewrite Hcall; unfold kw_get; rewrite Hcb; reflexivity).
  rewrite (out_as_rendered a g1 env Hb), Hot.
  change (py_eq_str (PStr "json") "json") with true. cbv iota.
  unfold out_as_json, bind, set_content_type, get_plexpy, put_plexpy.
  cbn [fst snd self plexpy]. rewrite Hbody, Hcb'.
  destruct v; try (split; reflexivity).
  - destruct (Hnone eq_refl).
  - destruct (Hstr s eq_refl).
Qed.

Lemma callback_not_a_string_raises_witness :
  fst (@_api_run Demo.libs
         (bag [("callback", PList [PStr "a"; PStr "b"])])
         (@fresh Demo.libs (Demo.globals Demo.config)))
  = Raise (TypeError "object does not support item assignment")
  /\ content_type
       (plexpy (snd (@_api_run Demo.libs
                       (bag [("callback", PList [PStr "a"; PStr "b"])])
                       (@fresh Demo.libs (Demo.globals Demo.config)))))
     = Some "application/javascript".
Proof.
  apply (@callback_not_a_string_raises Demo.libs (Demo.globals Demo.config)
           (bag [("callback", PList [PStr "a"; PStr "b"])])
           (PList [PStr "a"; PStr "b"])
           (_api_responds "error" PNone (Some "Parameter apikey is required"))
           (match Demo.dumps false 0
                    (_api_responds "error" PNone
                       (Some "Parameter apikey is required")) with
            | Return s => s
            | Raise _ => ""
            end)); try reflexivity; discriminate.
Defined.

(** X13.  A request that names [download_log] or [pms_image_proxy], which
    are no commands of this class, is never authenticated, and the
    formatter does not deliver its error envelope: the first gets [None],
    the second the empty data marked [image/jpeg]. *)
Theorem foreign_commands_get_no_envelope {L : Libs} (g : Globals)
    (kw : kwargs_t) :
  (kw !! "cmd" = Some (PStr "download_log") ->
   _api_authenticated (_api_validate (CONFIG g) __init__ kw) = false
   /\ fst (_api_run kw (fresh g)) = Return PNone)
  /\ (kw !! "cmd" = Some (PStr "pms_image_proxy") ->
      _api_authenticated (_api_validate (CONFIG g) __init__ kw) = false
      /\ fst (_api_run kw (fresh g)) = Return (PDict [])
      /\ content_type (plexpy (snd (_api_run kw (fresh g))))
         = Some "image/jpeg").
Proof.
  assert (Hrej : forall c,
            kw !! "cmd" = Some (PStr c) ->
            py_in (PStr c) registry = false ->
            _api_authenticated (_api_validate (CONFIG g) __init__ kw) = false).
  { intros c Hc Hreg. rewrite validate_init. cbn [_api_authenticated].
    unfold granted. unfold kw_get at 2 3. rewrite Hc, Hreg.
    assert (Hpub : py_in (PStr c) public_commands = false).
    { apply py_in_false. intros n [= <-] Hin.
      apply public_in_registry in Hin.
      assert (py_in (PStr c) registry = true) by (apply py_in_true; eauto).
      congruence. }
    rewrite Hpub, andb_false_r. reflexivity. }
  split; intros Hc.
  - pose proof (Hrej _ Hc eq_refl) as Ha. split; [exact Ha |].
    unfold _api_run, bind. rewrite (rejected_run_envelope g kw Ha).
    unfold _api_out_as, bind, get_self. cbn [self fst snd].
    cbn [with_api_result_type _api_cmd]. rewrite validate_init.
    cbn [_api_cmd]. unfold kw_get. rewrite Hc. reflexivity.
  - pose proof (Hrej _ Hc eq_refl) as Ha. split; [exact Ha |].
    unfold _api_run, bind. rewrite (rejected_run_envelope g kw Ha).
    unfold _api_out_as, bind, get_self. cbn [self fst snd].
    cbn [with_api_result_type _api_cmd]. rewrite validate_init.
    cbn [_api_cmd]. unfold kw_get. rewrite Hc. split; reflexivity.
Qed.

Lemma foreign_commands_get_no_envelope_witness :
  fst (@_api_run Demo.libs
         (bag [("apikey", PStr Demo.key); ("cmd", PStr "download_log")])
         (@fresh Demo.libs (Demo.globals Demo.config)))
  = Return PNone.
Proof.
  exact (proj2 (proj1 (@foreign_commands_get_no_envelope Demo.libs
                         (Demo.globals Demo.config)
                         (bag [("apikey", PStr Demo.key);
                               ("cmd", PStr "download_log")]))
                  eq_refl)).
Defined.

Section PublicCommands.
Context {L : Libs}.

Lemma accepts_empty (ps : list string) : accepts ps (∅ : kwargs_t) = true.
Proof. unfold accepts. rewrite map_to_list_empty. reflexivity. Qed.

Lemma make_md_truthy : truthy (PStr _api_make_md) = true.
Proof. reflexivity. Qed.

(** A public command on an enabled API is authenticated without a key. *)
Lemma public_granted (cfg : Config) (kw : kwargs_t) (c : string) :
  API_ENABLED cfg = true -> kw !! "cmd" = Some (PStr c) ->
  c ∈ public_commands -> granted cfg kw = true.
Proof.
  intros He Hc Hin. apply granted_iff. right. split; [| exact He].
  exists c. split; [exact Hc | exact Hin].
Qed.

End PublicCommands.

(** X14.  [docs_md] needs no key and is answered outside the envelope: on
    an enabled API, with no parameter of its own, [_api_run] returns the
    markdown page as it is (when neither parser reads it as JSON or XML),
    whatever [out_type], [callback] and [debug] say, and the formatter
    sets no header. *)
Theorem docs_md_returned_verbatim {L : Libs} (g : Globals) (kw : kwargs_t) :
  API_ENABLED (CONFIG g) = true ->
  kw !! "cmd" = Some (PStr "docs_md") ->
  cleaned kw = ∅ ->
  truthy (kw_get "profileme" PNone kw) && negb profilehooks_present = false ->
  json_loads _api_make_md = None ->
  xmltodict_parse _api_make_md = None ->
  fst (_api_run kw (fresh g)) = Return (PStr _api_make_md)
  /\ plexpy (snd (_api_run kw (fresh g))) = g.
Proof.
  intros He Hc Hclean Hp Hj Hx.
  assert (Hg : granted (CONFIG g) kw = true).
  { apply (public_granted _ _ "docs_md" He Hc).
    unfold public_commands.
    repeat first [apply list_elem_of_here | apply list_elem_of_further]. }
  assert (Ha : _api_authenticated (_api_validate (CONFIG g) __init__ kw) = true)
    by (rewrite validate_init; exact Hg).
  assert (Hcall : forall s, try_except (docs_md (cleaned kw))
                              (fun _ => ret (PDict [])) s
                            = (Return (PStr _api_make_md), s)
                            /\ docs_md (cleaned kw) s
                               = (Return (PStr _api_make_md), s)).
  { intros s. unfold try_except, docs_md, bind, bind_args.
    rewrite Hclean, accepts_empty. split; reflexivity. }
  assert (Hdisp : dispatch (_api_validate (CONFIG g) __init__ kw)
                    {| self := _api_validate (CONFIG g) __init__ kw;
                       plexpy := g |}
                  = (Return (PStr _api_make_md),
                     {| self := _api_validate (CONFIG g) __init__ kw;
                        plexpy := g |})).
  { rewrite (dispatch_authenticated g kw "docs_md" docs_md Ha Hc eq_refl), Hp.
    destruct (truthy (kw_get "debug" (PBool false) kw)); apply Hcall. }
  assert (Hnorm : normalize (PStr _api_make_md) = PStr _api_make_md).
  { unfold normalize. cbn [is_dict_or_list]. rewrite Hj, Hx. reflexivity. }
  unfold _api_run, bind. rewrite run_envelope_eq. cbv zeta. rewrite Hdisp.
  cbn [self plexpy]. rewrite Hnorm.
  unfold _api_out_as, bind, get_self. cbn [self fst snd].
  cbn [with_api_result_type _api_cmd].
  assert (Hcmd : kw_get "cmd" PNone kw = PStr "docs_md")
    by (unfold kw_get; rewrite Hc; reflexivity).
  rewrite validate_init. cbn [_api_cmd]. rewrite !Hcmd.
  split; reflexivity.
Qed.

Lemma docs_md_returned_verbatim_witness :
  fst (@_api_run Demo.libs
         (bag [("cmd", PStr "docs_md"); ("out_type", PStr "xml");
               ("callback", PStr "pong")])
         (@fresh Demo.libs (Demo.globals Demo.config)))
  = Return (PStr (@_api_make_md Demo.libs))
  /\ plexpy (snd (@_api_run Demo.libs
                    (bag [("cmd", PStr "docs_md"); ("out_type", PStr "xml");
                          ("callback", PStr "pong")])
                    (@fresh Demo.libs (Demo.globals Demo.config))))
     = Demo.globals Demo.config.
Proof.
  apply (@docs_md_returned_verbatim Demo.libs (Demo.globals Demo.config)
           (bag [("cmd", PStr "docs_md"); ("out_type", PStr "xml");
                 ("callback", PStr "pong")])); reflexivity.
Defined.

(** ** More on the API key *)

Section ApiKeyFacts.
Context {L : Libs}.

Lemma auth_off (c : Config) :
  HTTP_USERNAME c = "" \/ HTTP_PASSWORD c = "" ->
  truthy (PStr (HTTP_USERNAME c)) && truthy (PStr (HTTP_PASSWORD c)) = false.
Proof. intros [-> | ->]; [reflexivity | apply andb_false_r]. Qed.

Lemma auth_on (c : Config) :
  HTTP_USERNAME c <> "" -> HTTP_PASSWORD c <> "" ->
  truthy (PStr (HTTP_USERNAME c)) && truthy (PStr (HTTP_PASSWORD c)) = true.
Proof.
  intros Hu Hp. cbn [truthy].
  destruct (String.eqb_spec (HTTP_USERNAME c) ""); [contradiction |].
  destruct (String.eqb_spec (HTTP_PASSWORD c) ""); [contradiction |].
  reflexivity.
Qed.

(** Without HTTP authentication the credentials given are not looked at. *)
Lemma get_apikey_credentials_unused (u p : pyval) (s : Store) :
  HTTP_USERNAME (CONFIG (plexpy s)) = ""
  \/ HTTP_PASSWORD (CONFIG (plexpy s)) = "" ->
  get_apikey_with u p s = get_apikey_with (PStr "") (PStr "") s.
Proof.
  intros Hoff. unfold get_apikey_with, bind, get_plexpy, put_plexpy.
  cbn [fst snd plexpy]. rewrite (auth_off _ Hoff). reflexivity.
Qed.

(** The first call on a process without a key. *)
Lemma get_apikey_new (s : Store) :
  API_KEY (CONFIG (plexpy s)) = "" ->
  HTTP_USERNAME (CONFIG (plexpy s)) = ""
  \/ HTTP_PASSWORD (CONFIG (plexpy s)) = "" ->
  get_apikey_with (PStr "") (PStr "") s =
  (Return (PStr (random_key (draws (plexpy s)))),
   {| self := with_data (PStr (random_key (draws (plexpy s)))) (self s);
      plexpy := written (random_key (draws (plexpy s))) (drawn (plexpy s)) |}).
Proof.
  intros Hkey Hoff. destruct s as [a g]. cbn [plexpy self] in *.
  unfold get_apikey_with, bind, get_plexpy, put_plexpy.
  cbn [plexpy self fst snd]. rewrite (auth_off _ Hoff).
  unfold stored_or_new, bind, get_plexpy.
  cbn [plexpy self fst snd drawn CONFIG]. rewrite Hkey. reflexivity.
Qed.

End ApiKeyFacts.

(** X15.  On a process without a key and without HTTP authentication, the
    first [get_apikey] draws a key, stores it and writes the configuration
    once; the next call returns that same key and writes nothing.  The
    credentials given play no part. *)
Theorem get_apikey_generates_once {L : Libs} (s : Store) (u p u' p' : pyval) :
  API_KEY (CONFIG (plexpy s)) = "" ->
  HTTP_USERNAME (CONFIG (plexpy s)) = ""
  \/ HTTP_PASSWORD (CONFIG (plexpy s)) = "" ->
  random_key (draws (plexpy s)) <> "" ->
  let k := random_key (draws (plexpy s)) in
  let r1 := get_apikey_with u p s in
  let r2 := get_apikey_with u' p' (snd r1) in
  fst r1 = Return (PStr k)
  /\ API_KEY (CONFIG (plexpy (snd r1))) = k
  /\ config_writes (plexpy (snd r1)) = S (config_writes (plexpy s))
  /\ fst r2 = Return (PStr k)
  /\ API_KEY (CONFIG (plexpy (snd r2))) = k
  /\ config_writes (plexpy (snd r2)) = S (config_writes (plexpy s)).
Proof.
  intros Hkey Hoff Hrand k r1 r2. subst r2 r1 k.
  rewrite (get_apikey_credentials_unused u p s Hoff).
  rewrite (get_apikey_new s Hkey Hoff). cbn [fst snd].
  rewrite get_apikey_credentials_unused by exact Hoff.
  rewrite get_apikey_stored; cbn [plexpy written drawn CONFIG with_api_key
                                  API_KEY HTTP_USERNAME HTTP_PASSWORD
                                  config_writes];
    [repeat split | exact Hrand | exact Hoff].
Qed.

Lemma get_apikey_generates_once_witness :
  let c := {| API_ENABLED := true; API_KEY := ""; API_SQL := false;
              HTTP_USERNAME := ""; HTTP_PASSWORD := "" |} in
  let s := @fresh Demo.libs (Demo.globals c) in
  let r1 := @get_apikey_with Demo.libs (PStr "") (PStr "") s in
  let r2 := @get_apikey_with Demo.libs (PStr "any") (PStr "thing") (snd r1) in
  fst r1 = Return (PStr (Demo.key_of 0))
  /\ API_KEY (CONFIG (plexpy (snd r1))) = Demo.key_of 0
  /\ config_writes (plexpy (snd r1)) = 1
  /\ fst r2 = Return (PStr (Demo.key_of 0))
  /\ API_KEY (CONFIG (plexpy (snd r2))) = Demo.key_of 0
  /\ config_writes (plexpy (snd r2)) = 1.
Proof.
  apply (@get_apikey_generates_once Demo.libs
           (@fresh Demo.libs
              (Demo.globals
                 {| API_ENABLED := true; API_KEY := ""; API_SQL := false;
                    HTTP_USERNAME := ""; HTTP_PASSWORD := "" |}))
           (PStr "") (PStr "") (PStr "any") (PStr "thing"));
    [reflexivity | left; reflexivity | discriminate].
Defined.

(** X16.  With HTTP authentication configured, [get_apikey] on a new
    object returns a value exactly when the module attribute
    [plexpy.HTTP_USERNAME] exists, the user name given equals it and the
    password given equals the configured one.  In every other case it
    raises, and the configuration is neither changed nor written. *)
Theorem get_apikey_needs_credentials {L : Libs} (s : Store) (u p : pyval) :
  HTTP_USERNAME (CONFIG (plexpy s)) <> "" ->
  HTTP_PASSWORD (CONFIG (plexpy s)) <> "" ->
  data (self s) = None ->
  let r := get_apikey_with u p s in
  ((exists v, fst r = Return v) <->
   (exists name,
      MODULE_HTTP_USERNAME (plexpy s) = Some name
      /\ u = PStr name /\ p = PStr (HTTP_PASSWORD (CONFIG (plexpy s)))))
  /\ ((exists e, fst r = Raise e) ->
      CONFIG (plexpy (snd r)) = CONFIG (plexpy s)
      /\ config_writes (plexpy (snd r)) = config_writes (plexpy s)).
Proof.
  intros Hu Hp Hdata r. subst r. destruct s as [a g]. cbn [plexpy self] in *.
  unfold get_apikey_with, bind, get_plexpy, put_plexpy.
  cbn [plexpy self fst snd]. rewrite (auth_on _ Hu Hp).
  destruct (MODULE_HTTP_USERNAME g) as [name |] eqn:Hmod; cbn [raise fst snd].
  - destruct (py_eq_str u name) eqn:Hun; cbn [andb].
    + destruct (py_eq_str p (HTTP_PASSWORD (CONFIG g))) eqn:Hpw.
      * apply py_eq_str_true in Hun, Hpw. subst u p.
        unfold stored_or_new, bind, get_plexpy, set_data, store_api_key,
          put_plexpy, put_self, get_self.
        cbn [plexpy self fst snd drawn CONFIG].
        destruct (truthy (PStr (API_KEY (CONFIG g)))); cbn [fst snd self data with_data].
        -- split; [| intros [e He]; discriminate He].
           split; [intros _; exists name; auto | intros _; eexists; reflexivity].
        -- split; [| intros [e He]; discriminate He].
           split; [intros _; exists name; auto | intros _; eexists; reflexivity].
      * unfold set_msg, bind, get_self, put_self.
        cbn [plexpy self fst snd data with_msg]. rewrite Hdata.
        cbn [raise fst snd plexpy drawn CONFIG config_writes].
        split; [| intros _; split; reflexivity].
        split; [intros [v Hv]; discriminate Hv |].
        intros (name' & [= <-] & _ & ->).
        cbn [py_eq_str] in Hpw. rewrite String.eqb_refl in Hpw.
        discriminate Hpw.
    + unfold set_msg, bind, get_self, put_self.
      cbn [plexpy self fst snd data with_msg]. rewrite Hdata.
      cbn [raise fst snd plexpy drawn CONFIG config_writes].
      split; [| intros _; split; reflexivity].
      split; [intros [v Hv]; discriminate Hv |].
      intros (name' & [= <-] & -> & _).
      cbn [py_eq_str] in Hun. rewrite String.eqb_refl in Hun.
      discriminate Hun.
  - cbn [plexpy drawn CONFIG config_writes].
    split; [| intros _; split; reflexivity].
    split; [intros [v Hv]; discriminate Hv |].
    intros (name' & Hname & _). discriminate Hname.
Qed.

Lemma get_apikey_needs_credentials_witness :
  (exists v,
     fst (@get_apikey_with Demo.libs (PStr "admin") (PStr "secret")
            (@fresh Demo.libs protected_globals)) = Return v)
  <-> (exists name,
         MODULE_HTTP_USERNAME protected_globals = Some name
         /\ PStr "admin" = PStr name /\ PStr "secret" = PStr "secret").
Proof.
  exact (proj1 (@get_apikey_needs_credentials Demo.libs
                  (@fresh Demo.libs protected_globals)
                  (PStr "admin") (PStr "secret")
                  ltac:(discriminate) ltac:(discriminate) eq_refl)).
Defined.

(** X17.  [get_apikey] is a public command: on an enabled API without
    HTTP authentication, a request that carries no [apikey] at all is
    answered with the stored key as data of a [success] envelope (the key
    being no JSON or XML text). *)
Theorem get_apikey_open_without_key {L : Libs} (g : Globals) (kw : kwargs_t) :
  API_ENABLED (CONFIG g) = true ->
  kw !! "cmd" = Some (PStr "get_apikey") ->
  cleaned kw = ∅ ->
  HTTP_USERNAME (CONFIG g) = "" \/ HTTP_PASSWORD (CONFIG g) = "" ->
  API_KEY (CONFIG g) <> "" ->
  truthy (kw_get "profileme" PNone kw) && negb profilehooks_present = false ->
  json_loads (API_KEY (CONFIG g)) = None ->
  xmltodict_parse (API_KEY (CONFIG g)) = None ->
  fst (_api_run_envelope kw (fresh g))
  = Return (PDict [("response",
                    PDict [("result", PStr "success"); ("message", PNone);
                           ("data", PStr (API_KEY (CONFIG g)))])]).
Proof.
  intros He Hc Hclean Hoff Hkey Hp Hj Hx.
  assert (Hg : granted (CONFIG g) kw = true).
  { apply (public_granted _ _ "get_apikey" He Hc).
    unfold public_commands. apply list_elem_of_here. }
  assert (Ha : _api_authenticated (_api_validate (CONFIG g) __init__ kw) = true)
    by (rewrite validate_init; exact Hg).
  pose (s0 := {| self := _api_validate (CONFIG g) __init__ kw; plexpy := g |}).
  assert (Hcall : get_apikey (cleaned kw) s0
                  = (Return (PStr (API_KEY (CONFIG g))),
                     {| self := with_data (PStr (API_KEY (CONFIG g))) (self s0);
                        plexpy := drawn g |})).
  { unfold get_apikey, bind, bind_args. rewrite Hclean, accepts_empty.
    cbn [ret fst snd]. change (kw_get "username" (PStr "") ∅) with (PStr "").
    change (kw_get "password" (PStr "") ∅) with (PStr "").
    apply (get_apikey_stored s0 Hkey Hoff). }
  unfold s0 in Hcall. cbn [self] in Hcall. clear s0.
  pose proof (run_envelope_classification g kw) as Hcl. cbv zeta in Hcl.
  rewrite (dispatch_authenticated g kw "get_apikey" get_apikey Ha Hc eq_refl),
    Hp in Hcl.
  assert (Hmsg : _api_msg (_api_validate (CONFIG g) __init__ kw) = None)
    by (rewrite validate_init; cbn [_api_msg]; rewrite Hg; reflexivity).
  assert (Hnorm : normalize (PStr (API_KEY (CONFIG g)))
                  = PStr (API_KEY (CONFIG g))).
  { unfold normalize. cbn [is_dict_or_list]. rewrite Hj, Hx. reflexivity. }
  assert (Htrue : truthy (PStr (API_KEY (CONFIG g))) = true).
  { cbn [truthy]. destruct (String.eqb_spec (API_KEY (CONFIG g)) "");
      [contradiction | reflexivity]. }
  unfold try_except in Hcl. rewrite Hcall in Hcl.
  destruct (truthy (kw_get "debug" (PBool false) kw));
    rewrite Hcl, Hnorm, Htrue, Hmsg; reflexivity.
Qed.

Lemma get_apikey_open_without_key_witness :
  fst (@_api_run_envelope Demo.libs (bag [("cmd", PStr "get_apikey")])
         (@fresh Demo.libs (Demo.globals Demo.config)))
  = Return (PDict [("response",
                    PDict [("result", PStr "success"); ("message", PNone);
                           ("data", PStr Demo.key)])]).
Proof.
  apply (@get_apikey_open_without_key Demo.libs (Demo.globals Demo.config)
           (bag [("cmd", PStr "get_apikey")]));
    try reflexivity; [left; reflexivity | discriminate].
Defined.

(** ** Raw SQL *)

Lemma accepts_true {L : Libs} (ps : list string) (m : kwargs_t) :
  (forall k, is_Some (m !! k) -> k ∈ ps) -> accepts ps m = true.
Proof.
  intros Hall. unfold accepts. apply forallb_forall. intros [k v] Hin.
  apply list_elem_of_In, elem_of_map_to_list in Hin.
  cbn [fst]. apply existsb_exists. exists k. split.
  - apply list_elem_of_In, Hall. exists v. exact Hin.
  - apply String.eqb_refl.
Qed.

(** X18.  With [api_sql] off, an authenticated [sql] request is answered
    with the [error] envelope with data [{}], out of debug mode and in it:
    the query is not run, whatever it is, and nothing in the module state
    changes. *)
Theorem sql_disabled_does_nothing {L : Libs} (g : Globals) (kw : kwargs_t) :
  _api_authenticated (_api_validate (CONFIG g) __init__ kw) = true ->
  kw !! "cmd" = Some (PStr "sql") ->
  (forall k, k ∉ reserved -> is_Some (kw !! k) -> k = "query") ->
  API_SQL (CONFIG g) = false ->
  truthy (kw_get "profileme" PNone kw) && negb profilehooks_present = false ->
  fst (_api_run_envelope kw (fresh g))
  = Return (PDict [("response",
                    PDict [("result", PStr "error"); ("message", PNone);
                           ("data", PDict [])])])
  /\ plexpy (snd (_api_run_envelope kw (fresh g))) = g
  /\ data (self (snd (_api_run_envelope kw (fresh g)))) = None.
Proof.
  intros Ha Hc Honly Hoff Hp.
  assert (Hacc : accepts ["query"] (cleaned kw) = true).
  { apply accepts_true. intros k Hk.
    destruct (decide (k ∈ reserved)) as [Hr | Hr].
    - rewrite (cleaned_reserved kw k Hr) in Hk. destruct Hk as [? Hk].
      discriminate Hk.
    - rewrite (cleaned_other kw k Hr) in Hk. rewrite (Honly k Hr Hk).
      apply list_elem_of_here. }
  assert (Hcall : forall s,
            plexpy s = g ->
            sql (cleaned kw) s = (Return PNone, s)).
  { intros s Hs. unfold sql, bind, bind_args, get_plexpy. rewrite Hacc.
    cbn [ret fst snd]. rewrite Hs, Hoff. reflexivity. }
  rewrite run_envelope_eq. cbv zeta.
  rewrite (dispatch_authenticated g kw "sql" sql Ha Hc eq_refl), Hp.
  unfold try_except. rewrite Hcall by reflexivity.
  assert (Hg : granted (CONFIG g) kw = true)
    by (rewrite validate_init in Ha; exact Ha).
  destruct (truthy (kw_get "debug" (PBool false) kw));
    cbn [fst snd self plexpy]; rewrite validate_init;
    cbn [_api_result_type _api_msg with_api_result_type data];
    rewrite Hg; repeat split.
Qed.

Lemma sql_disabled_does_nothing_witness :
  let kw := bag [("apikey", PStr Demo.key); ("cmd", PStr "sql");
                 ("query", PStr "DROP TABLE session_history")] in
  let r := @_api_run_envelope Demo.libs kw
             (@fresh Demo.libs (Demo.globals Demo.config)) in
  fst r = Return (PDict [("response",
                          PDict [("result", PStr "error"); ("message", PNone);
                                 ("data", PDict [])])])
  /\ plexpy (snd r) = Demo.globals Demo.config
  /\ data (self (snd r)) = None.
Proof.
  apply (@sql_disabled_does_nothing Demo.libs (Demo.globals Demo.config)
           (bag [("apikey", PStr Demo.key); ("cmd", PStr "sql");
                 ("query", PStr "DROP TABLE session_history")]));
    try reflexivity.
  intros k Hr [v Hk].
  destruct (decide (k = "query")) as [-> | Hne]; [reflexivity |].
  exfalso. unfold bag in Hk. cbn [list_to_map foldr curry fst snd uncurry] in Hk.
  rewrite !lookup_insert in Hk.
  repeat case_decide; subst; try congruence;
    try (apply Hr; unfold reserved;
         repeat first [apply list_elem_of_here | apply list_elem_of_further]).
  rewrite lookup_empty in Hk. discriminate Hk.
Defined.

(** ** The settings *)

Lemma dict_get_set (d : list (string * pyval)) (k k' : string) (v : pyval) :
  dict_get (dict_set d k v) k'
  = if String.eqb k k' then Some v else dict_get d k'.
Proof.
  induction d as [| [k0 v0] d IH]; cbn [dict_set dict_get].
  - reflexivity.
  - destruct (String.eqb_spec k0 k) as [-> | Hne]; cbn [dict_get].
    + destruct (String.eqb_spec k k'); reflexivity.
    + destruct (String.eqb_spec k0 k') as [-> | Hne'].
      * destruct (String.eqb_spec k k'); [congruence | reflexivity].
      * exact IH.
Qed.

Lemma dict_get_absent (d : list (string * pyval)) (k : string) :
  k ∉ map fst d -> dict_get d k = None.
Proof.
  induction d as [| [k0 v0] d IH]; cbn [dict_get map fst]; [reflexivity |].
  intros Hk. apply not_elem_of_cons in Hk as [Hne Hk].
  destruct (String.eqb_spec k0 k); [congruence | apply IH, Hk].
Qed.

Lemma truthify_from (section acc : list (string * pyval)) (kk : string) :
  NoDup (map fst section) ->
  dict_get
    (foldl (fun d kv =>
              dict_set d (fst kv)
                (if py_eq_str (snd kv) "0" || py_eq_str (snd kv) "1"
                 then PBool (truthy (snd kv))
                 else snd kv))
           acc section) kk
  = match dict_get section kk with
    | Some v => Some (truthified v)
    | None => dict_get acc kk
    end.
Proof.
  revert acc. induction section as [| [k v] r IH]; intros acc Hnd;
    cbn [foldl dict_get map fst snd] in *; [reflexivity |].
  apply NoDup_cons in Hnd as [Hk Hnd]. rewrite (IH _ Hnd).
  destruct (String.eqb_spec k kk) as [-> | Hne].
  - rewrite (dict_get_absent r kk Hk), dict_get_set, String.eqb_refl.
    unfold truthified. destruct v; try reflexivity.
    cbn [py_eq_str truthy].
    destruct (String.eqb_spec s "0") as [-> | ?]; [reflexivity |].
    destruct (String.eqb_spec s "1") as [-> | ?]; reflexivity.
  - destruct (dict_get r kk); [reflexivity |].
    rewrite dict_get_set. destruct (String.eqb_spec k kk); [congruence |].
    reflexivity.
Qed.

Lemma truthify_get (section : list (string * pyval)) (kk : string) :
  NoDup (map fst section) ->
  dict_get (truthify section) kk = truthified <$> dict_get section kk.
Proof.
  intros Hnd. unfold truthify. rewrite (truthify_from section [] kk Hnd).
  destruct (dict_get section kk); reflexivity.
Qed.

Lemma settings_loop_spec (dir : string) (il : list string)
    (conf config0 : list (string * pyval)) :
  NoDup (map fst conf) ->
  (forall k, k ∈ map fst conf -> dict_get config0 k = None) ->
  general_is_mapping conf ->
  exists config,
    settings_loop dir il conf config0 = Return config
    /\ forall name,
         dict_get config name
         = match dict_get conf name with
           | Some (PDict section) =>
               Some (PDict (with_interfaces dir il name (truthify section)))
           | _ => dict_get config0 name
           end.
Proof.
  revert config0. induction conf as [| [k v] rest IH]; intros config0 Hnd Hfresh Hgen.
  - exists config0. split; reflexivity.
  - cbn [map fst] in Hnd, Hfresh. apply NoDup_cons in Hnd as [Hk Hnd].
    assert (Hrest : forall q, dict_get rest q <> None -> q <> k).
    { intros q Hq ->. apply Hq, dict_get_absent, Hk. }
    set (config1 := match v return list (string * pyval) with
                    | PDict section => dict_set config0 k (PDict (truthify section))
                    | _ => config0
                    end).
    set (config2 := if String.eqb k "General"
                    then match v with
                         | PDict section =>
                             dict_set config1 k
                               (PDict (with_interfaces dir il k (truthify section)))
                         | _ => config1
                         end
                    else config1).
    assert (Hget2 : forall q,
              dict_get config2 q
              = if String.eqb k q
                then match v with
                     | PDict section =>
                         Some (PDict (with_interfaces dir il k (truthify section)))
                     | _ => dict_get config0 q
                     end
                else dict_get config0 q).
    { intros q. unfold config2, config1, with_interfaces.
      destruct (String.eqb k "General"), v; rewrite ?dict_get_set;
        destruct (String.eqb k q); reflexivity. }
    assert (Hstep : settings_loop dir il ((k, v) :: rest) config0
                    = settings_loop dir il rest config2).
    { cbn [settings_loop]. fold config1. unfold config2, with_interfaces.
      destruct (String.eqb_spec k "General") as [-> | Hne]; [| reflexivity].
      destruct (Hgen v) as [d ->]; [cbn [dict_get]; reflexivity |].
      unfold config1. rewrite dict_get_set, String.eqb_refl. reflexivity. }
    destruct (IH config2 Hnd) as (config & Hrun & Hlook).
    + intros q Hq. rewrite Hget2.
      destruct (String.eqb_spec k q) as [-> | Hne]; [contradiction |].
      apply Hfresh. apply list_elem_of_further, Hq.
    + intros v' Hv'. apply Hgen. cbn [dict_get].
      destruct (String.eqb_spec k "General") as [-> | Hne]; [| exact Hv'].
      rewrite (dict_get_absent rest "General" Hk) in Hv'. discriminate Hv'.
    + exists config. split; [rewrite Hstep; exact Hrun |].
      intros name. rewrite Hlook. cbn [dict_get].
      destruct (String.eqb_spec k name) as [-> | Hne].
      * rewrite (dict_get_absent rest name Hk), Hget2, String.eqb_refl.
        destruct v; try reflexivity;
          apply Hfresh, list_elem_of_here.
      * destruct (dict_get rest name) as [[]|]; try reflexivity;
          rewrite Hget2; destruct (String.eqb_spec k name); congruence.
Qed.

Lemma settings_loop_general (dir : string) (il : list string)
    (conf config0 : list (string * pyval)) (v : pyval) :
  dict_get conf "General" = Some v -> (forall d, v <> PDict d) ->
  dict_get config0 "General" = None ->
  settings_loop dir il conf config0 = Raise (KeyError "General").
Proof.
  revert config0. induction conf as [| [k v'] rest IH];
    intros config0 Hv Hnot Hfresh; [discriminate Hv |].
  cbn [dict_get settings_loop] in *.
  destruct (String.eqb_spec k "General") as [-> | Hne].
  - injection Hv as ->. destruct v; try (rewrite Hfresh; reflexivity).
    destruct (Hnot d eq_refl).
  - apply IH; try assumption.
    destruct v'; try assumption.
    rewrite dict_get_set. destruct (String.eqb_spec k "General"); congruence.
Qed.

(** X19.  [get_settings] returns the sections of the settings store that
    are mappings, and only those: an entry that is not a mapping is left
    out.  Asked for one section by name, it returns that section of the
    same result, and [None] for a name that is missing or left out. *)
Theorem get_settings_sections (dir : string) (il : list string)
    (conf : list (string * pyval)) :
  NoDup (map fst conf) ->
  general_is_mapping conf ->
  exists config,
    get_settings_body dir il conf (PStr "") = Return (PDict config)
    /\ (forall name,
          dict_get config name
          = match dict_get conf name with
            | Some (PDict section) =>
                Some (PDict (with_interfaces dir il name (truthify section)))
            | _ => None
            end)
    /\ (forall name,
          name <> "" ->
          get_settings_body dir il conf (PStr name)
          = Return (match dict_get config name with
                    | Some v => v
                    | None => PNone
                    end)).
Proof.
  intros Hnd Hgen.
  destruct (settings_loop_spec dir il conf [] Hnd) as (config & Hrun & Hlook);
    [reflexivity | exact Hgen |].
  exists config. unfold get_settings_body. rewrite Hrun.
  split; [reflexivity |]. split.
  - intros name. rewrite Hlook. destruct (dict_get conf name) as [[]|]; reflexivity.
  - intros name Hname. cbn [truthy config_get].
    destruct (String.eqb_spec name ""); [contradiction | reflexivity].
Qed.

Lemma get_settings_sections_witness :
  let conf := [("General", PDict [("api_enabled", PStr "1")]);
               ("Advanced", PDict [("cache_sizemb", PStr "32")]);
               ("stray", PStr "text")] in
  exists config,
    get_settings_body "data/interfaces" ["default"] conf (PStr "")
    = Return (PDict config)
    /\ (forall name,
          dict_get config name
          = match dict_get conf name with
            | Some (PDict section) =>
                Some (PDict (with_interfaces "data/interfaces" ["default"] name
                               (truthify section)))
            | _ => None
            end)
    /\ (forall name,
          name <> "" ->
          get_settings_body "data/interfaces" ["default"] conf (PStr name)
          = Return (match dict_get config name with
                    | Some v => v
                    | None => PNone
                    end)).
Proof.
  apply (get_settings_sections "data/interfaces" ["default"]
           [("General", PDict [("api_enabled", PStr "1")]);
            ("Advanced", PDict [("cache_sizemb", PStr "32")]);
            ("stray", PStr "text")]).
  - refine (bool_decide_unpack _ _). vm_compute. exact I.
  - intros v Hv. vm_compute in Hv. injection Hv as <-. eexists. reflexivity.
Defined.

(** X20.  In a section returned by [get_settings] the texts ['0'] and
    ['1'] are both replaced by [True] (the flag that is off is reported as
    on); every other value is returned as stored, and no entry is added or
    lost. *)
Theorem get_settings_flags (dir : string) (il : list string)
    (conf section : list (string * pyval)) (name : string) :
  NoDup (map fst conf) ->
  general_is_mapping conf ->
  NoDup (map fst section) ->
  dict_get conf name = Some (PDict section) ->
  name <> "" -> name <> "General" ->
  exists d,
    get_settings_body dir il conf (PStr name) = Return (PDict d)
    /\ forall kk,
         dict_get d kk
         = match dict_get section kk with
           | Some v =>
               Some (if py_eq_str v "0" || py_eq_str v "1"
                     then PBool true else v)
           | None => None
           end.
Proof.
  intros Hnd Hgen Hsec Hname Hne Hng.
  destruct (settings_loop_spec dir il conf [] Hnd) as (config & Hrun & Hlook);
    [reflexivity | exact Hgen |].
  exists (truthify section). unfold get_settings_body. rewrite Hrun.
  cbn [truthy config_get].
  destruct (String.eqb_spec name ""); [contradiction |].
  cbn [negb]. rewrite Hlook, Hname. unfold with_interfaces.
  destruct (String.eqb_spec name "General"); [contradiction |].
  split; [reflexivity |].
  intros kk. rewrite (truthify_get section kk Hsec).
  destruct (dict_get section kk); reflexivity.
Qed.

Lemma get_settings_flags_witness :
  exists d,
    get_settings_body "data/interfaces" ["default"]
      [("General", PDict [("api_enabled", PStr "1")]);
       ("Monitoring", PDict [("notify_upload_posters", PStr "0");
                             ("refresh_users_interval", PStr "12")])]
      (PStr "Monitoring")
    = Return (PDict d)
    /\ forall kk,
         dict_get d kk
         = match dict_get [("notify_upload_posters", PStr "0");
                           ("refresh_users_interval", PStr "12")] kk with
           | Some v =>
               Some (if py_eq_str v "0" || py_eq_str v "1"
                     then PBool true else v)
           | None => None
           end.
Proof.
  apply (get_settings_flags "data/interfaces" ["default"]
           [("General", PDict [("api_enabled", PStr "1")]);
            ("Monitoring", PDict [("notify_upload_posters", PStr "0");
                                  ("refresh_users_interval", PStr "12")])]
           [("notify_upload_posters", PStr "0");
            ("refresh_users_interval", PStr "12")]
           "Monitoring").
  - refine (bool_decide_unpack _ _). vm_compute. exact I.
  - intros v Hv. vm_compute in Hv. injection Hv as <-. eexists. reflexivity.
  - refine (bool_decide_unpack _ _). vm_compute. exact I.
  - reflexivity.
  - discriminate.
  - discriminate.
Defined.

(** X21.  When the entry [General] of the settings store is not a mapping,
    [get_settings] raises [KeyError] for [General], whatever section is
    asked for. *)
Theorem get_settings_general_not_mapping (dir : string) (il : list string)
    (conf : list (string * pyval)) (v key : pyval) :
  dict_get conf "General" = Some v ->
  (forall d, v <> PDict d) ->
  get_settings_body dir il conf key = Raise (KeyError "General").
Proof.
  intros Hv Hnot. unfold get_settings_body.
  rewrite (settings_loop_general dir il conf [] v Hv Hnot eq_refl).
  reflexivity.
Qed.

Lemma get_settings_general_not_mapping_witness :
  get_settings_body "data/interfaces" ["default"]
    [("Advanced", PDict [("cache_sizemb", PStr "32")]);
     ("General", PStr "text")]
    (PStr "Advanced")
  = Raise (KeyError "General").
Proof.
  apply (get_settings_general_not_mapping "data/interfaces" ["default"]
           [("Advanced", PDict [("cache_sizemb", PStr "32")]);
            ("General", PStr "text")]
           (PStr "text") (PStr "Advanced")).
  - reflexivity.
  - discriminate.
Defined.

(** ** The query *)

(** X22.  With [api_sql] on and a query given, [sql] never makes the
    backup its description promises: whenever the check asks for one, the
    call of the missing method [backupdb] raises [AttributeError], the query
    is not run and nothing is written.  Only when no backup is due is the
    query run, and its rows are returned and stored in [self.data]. *)
Theorem sql_backup_due_raises {L : Libs} (stale : list bool)
    (select : pyval -> outcome pyval) (kw : kwargs_t) (s : Store) :
  db_select = sql_backend stale select ->
  accepts ["query"] kw = true ->
  API_SQL (CONFIG (plexpy s)) = true ->
  truthy (kw_get "query" (PStr "") kw) = true ->
  (backup_due stale = true ->
   sql kw s
   = (Raise (AttributeError "API2 instance has no attribute 'backupdb'"), s))
  /\ (backup_due stale = false ->
      fst (sql kw s) = select (kw_get "query" (PStr "") kw)
      /\ plexpy (snd (sql kw s)) = plexpy s
      /\ forall rows,
           select (kw_get "query" (PStr "") kw) = Return rows ->
           data (self (snd (sql kw s))) = Some rows).
Proof.
  intros Hdb Hacc Hon Hq.
  assert (Hrun : sql kw s
                 = match sql_backend stale select (kw_get "query" (PStr "") kw) with
                   | Return rows =>
                       (Return rows,
                        {| self := with_data rows (self s); plexpy := plexpy s |})
                   | Raise e => (Raise e, s)
                   end).
  { unfold sql, bind, bind_args, get_plexpy, lift, set_data, get_self, put_self.
    rewrite Hacc. cbn [ret fst snd]. rewrite Hon, Hq, Hdb. cbn [negb orb].
    destruct (sql_backend _ _ _); reflexivity. }
  rewrite Hrun. unfold sql_backend, backup_due.
  split; intros Hdue.
  - destruct stale as [| old stale]; [reflexivity |].
    cbn [length truthy]. rewrite Hdue.
    destruct (negb (negb _)); reflexivity.
  - destruct stale as [| old stale]; [discriminate Hdue |].
    rewrite Hdue.
    replace (negb (truthy (PInt (Z.of_nat (length (old :: stale))))))
      with false
      by (cbn [truthy length]; destruct (Z.eqb_spec (Z.of_nat (S (length stale))) 0);
          [lia | reflexivity]).
    destruct (select _) as [rows | e]; cbn [fst snd self plexpy].
    + repeat split. intros rows' [= ->]. reflexivity.
    + repeat split. intros rows' Hr. discriminate Hr.
Qed.

Lemma sql_backup_due_raises_witness :
  let L := with_bodies Demo.libs sample_outside in
  let kw := bag [("query", PStr "SELECT 1")] in
  let s := {| self := @__init__ L;
              plexpy := Demo.globals
                          {| API_ENABLED := true; API_KEY := Demo.key;
                             API_SQL := true;
                             HTTP_USERNAME := ""; HTTP_PASSWORD := "" |} |} in
  @sql L kw s
  = (Raise (AttributeError "API2 instance has no attribute 'backupdb'"), s).
Proof.
  exact (proj1
           (@sql_backup_due_raises (with_bodies Demo.libs sample_outside)
              [false; true] (select sample_outside)
              (bag [("query", PStr "SELECT 1")])
              {| self := @__init__ (with_bodies Demo.libs sample_outside);
                 plexpy := Demo.globals
                             {| API_ENABLED := true; API_KEY := Demo.key;
                                API_SQL := true;
                                HTTP_USERNAME := ""; HTTP_PASSWORD := "" |} |}
              eq_refl eq_refl eq_refl eq_refl)
           eq_refl).
Defined.

(** ** The log *)

Lemma kwargs_without_bounds (kw : kwargs_t) :
  let kwargs :=
    foldr delete kw ["sort"; "search"; "order"; "regex"; "start"; "end"] in
  kw_get "start" (PInt 0) kwargs = PInt 0
  /\ kw_get "end" (PInt 0) kwargs = PInt 0.
Proof.
  cbn [foldr]. unfold kw_get. rewrite !lookup_delete.
  split; repeat case_decide; congruence.
Qed.

(** The body, with the two bounds at the value they always have. *)
Lemma get_logs_body_eq (lines : list string)
    (rc : string -> outcome (pyval -> bool)) (kw : kwargs_t) :
  get_logs_body lines rc kw
  = and_then (compiled rc (kw_get "regex" (PStr "") kw)) (fun reg =>
    and_then (read_lines lines [])
      (arranged (kw_get "sort" (PStr "") kw) (kw_get "search" (PStr "") kw)
         (kw_get "order" (PStr "desc") kw) reg 0 0)).
Proof.
  unfold get_logs_body. cbv zeta.
  destruct (kwargs_without_bounds kw) as [-> ->]. reflexivity.
Qed.

(** X23.  [get_logs] does not use the parameters [start] and [end]: its
    result is the one of the same request without them, whatever their
    values are (the two bounds are read from the keywords left over, which
    never hold them, so the log is never sliced). *)
Theorem get_logs_ignores_start_end (lines : list string)
    (rc : string -> outcome (pyval -> bool)) (kw : kwargs_t) :
  get_logs_body lines rc kw
  = get_logs_body lines rc (delete "start" (delete "end" kw)).
Proof.
  rewrite !get_logs_body_eq.
  rewrite !kw_get_delete_ne by discriminate. reflexivity.
Qed.

Lemma append_cons (c : ascii) (a b : string) :
  String c a +:+ b = String c (a +:+ b).
Proof. reflexivity. Qed.

Lemma append_assoc (a b c : string) : (a +:+ b) +:+ c = a +:+ b +:+ c.
Proof.
  induction a as [| x a IH]; [reflexivity |].
  rewrite !append_cons, IH. reflexivity.
Qed.

Lemma append_empty_r (s : string) : s +:+ "" = s.
Proof.
  induction s as [| x s IH]; [reflexivity |].
  rewrite append_cons, IH. reflexivity.
Qed.

Lemma infix_refl (s : string) : infix s s.
Proof. exists "", "". cbn. rewrite append_empty_r. reflexivity. Qed.

Lemma infix_empty (s : string) : infix "" s.
Proof. exists "", s. reflexivity. Qed.

Lemma infix_trans (a b s : string) : infix a b -> infix b s -> infix a s.
Proof.
  intros (p1 & q1 & ->) (p2 & q2 & ->). exists (p2 +:+ p1), (q1 +:+ q2).
  rewrite !append_assoc. reflexivity.
Qed.

Lemma infix_cons (a : string) (c : ascii) (s : string) :
  infix a s -> infix a (String c s).
Proof. intros (p & q & ->). exists (String c p), q. reflexivity. Qed.

Lemma infix_app_l (a p s : string) : infix a s -> infix a (p +:+ s).
Proof.
  intros H. induction p as [| c p IH]; [exact H | apply infix_cons, IH].
Qed.

Lemma prefix_append (a q : string) : String.prefix a (a +:+ q) = true.
Proof.
  induction a as [| c a IH]; [destruct q; reflexivity |].
  rewrite append_cons. cbn [String.prefix].
  destruct (ascii_dec c c); [exact IH | congruence].
Qed.

Lemma contains_unfold (a s : string) :
  contains a s
  = String.prefix a s
    || match s with
       | EmptyString => false
       | String _ r => contains a r
       end.
Proof. destruct s; reflexivity. Qed.

Lemma infix_contains (a s : string) : infix a s -> contains a s = true.
Proof.
  intros (p & q & ->). induction p as [| c p IH].
  - change ("" +:+ a +:+ q) with (a +:+ q).
    rewrite contains_unfold, prefix_append. reflexivity.
  - rewrite append_cons, contains_unfold, IH. apply orb_true_r.
Qed.

Lemma lstrip_infix (s : string) : infix (lstrip s) s.
Proof.
  induction s as [| c s IH]; cbn [lstrip]; [apply infix_refl |].
  destruct (is_space c); [apply infix_cons, IH | apply infix_refl].
Qed.

Lemma rstrip_infix (s : string) : infix (rstrip s) s.
Proof.
  assert (H : exists q, s = rstrip s +:+ q).
  { induction s as [| c s [q Hq]]; cbn [rstrip]; [exists ""; reflexivity |].
    destruct (rstrip s) as [| c' r'].
    - destruct (is_space c); [exists (String c s); reflexivity |].
      exists s. reflexivity.
    - exists q. rewrite append_cons, <- Hq. reflexivity. }
  destruct H as [q Hq]. exists "", q. exact Hq.
Qed.

Lemma strip_infix (s : string) : infix (strip s) s.
Proof.
  unfold strip. eapply infix_trans; [apply rstrip_infix | apply lstrip_infix].
Qed.

Lemma split_infix (sep s : string) :
  forall (skip : nat) (cur piece : string),
    skip = 0%nat \/ cur = "" ->
    piece ∈ py_split_from sep skip cur s -> infix piece (cur +:+ s).
Proof.
  induction s as [| c r IH]; intros skip cur piece Hinv Hin;
    cbn [py_split_from] in Hin.
  - apply list_elem_of_singleton in Hin as ->. exists "", "". reflexivity.
  - destruct skip as [| k].
    + destruct (String.prefix sep (String c r)).
      * apply elem_of_cons in Hin as [-> | Hin].
        -- exists "", (String c r). reflexivity.
        -- apply (IH _ "" piece) in Hin; [| right; reflexivity].
           apply infix_app_l, infix_cons, Hin.
      * apply IH in Hin; [| left; reflexivity].
        rewrite append_assoc in Hin. exact Hin.
    + destruct Hinv as [Hk | ->]; [discriminate Hk |].
      apply IH in Hin; [| right; reflexivity].
      apply infix_cons. exact Hin.
Qed.

Lemma split_piece (sep s piece : string) (i : nat) :
  py_split sep s !! i = Some piece -> infix piece s.
Proof.
  intros H. apply list_elem_of_lookup_2 in H.
  apply (split_infix sep s 0 "" piece); [left; reflexivity | exact H].
Qed.

(** A line the [try] block reads is kept: the test before [append] holds
    for it. *)
Lemma parse_kept (line time loglvl msg thread : string) :
  parse_line line = Some (time, loglvl, msg, thread) ->
  (1 <? String.length line)%nat && contains loglvl line = true.
Proof.
  unfold parse_line.
  destruct (py_split "- " line !! 1%nat) as [level_part |] eqn:E1;
    [| discriminate].
  destruct (py_split " : " line !! 1%nat) as [message_part |];
    [| discriminate].
  destruct (py_split " :: " line !! 1%nat) as [thread_part |];
    [| discriminate].
  intros [= <- <- <- <-]. apply andb_true_intro. split.
  - destruct line as [| c [| c' r]]; [discriminate E1 | | reflexivity].
    exfalso. unfold py_split in E1.
    cbn [py_split_from String.prefix] in E1.
    destruct (ascii_dec "-" c); vm_compute in E1; discriminate E1.
  - apply infix_contains.
    eapply infix_trans; [apply strip_infix |].
    eapply infix_trans; [| exact (split_piece _ _ _ _ E1)].
    destruct (py_split " :" level_part !! 0%nat) as [first |] eqn:E0;
      [exact (split_piece _ _ _ _ E0) | apply infix_empty].
Qed.

Lemma entry_is_entry (time loglevel msg thread : string) :
  is_entry (log_entry time loglevel msg thread).
Proof. exists time, loglevel, msg, thread. reflexivity. Qed.

Lemma extend_last_entries (templog : list pyval) (text : string) :
  Forall is_entry templog -> templog <> [] ->
  exists templog',
    extend_last templog text = Return templog'
    /\ Forall is_entry templog' /\ templog' <> [].
Proof.
  intros Hall Hne.
  destruct templog as [| d templog _] using rev_ind; [contradiction |].
  apply Forall_app in Hall as [Hbefore Hlast].
  apply Forall_singleton in Hlast as (t & l & m & th & ->).
  exists (templog ++ [log_entry t l (m +:+ text) th])%list.
  split; [| split].
  - unfold extend_last. rewrite rev_app_distr. cbn [rev app].
    rewrite rev_involutive. reflexivity.
  - apply Forall_app. split; [exact Hbefore |].
    apply Forall_singleton, entry_is_entry.
  - intros H. apply app_eq_nil in H as [_ H]. discriminate H.
Qed.

Lemma read_lines_entries (lines : list string) :
  forall (acc templog : list pyval),
    Forall is_entry acc ->
    read_lines lines acc = Return templog -> Forall is_entry templog.
Proof.
  induction lines as [| line rest IH]; intros acc templog Hall Hrun;
    cbn [read_lines] in Hrun.
  - injection Hrun as <-. exact Hall.
  - destruct (parse_line line) as [[[[t l] m] th] |].
    + destruct (_ && _); [| exact (IH _ _ Hall Hrun)].
      refine (IH _ _ _ Hrun).
      apply Forall_app. split; [exact Hall |].
      apply Forall_singleton, entry_is_entry.
    + destruct acc as [| d acc]; [discriminate Hrun |].
      destruct (extend_last_entries (d :: acc) (without_newlines line) Hall)
        as (acc' & Hext & Hall' & _); [discriminate |].
      rewrite Hext in Hrun. exact (IH _ _ Hall' Hrun).
Qed.

Lemma extend_last_entry (acc : list pyval) (t l m th text : string) :
  extend_last (acc ++ [log_entry t l m th])%list text
  = Return (acc ++ [log_entry t l (m +:+ text) th])%list.
Proof.
  unfold extend_last. rewrite rev_app_distr. cbn [rev app].
  rewrite rev_involutive. reflexivity.
Qed.

Lemma extended_raise (e : exn) (pending : list string) :
  foldl (fun r line =>
           and_then r (fun t => extend_last t (without_newlines line)))
        (Raise e) pending
  = Raise e.
Proof. induction pending as [| line p IH]; [reflexivity | exact IH]. Qed.

Lemma extended_entry (acc : list pyval) (t l th : string)
    (pending : list string) :
  forall m,
    extended (acc ++ [log_entry t l m th])%list pending
    = Return (acc ++ [log_entry t l (continued m pending) th])%list.
Proof.
  unfold extended, continued.
  induction pending as [| line p IH]; intros m; cbn [foldl]; [reflexivity |].
  cbn [and_then]. rewrite extend_last_entry. apply IH.
Qed.

(** The loop, from any list built so far: the lines that wait at the start
    go to the last entry of that list, and the entries of the rest follow. *)
Lemma read_lines_blocks (lines : list string) :
  forall acc,
    read_lines lines acc
    = and_then (extended acc (fst (logged_blocks lines)))
        (fun acc' => Return (acc' ++ snd (logged_blocks lines))%list).
Proof.
  induction lines as [| line rest IH]; intros acc.
  - cbn. rewrite app_nil_r. reflexivity.
  - cbn [read_lines logged_blocks foldr].
    fold (logged_blocks rest).
    destruct (parse_line line) as [[[[t l] m] th] |] eqn:Hparse.
    + rewrite (parse_kept _ _ _ _ _ Hparse), IH, extended_entry.
      cbn [fst snd and_then extended foldl].
      rewrite <- app_assoc. reflexivity.
    + cbn [fst snd]. unfold extended. cbn [foldl and_then].
      destruct (extend_last acc (without_newlines line)) as [a1 | e];
        cbn [and_then].
      * rewrite IH. reflexivity.
      * rewrite extended_raise. reflexivity.
Qed.

Lemma logged_blocks_count (lines : list string) :
  length (snd (logged_blocks lines))
  = length (filter (fun line => is_Some (parse_line line)) lines).
Proof.
  induction lines as [| line rest IH]; [reflexivity |].
  cbn [logged_blocks foldr]. fold (logged_blocks rest).
  rewrite filter_cons.
  destruct (parse_line line) as [[[[t l] m] th] |]; cbn [snd length].
  - rewrite decide_True by (eexists; reflexivity). cbn [length].
    rewrite IH. reflexivity.
  - rewrite decide_False by (intros [x Hx]; discriminate Hx). exact IH.
Qed.

(** X24.  What the loop over the log file builds.  Every line read as a
    logged line gives one entry, in the order of the file, with the time,
    level and thread of that line; its message is the message of the line
    followed by the texts, newlines removed, of the lines after it up to
    the next logged line.  No logged line is dropped, so there are as many
    entries as logged lines.  The loop fails in one case only: when the
    first line of the file is not a logged line (a line of a traceback, a
    blank line) there is no entry to add it to, and [IndexError] leaves
    [get_logs]. *)
Theorem get_logs_first_line (lines : list string)
    (rc : string -> outcome (pyval -> bool)) (kw : kwargs_t) :
  read_lines lines []
  = match logged_blocks lines with
    | ([], entries) => Return entries
    | (_ :: _, _) => Raise (IndexError "list index out of range")
    end
  /\ (forall templog,
        read_lines lines [] = Return templog ->
        length templog
        = length (filter (fun line => is_Some (parse_line line)) lines))
  /\ (fst (logged_blocks lines) = [] <->
      match lines with
      | [] => True
      | line :: _ => is_Some (parse_line line)
      end)
  /\ (fst (logged_blocks lines) <> [] ->
      forall reg,
        compiled rc (kw_get "regex" (PStr "") kw) = Return reg ->
        get_logs_body lines rc kw
        = Raise (IndexError "list index out of range")).
Proof.
  assert (Hread : read_lines lines []
                  = match logged_blocks lines with
                    | ([], entries) => Return entries
                    | (_ :: _, _) =>
                        Raise (IndexError "list index out of range")
                    end).
  { rewrite read_lines_blocks.
    destruct (logged_blocks lines) as [[| line p] entries]; cbn [fst snd].
    - reflexivity.
    - unfold extended. cbn [foldl and_then extend_last rev].
      rewrite extended_raise. reflexivity. }
  split; [exact Hread |]. split; [| split].
  - intros templog Hret. rewrite Hread in Hret.
    rewrite <- logged_blocks_count.
    destruct (logged_blocks lines) as [[| line p] entries];
      [| discriminate Hret].
    injection Hret as <-. reflexivity.
  - destruct lines as [| line rest]; [split; reflexivity || constructor |].
    cbn [logged_blocks foldr]. fold (logged_blocks rest).
    destruct (parse_line line) as [[[[t l] m] th] |]; cbn [fst].
    + split; [intros _; eexists; reflexivity | reflexivity].
    + split; [discriminate | intros [x Hx]; discriminate Hx].
  - intros Hwait reg Hreg. rewrite get_logs_body_eq, Hreg. cbn [and_then].
    rewrite Hread.
    destruct (logged_blocks lines) as [[| line p] entries];
      [contradiction | reflexivity].
Qed.

Lemma keyed_snd (f : string) (templog : list pyval) :
  forall l, keyed f templog = Return l -> map snd l = templog.
Proof.
  induction templog as [| d r IH]; intros l Hl; cbn [keyed] in Hl.
  - injection Hl as <-. reflexivity.
  - destruct (py_getitem d f) as [v | e]; [| discriminate Hl].
    cbn [and_then] in Hl. destruct v; try discriminate Hl.
    destruct (keyed f r) as [l0 | e]; [| discriminate Hl].
    cbn [and_then] in Hl. injection Hl as <-.
    cbn [map snd]. rewrite (IH l0 eq_refl). reflexivity.
Qed.

Lemma keyed_entries (f : string) (templog : list pyval) :
  Forall is_entry templog -> f ∈ log_fields ->
  keyed f templog = Return (map (fun d => (field_of f d, d)) templog).
Proof.
  intros Hall Hf. induction Hall as [| d r (t & l & m & th & ->) _ IH];
    [reflexivity |].
  cbn [keyed map]. rewrite IH. unfold log_fields in Hf.
  repeat (apply elem_of_cons in Hf as [-> | Hf]);
    [reflexivity | reflexivity | reflexivity | reflexivity |].
  apply elem_of_nil in Hf. destruct Hf.
Qed.

Lemma keyed_unknown (f : string) (d : pyval) (r : list pyval) :
  is_entry d -> f ∉ log_fields ->
  keyed f (d :: r) = Raise (KeyError f).
Proof.
  intros (t & l & m & th & ->) Hf. cbn [keyed log_entry py_getitem dict_get].
  unfold log_fields in Hf.
  repeat match goal with
         | |- context [String.eqb ?a f] =>
             destruct (String.eqb_spec a f) as [<- | ?];
             [exfalso; apply Hf;
              repeat first [apply list_elem_of_here | apply list_elem_of_further] |]
         end.
  reflexivity.
Qed.

Lemma insert_by_key_perm (x : string * pyval) (l : list (string * pyval)) :
  insert_by_key x l ≡ₚ x :: l.
Proof.
  induction l as [| y r IH]; cbn [insert_by_key]; [reflexivity |].
  destruct (String.leb (fst x) (fst y)); [reflexivity |].
  rewrite IH. apply Permutation_swap.
Qed.

Lemma sort_by_key_perm (l : list (string * pyval)) :
  foldr insert_by_key [] l ≡ₚ l.
Proof.
  induction l as [| x r IH]; cbn [foldr]; [reflexivity |].
  rewrite insert_by_key_perm, IH. reflexivity.
Qed.

Lemma insert_by_key_sorted (x : string * pyval) (l : list (string * pyval)) :
  Sorted by_key l -> Sorted by_key (insert_by_key x l).
Proof.
  induction l as [| y r IH]; intros Hs; cbn [insert_by_key].
  - repeat constructor.
  - destruct (String.leb (fst x) (fst y)) eqn:Hxy.
    + constructor; [exact Hs | constructor; exact Hxy].
    + apply Sorted_inv in Hs as [Hr Hhd].
      constructor; [apply IH, Hr |].
      destruct r as [| z r]; cbn [insert_by_key].
      * constructor. unfold by_key.
        destruct (String.leb_total (fst x) (fst y)) as [H | H];
          [congruence | exact H].
      * destruct (String.leb (fst x) (fst z)).
        -- constructor. unfold by_key.
           destruct (String.leb_total (fst x) (fst y)) as [H | H];
             [congruence | exact H].
        -- constructor. apply HdRel_inv in Hhd. exact Hhd.
Qed.

Lemma sort_by_key_sorted (l : list (string * pyval)) :
  Sorted by_key (foldr insert_by_key [] l).
Proof.
  induction l as [| x r IH]; cbn [foldr]; [constructor |].
  apply insert_by_key_sorted, IH.
Qed.

Lemma sorted_by_field (f : string) (l : list (string * pyval)) :
  (forall p, p ∈ l -> fst p = field_of f (snd p)) ->
  Sorted by_key l -> Sorted (by_field f) (map snd l).
Proof.
  intros Hkeys Hs. induction Hs as [| p r Hr IH Hhd]; cbn [map];
    [constructor |].
  constructor.
  - apply IH. intros p' Hp'. apply Hkeys, list_elem_of_further, Hp'.
  - destruct Hhd as [| q r' Hpq]; cbn [map]; constructor.
    unfold by_field, by_key in *.
    rewrite <- (Hkeys p), <- (Hkeys q); [exact Hpq | |].
    + apply list_elem_of_further, list_elem_of_here.
    + apply list_elem_of_here.
Qed.

Lemma sorted_by_perm (sort : pyval) (templog l' : list pyval) :
  sorted_by sort templog = Return l' -> l' ≡ₚ templog.
Proof.
  unfold sorted_by. destruct sort;
    try (destruct templog; intros [= <-]; reflexivity).
  destruct (keyed s templog) as [l | e] eqn:Hk; [| discriminate].
  cbn [and_then]. intros [= <-].
  rewrite <- (keyed_snd s templog l Hk).
  apply Permutation_map, sort_by_key_perm.
Qed.

Lemma matches_self (needle : string) (d x : pyval) :
  x ∈ matches needle d -> x = d.
Proof.
  unfold matches. destruct d; try (intros H; apply elem_of_nil in H; destruct H).
  intros H. apply list_elem_of_In, in_flat_map in H as ([k v] & _ & H).
  cbn [snd] in H. destruct v; try destruct H.
  destruct (contains _ _); [| destruct H].
  destruct H as [<- | []]. reflexivity.
Qed.

Lemma searched_subset (search : pyval) (templog l' : list pyval) :
  searched search templog = Return l' -> l' ⊆ templog.
Proof.
  unfold searched. destruct search;
    try (destruct templog; intros [= <-]; reflexivity).
  destruct (flat_map (matches s) templog) as [| d0 found] eqn:Hf;
    intros [= <-]; [reflexivity |].
  intros x Hx. rewrite <- Hf in Hx.
  apply list_elem_of_In, in_flat_map in Hx as (d & Hd & Hx).
  apply list_elem_of_In, matches_self in Hx as ->.
  apply list_elem_of_In, Hd.
Qed.

Lemma filtered_subset (reg : pyval -> bool) (templog : list pyval) :
  filtered reg templog ⊆ templog.
Proof.
  unfold filtered.
  destruct (filter (fun l => reg l = true) templog) eqn:Hf; [reflexivity |].
  rewrite <- Hf. apply list_subseteq_filter.
Qed.

Lemma rev_subset (l : list pyval) : rev l ⊆ l.
Proof. intros x Hx. apply list_elem_of_In, in_rev, list_elem_of_In, Hx. Qed.

Lemma py_slice_subset (l : list pyval) (start stop : Z) :
  py_slice l start stop ⊆ l.
Proof.
  unfold py_slice. etransitivity; [apply subseteq_take | apply subseteq_drop].
Qed.

Lemma arranged_subset (sort search order : pyval)
    (reg : option (pyval -> bool)) (start end_ : Z) (templog : list pyval)
    (v : pyval) :
  arranged sort search order reg start end_ templog = Return v ->
  exists l', v = PList l' /\ l' ⊆ templog.
Proof.
  unfold arranged.
  set (t0 := if (0 <? end_)%Z || (0 <? start)%Z
             then py_slice templog start end_ else templog).
  assert (H0 : t0 ⊆ templog).
  { unfold t0. destruct (_ || _); [apply py_slice_subset | reflexivity]. }
  clearbody t0.
  destruct (if truthy sort then sorted_by sort t0 else Return t0)
    as [t1 | e] eqn:H1; [| discriminate].
  assert (H1' : t1 ⊆ t0).
  { destruct (truthy sort); [| injection H1 as <-; reflexivity].
    apply sorted_by_perm in H1. intros x Hx. rewrite <- H1. exact Hx. }
  cbn [and_then].
  destruct (if truthy search then searched search t1 else Return t1)
    as [t2 | e] eqn:H2; [| discriminate].
  assert (H2' : t2 ⊆ t1).
  { destruct (truthy search); [| injection H2 as <-; reflexivity].
    exact (searched_subset _ _ _ H2). }
  cbn [and_then]. intros [= <-]. eexists. split; [reflexivity |].
  assert (H3 : match reg with
               | Some reg => filtered reg t2
               | None => t2
               end ⊆ t2)
    by (destruct reg; [apply filtered_subset | reflexivity]).
  destruct (py_eq_str order "desc");
    [etransitivity; [apply rev_subset |] |];
    repeat (etransitivity; [eassumption |]); reflexivity.
Qed.

(** X25.  Whatever the request, every entry [get_logs] returns is a dict
    with the four fields [time], [loglevel], [msg] and [thread], each a
    text: sorting, searching and filtering only select, repeat and reorder
    the entries read from the file. *)
Theorem get_logs_entries (lines : list string)
    (rc : string -> outcome (pyval -> bool)) (kw : kwargs_t) (v : pyval) :
  get_logs_body lines rc kw = Return v ->
  exists entries templog,
    v = PList entries
    /\ read_lines lines [] = Return templog
    /\ entries ⊆ templog
    /\ Forall is_entry entries.
Proof.
  rewrite get_logs_body_eq.
  destruct (compiled rc _) as [reg | e]; [| discriminate].
  cbn [and_then].
  destruct (read_lines lines []) as [templog | e] eqn:Hread; [| discriminate].
  cbn [and_then]. intros Harr.
  apply arranged_subset in Harr as (entries & -> & Hsub).
  exists entries, templog. repeat split; [exact Hsub |].
  pose proof (read_lines_entries lines [] templog (List.Forall_nil _) Hread) as Hall.
  apply Forall_forall. intros d Hd.
  exact (proj1 (Forall_forall _ _) Hall d (Hsub d Hd)).
Qed.

Lemma arranged_unbounded (sort search order : pyval)
    (reg : option (pyval -> bool)) (templog : list pyval) :
  arranged sort search order reg 0 0 templog
  = and_then (if truthy sort then sorted_by sort templog else Return templog)
      (fun t1 =>
       and_then (if truthy search then searched search t1 else Return t1)
         (fun t2 =>
          let t3 := match reg with
                    | Some reg => filtered reg t2
                    | None => t2
                    end in
          Return (PList (if py_eq_str order "desc" then rev t3 else t3)))).
Proof. reflexivity. Qed.

(** X26.  With [sort] one of the four fields and neither [search] nor
    [regex] given, [get_logs] returns all the entries read from the file,
    each once, in the order of that field (byte order of the texts), and
    in the reverse of it when [order] is [desc], as it is when it is not
    given. *)
Theorem get_logs_sorted (lines : list string)
    (rc : string -> outcome (pyval -> bool)) (kw : kwargs_t) (f : string)
    (templog : list pyval) :
  read_lines lines [] = Return templog ->
  kw !! "sort" = Some (PStr f) ->
  f ∈ log_fields ->
  truthy (kw_get "search" (PStr "") kw) = false ->
  truthy (kw_get "regex" (PStr "") kw) = false ->
  exists l,
    get_logs_body lines rc kw
    = Return (PList (if py_eq_str (kw_get "order" (PStr "desc") kw) "desc"
                     then rev l else l))
    /\ l ≡ₚ templog
    /\ Sorted (by_field f) l.
Proof.
  intros Hread Hsort Hf Hsearch Hregex.
  pose proof (read_lines_entries lines [] templog (List.Forall_nil _) Hread)
    as Hall.
  set (keys := map (fun d => (field_of f d, d)) templog).
  exists (map snd (foldr insert_by_key [] keys)).
  assert (Hsnd : map snd keys = templog).
  { unfold keys. rewrite map_map. cbn [snd]. apply map_id. }
  split; [| split].
  - rewrite get_logs_body_eq. unfold compiled. rewrite Hregex, Hread.
    cbn [and_then]. rewrite arranged_unbounded, Hsearch.
    assert (Hs : kw_get "sort" (PStr "") kw = PStr f)
      by (unfold kw_get; rewrite Hsort; reflexivity).
    rewrite Hs.
    assert (Ht : truthy (PStr f) = true).
    { unfold log_fields in Hf.
      repeat (apply elem_of_cons in Hf as [-> | Hf]); try reflexivity.
      apply elem_of_nil in Hf. destruct Hf. }
    rewrite Ht. unfold sorted_by. rewrite (keyed_entries f templog Hall Hf).
    reflexivity.
  - etransitivity; [apply Permutation_map, sort_by_key_perm |].
    rewrite Hsnd. reflexivity.
  - apply sorted_by_field; [| apply sort_by_key_sorted].
    intros p Hp. rewrite sort_by_key_perm in Hp. unfold keys in Hp.
    apply list_elem_of_In, in_map_iff in Hp as (d & <- & _). reflexivity.
Qed.

(** X27.  With [sort] a text that is not one of the four fields, and a
    log that is not empty, [get_logs] raises [KeyError] for that text. *)
Theorem get_logs_unknown_sort_field (lines : list string)
    (rc : string -> outcome (pyval -> bool)) (kw : kwargs_t) (f : string)
    (templog : list pyval) (reg : option (pyval -> bool)) :
  read_lines lines [] = Return templog ->
  templog <> [] ->
  kw !! "sort" = Some (PStr f) ->
  f <> "" -> f ∉ log_fields ->
  compiled rc (kw_get "regex" (PStr "") kw) = Return reg ->
  get_logs_body lines rc kw = Raise (KeyError f).
Proof.
  intros Hread Hne Hsort Hf Hnot Hreg.
  pose proof (read_lines_entries lines [] templog (List.Forall_nil _) Hread)
    as Hall.
  rewrite get_logs_body_eq, Hreg, Hread. cbn [and_then].
  rewrite arranged_unbounded.
  assert (Hs : kw_get "sort" (PStr "") kw = PStr f)
    by (unfold kw_get; rewrite Hsort; reflexivity).
  rewrite Hs. cbn [truthy]. destruct (String.eqb_spec f ""); [contradiction |].
  cbn [negb]. destruct templog as [| d r]; [contradiction |].
  apply Forall_cons in Hall as [Hd _].
  unfold sorted_by. rewrite (keyed_unknown f d r Hd Hnot). reflexivity.
Qed.


Lemma sort_stage_subset (sort : pyval) (templog t1 : list pyval) :
  (if truthy sort then sorted_by sort templog else Return templog) = Return t1 ->
  t1 ⊆ templog.
Proof.
  destruct (truthy sort); [| intros [= <-]; reflexivity].
  intros H. apply sorted_by_perm in H. intros x Hx. rewrite <- H. exact Hx.
Qed.

Lemma search_stage_subset (search : pyval) (t1 t2 : list pyval) :
  (if truthy search then searched search t1 else Return t1) = Return t2 ->
  t2 ⊆ t1.
Proof.
  destruct (truthy search); [| intros [= <-]; reflexivity].
  apply searched_subset.
Qed.


(** X29.  The pattern compiled for [regex] is the text given with the
    letter [u] before it.  When it is found in no entry the filter selects
    nothing, and then [get_logs] returns what it returns without [regex]:
    all the entries, not none of them. *)
Theorem get_logs_regex_without_match (lines : list string)
    (rc : string -> outcome (pyval -> bool)) (kw : kwargs_t) (r : string)
    (reg : pyval -> bool) (templog : list pyval) :
  read_lines lines [] = Return templog ->
  kw !! "regex" = Some (PStr r) ->
  rc ("u" +:+ r) = Return reg ->
  (forall d, d ∈ templog -> reg d = false) ->
  get_logs_body lines rc kw = get_logs_body lines rc (delete "regex" kw).
Proof.
  intros Hread Hregex Hrc Hnone. rewrite !get_logs_body_eq.
  rewrite (kw_get_delete_ne "sort"), (kw_get_delete_ne "order"),
    (kw_get_delete_ne "search") by discriminate.
  assert (Hl : kw_get "regex" (PStr "") kw = PStr r)
    by (unfold kw_get; rewrite Hregex; reflexivity).
  assert (Hr : kw_get "regex" (PStr "") (delete "regex" kw) = PStr "")
    by (unfold kw_get; rewrite lookup_delete; case_decide; congruence).
  rewrite Hl, Hr. unfold compiled. cbn [truthy String.eqb negb].
  destruct (negb (String.eqb r "")); [| reflexivity].
  rewrite Hrc. cbn [and_then]. rewrite Hread. cbn [and_then].
  rewrite !arranged_unbounded.
  destruct (if truthy (kw_get "sort" (PStr "") kw) then _ else _)
    as [t1 | e] eqn:H1; [| reflexivity].
  cbn [and_then]. apply sort_stage_subset in H1.
  destruct (if truthy (kw_get "search" (PStr "") kw) then _ else _)
    as [t2 | e] eqn:H2; [| reflexivity].
  cbn [and_then]. apply search_stage_subset in H2.
  cbv zeta. unfold filtered.
  replace (filter (fun l => reg l = true) t2) with (@nil pyval); [reflexivity |].
  symmetry. apply elem_of_nil_inv. intros d Hd.
  apply list_elem_of_filter in Hd as [Hm Hd].
  rewrite (Hnone d (H1 d (H2 d Hd))) in Hm. discriminate Hm.
Qed.

(** X30.  Only the text [desc] reverses the entries, and it is what
    [order] is when it is not given: the answer without [order] and the
    answer with [desc] are both the reverse of the answer with any other
    value, which keeps the order the log has after the sort and the
    filters. *)
Theorem get_logs_order (lines : list string)
    (rc : string -> outcome (pyval -> bool)) (kw : kwargs_t) (v : pyval) :
  v <> PStr "desc" ->
  get_logs_body lines rc (delete "order" kw)
  = reversed (get_logs_body lines rc (<["order" := v]> kw))
  /\ get_logs_body lines rc (<["order" := PStr "desc"]> kw)
     = reversed (get_logs_body lines rc (<["order" := v]> kw)).
Proof.
  intros Hv.
  assert (Hother : forall w k d,
            k <> "order" ->
            kw_get k d (<["order" := w]> kw) = kw_get k d kw).
  { intros w k d Hk. unfold kw_get. rewrite lookup_insert_ne by congruence.
    reflexivity. }
  assert (Hset : forall w,
            kw_get "order" (PStr "desc") (<["order" := w]> kw) = w).
  { intros w. unfold kw_get. rewrite lookup_insert. case_decide; congruence. }
  assert (Hdel : kw_get "order" (PStr "desc") (delete "order" kw) = PStr "desc")
    by (unfold kw_get; rewrite lookup_delete; case_decide; congruence).
  assert (Hno : py_eq_str v "desc" = false).
  { destruct v; try reflexivity. cbn [py_eq_str].
    destruct (String.eqb_spec s "desc"); [congruence | reflexivity]. }
  rewrite !get_logs_body_eq.
  rewrite (kw_get_delete_ne "sort"), (kw_get_delete_ne "search"),
    (kw_get_delete_ne "regex") by discriminate.
  rewrite !Hset, Hdel. rewrite !Hother by discriminate.
  destruct (compiled rc _) as [reg | e]; [| split; reflexivity].
  cbn [and_then].
  destruct (read_lines lines []) as [templog | e]; [| split; reflexivity].
  cbn [and_then]. rewrite !arranged_unbounded, Hno.
  destruct (if truthy (kw_get "sort" (PStr "") kw) then _ else _)
    as [t1 | e]; [| split; reflexivity].
  cbn [and_then].
  destruct (if truthy (kw_get "search" (PStr "") kw) then _ else _)
    as [t2 | e]; [| split; reflexivity].
  split; reflexivity.
Qed.

Lemma get_logs_entries_witness :
  exists entries templog,
    PList [log_entry "2016-05-08 09:36:52 " "ERROR"
             "Uncaught exceptionTraceback (most recent call last):ValueError"
             "Thread-3"]
    = PList entries
    /\ read_lines sample_log [] = Return templog
    /\ entries ⊆ templog
    /\ Forall is_entry entries.
Proof.
  apply (get_logs_entries sample_log (re_compile sample_outside)
           (bag [("search", PStr "uncaught")])).
  vm_compute. reflexivity.
Defined.

Lemma get_logs_sorted_witness :
  exists l,
    get_logs_body sample_log (re_compile sample_outside)
      (bag [("sort", PStr "time"); ("order", PStr "asc")])
    = Return (PList (if py_eq_str
                          (kw_get "order" (PStr "desc")
                             (bag [("sort", PStr "time");
                                   ("order", PStr "asc")])) "desc"
                     then rev l else l))
    /\ l ≡ₚ sample_entries
    /\ Sorted (by_field "time") l.
Proof.
  apply (get_logs_sorted sample_log (re_compile sample_outside)
           (bag [("sort", PStr "time"); ("order", PStr "asc")]) "time"
           sample_entries).
  - vm_compute. reflexivity.
  - reflexivity.
  - apply list_elem_of_here.
  - reflexivity.
  - reflexivity.
Defined.

Lemma get_logs_unknown_sort_field_witness :
  get_logs_body sample_log (re_compile sample_outside)
    (bag [("sort", PStr "date")])
  = Raise (KeyError "date").
Proof.
  apply (get_logs_unknown_sort_field sample_log (re_compile sample_outside)
           (bag [("sort", PStr "date")]) "date" sample_entries None).
  - vm_compute. reflexivity.
  - discriminate.
  - reflexivity.
  - discriminate.
  - intros H. unfold log_fields in H.
    repeat (apply elem_of_cons in H as [H | H]; [discriminate H |]).
    apply elem_of_nil in H. exact H.
  - reflexivity.
Defined.


Lemma get_logs_regex_without_match_witness :
  get_logs_body sample_log (re_compile sample_outside)
    (bag [("regex", PStr "Uncaught")])
  = get_logs_body sample_log (re_compile sample_outside)
      (delete "regex" (bag [("regex", PStr "Uncaught")])).
Proof.
  apply (get_logs_regex_without_match sample_log (re_compile sample_outside)
           (bag [("regex", PStr "Uncaught")]) "Uncaught"
           (sample_pattern "uUncaught") sample_entries).
  - vm_compute. reflexivity.
  - reflexivity.
  - reflexivity.
  - intros d Hd. unfold sample_entries in Hd.
    repeat (apply elem_of_cons in Hd as [-> | Hd]; [vm_compute; reflexivity |]).
    apply elem_of_nil in Hd. destruct Hd.
Defined.

Lemma get_logs_order_witness :
  get_logs_body sample_log (re_compile sample_outside)
    (delete "order" (bag [("sort", PStr "time")]))
  = reversed (get_logs_body sample_log (re_compile sample_outside)
                (<["order" := PStr "DESC"]> (bag [("sort", PStr "time")])))
  /\ get_logs_body sample_log (re_compile sample_outside)
       (<["order" := PStr "desc"]> (bag [("sort", PStr "time")]))
     = reversed (get_logs_body sample_log (re_compile sample_outside)
                   (<["order" := PStr "DESC"]> (bag [("sort", PStr "time")]))).
Proof.
  apply (get_logs_order sample_log (re_compile sample_outside)
           (bag [("sort", PStr "time")]) (PStr "DESC")).
  discriminate.
Defined.
